(** * Validated CRUD resources: a shallow embedding of the ten services

    The repository holds ten FastAPI modules of one shape: a pydantic model
    with per-field [@validator] functions, an SQLAlchemy table keyed on an
    identity column, and four endpoints (list, create, update, delete).
    Each module is embedded below under its own name, function by function;
    a table then puts the ten services side by side, and the contract of the
    specification is proved for every one of them.

    Conventions of the embedding.
    - A Python [str] is a [string]; a character is a code point below 256,
      and the character classes of [str.isdigit], [str.isalnum],
      [str.strip] and of the [re] module are the Unicode ones restricted to
      that range.  Message literals are kept as the bytes of the source text;
      the code never inspects them.
    - A Python [int] is a [Z], a [float] is a binary64 [float], a naive
      [datetime] is a [Z] (microseconds on the time line), and
      [datetime.now()] is an explicit argument.
    - A table is the list of its rows in store order; nothing in the list
      forbids two rows under one identity, so that uniqueness is a property
      of the endpoints and not of the representation.  The session calls
      [query.filter(...).first()], [db.add], [setattr] on the fetched row and
      [db.delete] act on that list; every endpoint commits before it returns,
      and an endpoint that raises before touching the session leaves the
      table as it was.
    - [db.commit()] can raise.  The SQLite driver binds an [int] as a signed
      64-bit integer and raises [OverflowError] beyond it; it binds a NaN as
      NULL, which a column declared [nullable=False] refuses with
      [IntegrityError].  No endpoint catches either: the request is answered
      with a 500, the session is closed without the pending change, and the
      table stays as it was.  The model validators do not exclude such
      values, for instance [pages] has no upper bound and a range check
      written with [<] and [>] lets a NaN through.
    - An endpoint is a function from its arguments and the table to the
      response and the new table; a raised [HTTPException] is a response.
      How the framework renders the returned value as JSON is not part of
      the embedding. *)

From Stdlib Require Import String Ascii List Bool Arith ZArith NArith Lia Floats.
From Stdlib Require Import DecimalString.
Import ListNotations.

Local Open Scope string_scope.
Local Open Scope bool_scope.
Local Open Scope list_scope.

(** ** Python strings *)

Module PyStr.

Definition code (c : ascii) : N := N_of_ascii c.

Definition between (lo hi : N) (c : ascii) : bool :=
  (lo <=? code c)%N && (code c <=? hi)%N.

Definition is_code (n : N) (c : ascii) : bool := (code c =? n)%N.

(** Unicode category Nd below 256: the ASCII digits. *)
Definition char_isdecimal (c : ascii) : bool := between 48 57 c.

(** [str.isdigit] also accepts the superscripts two, three and one. *)
Definition char_isdigit (c : ascii) : bool :=
  char_isdecimal c || is_code 178 c || is_code 179 c || is_code 185 c.

(** [str.isnumeric] adds the vulgar fractions. *)
Definition char_isnumeric (c : ascii) : bool :=
  char_isdigit c || between 188 190 c.

(** Letters below 256: ASCII, the ordinal indicators, the micro sign and
    the Latin-1 letters (multiplication and division signs excluded). *)
Definition char_isalpha (c : ascii) : bool :=
  between 65 90 c || between 97 122 c || is_code 170 c || is_code 181 c || is_code 186 c
  || between 192 214 c || between 216 246 c || between 248 255 c.

Definition char_isalnum (c : ascii) : bool :=
  char_isalpha c || char_isdecimal c || char_isdigit c || char_isnumeric c.

(** Whitespace for [str.strip()]. *)
Definition char_isspace (c : ascii) : bool :=
  between 9 13 c || between 28 32 c || is_code 133 c || is_code 160 c.

Fixpoint all (p : ascii -> bool) (s : string) : bool :=
  match s with
  | EmptyString => true
  | String c s' => p c && all p s'
  end.

(** An empty string is falsy. *)
Definition truthy (s : string) : bool :=
  match s with
  | EmptyString => false
  | String _ _ => true
  end.

(** [s.isdigit()]: at least one character and all of them digits. *)
Definition isdigit (s : string) : bool := truthy s && all char_isdigit s.

Definition isalnum (s : string) : bool := truthy s && all char_isalnum s.

Definition len (s : string) : nat := String.length s.

Fixpoint lstrip (s : string) : string :=
  match s with
  | EmptyString => EmptyString
  | String c s' => if char_isspace c then lstrip s' else s
  end.

Fixpoint rstrip (s : string) : string :=
  match s with
  | EmptyString => EmptyString
  | String c s' =>
      match rstrip s' with
      | EmptyString => if char_isspace c then EmptyString else String c EmptyString
      | t => String c t
      end
  end.

Definition strip (s : string) : string := rstrip (lstrip s).

(** [str(n)] for a length. *)
Definition of_nat (n : nat) : string := NilEmpty.string_of_uint (Nat.to_uint n).

End PyStr.

(** ** The [re] module, for the patterns the validators use

    The patterns are regular (the password pattern adds lookaheads at the
    start, which are intersections), so whether [re.match] or [re.search]
    finds a match is membership in a language; it is decided here with
    derivatives. *)

Module Re.

Inductive regex : Type :=
| Nul                                  (* matches nothing *)
| Eps                                  (* the empty string *)
| Cls (p : ascii -> bool)              (* one character of a class *)
| Cat (r1 r2 : regex)
| Alt (r1 r2 : regex)
| And (r1 r2 : regex)
| Star (r : regex).

Fixpoint nullable (r : regex) : bool :=
  match r with
  | Nul => false
  | Eps => true
  | Cls _ => false
  | Cat r1 r2 => nullable r1 && nullable r2
  | Alt r1 r2 => nullable r1 || nullable r2
  | And r1 r2 => nullable r1 && nullable r2
  | Star _ => true
  end.

Fixpoint deriv (c : ascii) (r : regex) : regex :=
  match r with
  | Nul => Nul
  | Eps => Nul
  | Cls p => if p c then Eps else Nul
  | Cat r1 r2 =>
      if nullable r1
      then Alt (Cat (deriv c r1) r2) (deriv c r2)
      else Cat (deriv c r1) r2
  | Alt r1 r2 => Alt (deriv c r1) (deriv c r2)
  | And r1 r2 => And (deriv c r1) (deriv c r2)
  | Star r1 => Cat (deriv c r1) (Star r1)
  end.

(** The whole of [s] is in the language of [r]. *)
Fixpoint fullmatch (r : regex) (s : string) : bool :=
  match s with
  | EmptyString => nullable r
  | String c s' => fullmatch (deriv c r) s'
  end.

(** The strings a pattern denotes. *)
Inductive lang : regex -> string -> Prop :=
| lang_eps : lang Eps EmptyString
| lang_cls p c : p c = true -> lang (Cls p) (String c EmptyString)
| lang_cat r1 r2 s1 s2 :
    lang r1 s1 -> lang r2 s2 -> lang (Cat r1 r2) (String.append s1 s2)
| lang_alt_l r1 r2 s : lang r1 s -> lang (Alt r1 r2) s
| lang_alt_r r1 r2 s : lang r2 s -> lang (Alt r1 r2) s
| lang_and r1 r2 s : lang r1 s -> lang r2 s -> lang (And r1 r2) s
| lang_star_nil r : lang (Star r) EmptyString
| lang_star_app r s1 s2 :
    lang r s1 -> lang (Star r) s2 -> lang (Star r) (String.append s1 s2).

(** Character classes. *)
Definition chr (c : ascii) : regex := Cls (Ascii.eqb c).
Definition upper : ascii -> bool := PyStr.between 65 90.       (* A-Z *)
Definition lower : ascii -> bool := PyStr.between 97 122.      (* a-z *)
Definition digit : ascii -> bool := PyStr.char_isdecimal.      (* \d *)
Definition ascii_digit : ascii -> bool := PyStr.between 48 57. (* 0-9 *)
Definition one_of (s : string) (c : ascii) : bool :=
  existsb (Ascii.eqb c) (list_ascii_of_string s).
Definition union (p q : ascii -> bool) (c : ascii) : bool := p c || q c.
Definition any : regex := Cls (fun _ => true).
Definition dot : regex := Cls (fun c => negb (PyStr.is_code 10 c)).  (* . *)

Fixpoint lit (s : string) : regex :=
  match s with
  | EmptyString => Eps
  | String c s' => Cat (chr c) (lit s')
  end.

(** [r{n}], [r{n,}], [r+] and [r{m,n}]. *)
Fixpoint times (n : nat) (r : regex) : regex :=
  match n with
  | O => Eps
  | S n' => Cat r (times n' r)
  end.

Definition at_least (n : nat) (r : regex) : regex := Cat (times n r) (Star r).

Definition plus (r : regex) : regex := at_least 1 r.

Fixpoint up_to (n : nat) (r : regex) : regex :=
  match n with
  | O => Eps
  | S n' => Alt Eps (Cat r (up_to n' r))
  end.

Definition from_to (m n : nat) (r : regex) : regex :=
  Cat (times m r) (up_to (n - m) r).

(** [$] without MULTILINE: the end of the string, or just before a
    newline that ends it. *)
Definition dollar : regex := Alt Eps (chr "010"%char).

(** [(?=r)] at the start of a pattern: [r] matches a prefix of the input. *)
Definition lookahead (r : regex) : regex := Cat r (Star any).

(** [re.match(r'^body$', s)] is not [None]. *)
Definition match_anchored (body : regex) (s : string) : bool :=
  fullmatch (Cat body dollar) s.

(** [re.search(r, s)] is not [None]. *)
Definition search (r : regex) (s : string) : bool :=
  fullmatch (Cat (Star any) (Cat r (Star any))) s.

End Re.

(** ** pydantic: field validators and the model validation loop *)

(** What a [@validator] function does with a value: return it, or raise
    [ValueError] with a message. *)
Inductive Checked (A : Type) : Type :=
| Return (value : A)
| ValueError (message : string).

Arguments Return {A} value.
Arguments ValueError {A} message.

(** One entry of a [ValidationError]: the field and the reason. *)
Record ValidationFailure : Type := Failure {
  loc : string;
  msg : string
}.

(** The outcome of validating a model: the instance, or the collected
    errors. *)
Definition Validated (A : Type) : Type := (A + list ValidationFailure)%type.

Definition pure {A : Type} (a : A) : Validated A := inl a.

(** A field with a validator: its value on return, one error on raise. *)
Definition field {A : Type} (name : string) (c : Checked A) : Validated A :=
  match c with
  | Return v => inl v
  | ValueError m => inr [Failure name m]
  end.

(** A field without a validator keeps its (already typed) value. *)
Definition plain {A : Type} (v : A) : Validated A := inl v.

(** The validation loop of a pydantic model (library code, which the
    modules rely on through [BaseModel]) visits the fields in declaration
    order; a field that fails adds its error and the loop goes on to the
    next field; the instance is built only when no field failed. *)
Definition ap {A B : Type} (f : Validated (A -> B)) (x : Validated A) : Validated B :=
  match f, x with
  | inl g, inl a => inl (g a)
  | inl _, inr e => inr e
  | inr e, inl _ => inr e
  | inr e1, inr e2 => inr (e1 ++ e2)
  end.

Notation "f <*> x" := (ap f x) (at level 52, left associativity).

Definition failures {A : Type} (v : Validated A) : list ValidationFailure :=
  match v with
  | inl _ => []
  | inr e => e
  end.

(** What one field reports on its own. *)
Definition raised {A : Type} (name : string) (c : Checked A) : list ValidationFailure :=
  failures (field name c).

(** ** Responses *)

(** The ["data"] member of a response. *)
Inductive Payload (E : Type) : Type :=
| Entity (e : E)                         (* the model, or its dict *)
| Key (column : string) (value : string).  (* {"<identity column>": value} *)

Arguments Entity {E} e.
Arguments Key {E} column value.

Inductive Response (E : Type) : Type :=
| Text (message : string)                              (* return "..." *)
| Message (message : string)                           (* return {"message": ...} *)
| MessageData (message : string) (data : Payload E)    (* return {"message": ..., "data": ...} *)
| HTTPException (status_code : Z) (detail : string)    (* raise HTTPException(...) *)
| Unprocessable (errors : list ValidationFailure)      (* the body failed validation: 422 *)
| ServerError (errors : list ValidationFailure)        (* uncaught ValidationError: 500 *)
| CommitError.                                         (* db.commit() raised, uncaught: 500 *)

Arguments Text {E} message.
Arguments Message {E} message.
Arguments MessageData {E} message data.
Arguments HTTPException {E} status_code detail.
Arguments Unprocessable {E} errors.
Arguments ServerError {E} errors.
Arguments CommitError {E}.

(** What a list endpoint returns. *)
Inductive Listing (E : Type) : Type :=
| Rows (results : list E)                       (* return query.all() *)
| Found (message : string) (data : list E)      (* {"message": f"...", "data": ...} *)
| ListingError (errors : list ValidationFailure).

Arguments Rows {E} results.
Arguments Found {E} message data.
Arguments ListingError {E} errors.

(** The records a listing carries. *)
Definition records {E : Type} (l : Listing E) : list E :=
  match l with
  | Rows results => results
  | Found _ data => data
  | ListingError _ => []
  end.

(** ** The SQLAlchemy session over one table *)

Module Db.

(** A value of an [Integer] column is bound as a signed 64-bit integer;
    the driver raises [OverflowError] on any other [int]. *)
Definition int64 (v : Z) : bool := (- 2 ^ 63 <=? v)%Z && (v <? 2 ^ 63)%Z.

(** A NaN is bound as NULL; every [Float] column of the repository is
    declared [nullable=False], so the table refuses it with
    [IntegrityError].  The infinities are stored as they are. *)
Definition not_null (x : float) : bool := negb (PrimFloat.is_nan x).

Section Session.

Context {Row : Type}.

(** [query.filter(column == value)] on a string column. *)
Definition where_eq (column : Row -> string) (value : string) (query : list Row) : list Row :=
  filter (fun row => column row =? value) query.

(** [if value: query = query.filter(column == value)] for an optional
    string parameter whose default is [None]. *)
Definition filter_if (value : option string) (column : Row -> string)
    (query : list Row) : list Row :=
  match value with
  | Some v => if PyStr.truthy v then where_eq column v query else query
  | None => query
  end.

(** The same for a parameter typed by an enumeration; its members are
    non-empty strings, hence truthy, and are compared by name. *)
Definition filter_if_member {T : Type} (name_of : T -> string) (value : option T)
    (column : Row -> T) (query : list Row) : list Row :=
  match value with
  | Some v => where_eq (fun row => name_of (column row)) (name_of v) query
  | None => query
  end.

(** [query.first()]. *)
Definition first (query : list Row) : option Row :=
  match query with
  | [] => None
  | row :: _ => Some row
  end.

(** The table once the INSERT of [row] has been committed. *)
Definition inserted (row : Row) (db : list Row) : list Row := db ++ [row].

(** The table once the UPDATE that sets every column of the fetched row to
    [values] has been committed: the fetched row is the first one under the
    identity [k]. *)
Fixpoint rewritten (column : Row -> string) (k : string) (values : Row) (db : list Row) : list Row :=
  match db with
  | [] => []
  | row :: rest =>
      if column row =? k then values :: rest
      else row :: rewritten column k values rest
  end.

(** [db.add(row); db.commit()].  The commit sends the INSERT; when the
    driver cannot bind a value of the row, or the table refuses it, the
    commit raises and nothing is stored ([None]). *)
Definition add (storable : Row -> bool) (row : Row) (db : list Row) : option (list Row) :=
  if storable row then Some (inserted row db) else None.

(** [setattr] of every column on the fetched row, then [db.commit()].  The
    commit sends the UPDATE with the new values; when it raises, the session
    is closed without it and the old row stays ([None]).  The UPDATE carries
    the columns whose value changes: a value the table cannot hold is none
    of a stored row, so it is always one of them. *)
Definition setattrs (storable : Row -> bool) (column : Row -> string) (k : string)
    (values : Row) (db : list Row) : option (list Row) :=
  if storable values then Some (rewritten column k values db) else None.

(** [db.delete(row); db.commit()] for the fetched row. *)
Fixpoint delete (column : Row -> string) (k : string) (db : list Row) : list Row :=
  match db with
  | [] => []
  | row :: rest =>
      if column row =? k then rest
      else row :: delete column k rest
  end.

End Session.

End Db.

(** FastAPI validates a request body against the model before the endpoint
    runs; on failure the endpoint is not called. *)
Definition with_body {E : Type} (validate : E -> Validated E)
    (endpoint : E -> list E -> Response E * list E)
    (body : E) (db : list E) : Response E * list E :=
  match validate body with
  | inl model => endpoint model db
  | inr errors => (Unprocessable errors, db)
  end.

(** ** 12.03.2025/inn.py *)

Module Inn.

Inductive Gender : Type := MALE | FEMALE.

Definition Gender_value (g : Gender) : string :=
  match g with
  | MALE => "MALE"
  | FEMALE => "FEMALE"
  end.

Record User_inn : Type := Build_User_inn {
  inn : string;
  gender : Gender;
  name : string;
  first_name : string;
  last_name : string;
  address : string
}.

(** A row of [users] has the columns of the model. *)
Definition UserDB : Type := User_inn.

(** Every column of [users] is a string or an enumeration. *)
Definition storable (_ : UserDB) : bool :=
  true.

Definition validate_inn (inn : string) : Checked string :=
  if negb (PyStr.isdigit inn) then
    ValueError "ИНН должен состоять только из цифр"
  else if negb ((PyStr.len inn =? 10)%nat || (PyStr.len inn =? 12)%nat) then
    ValueError "ИНН должен состоять из 10 или 12 цифр"
  else Return inn.

Definition validate (raw : User_inn) : Validated User_inn :=
  pure Build_User_inn
    <*> field "inn" (validate_inn (inn raw))
    <*> plain (gender raw)
    <*> plain (name raw)
    <*> plain (first_name raw)
    <*> plain (last_name raw)
    <*> plain (address raw).

Definition get_user (user_inn user_name user_first_name user_last_name
                     user_address user_gender : option string)
    (db : list UserDB) : Listing UserDB :=
  let query := db in
  let query := Db.filter_if user_inn inn query in
  let query := Db.filter_if user_name name query in
  let query := Db.filter_if user_first_name first_name query in
  let query := Db.filter_if user_last_name last_name query in
  let query := Db.filter_if user_address address query in
  let query := Db.filter_if user_gender (fun row => Gender_value (gender row)) query in
  Rows query.

Definition create_user (new_user : User_inn) (db : list UserDB)
    : Response User_inn * list UserDB :=
  match Db.first (Db.where_eq inn (inn new_user) db) with
  | Some _ => (Text "Пользователь с таким ИНН уже существует", db)
  | None =>
      match Db.add storable new_user db with
      | Some db => (Text "Пользователь успешно создан", db)
      | None => (CommitError, db)
      end
  end.

Definition update_user (user_inn : string) (new_user : User_inn) (db : list UserDB)
    : Response User_inn * list UserDB :=
  if negb (user_inn =? inn new_user) then
    (Text "ИНН в теле запроса не совпадает с указанным в пути", db)
  else
    match Db.first (Db.where_eq inn user_inn db) with
    | None => (Text "Пользователя с таким ИНН не существует", db)
    | Some _ =>
        match Db.setattrs storable inn user_inn new_user db with
        | Some db => (Text "Пользователь успешно обновлён", db)
        | None => (CommitError, db)
        end
    end.

Definition delete_user (user_inn : string) (db : list UserDB)
    : Response User_inn * list UserDB :=
  match Db.first (Db.where_eq inn user_inn db) with
  | None => (Text "Пользователя с таким ИНН не существует", db)
  | Some _ => (Text "Пользователь с таким ИНН удалён", Db.delete inn user_inn db)
  end.

End Inn.

(** ** 13.03.2025/Book.py *)

Module Book.

Inductive Genre : Type := FICTION | NON_FICTION | SCIENCE.

Definition Genre_value (g : Genre) : string :=
  match g with
  | FICTION => "FICTION"
  | NON_FICTION => "NON_FICTION"
  | SCIENCE => "SCIENCE"
  end.

Record Book : Type := Build_Book {
  isbn : string;
  genre : Genre;
  title : string;
  author : string;
  pages : Z
}.

Definition BookDB : Type := Book.

(** [pages] is the one [Integer] column of [books]. *)
Definition storable (row : BookDB) : bool :=
  Db.int64 (pages row).

Definition validate_isbn (isbn : string) : Checked string :=
  if negb (PyStr.isdigit isbn) then
    ValueError "ISBN должен состоять только из цифр"
  else if negb ((PyStr.len isbn =? 10)%nat || (PyStr.len isbn =? 13)%nat) then
    ValueError "ISBN должен состоять из 10 или 13 цифр"
  else Return isbn.

Definition validate_pages (pages : Z) : Checked Z :=
  if (pages <=? 0)%Z then
    ValueError "Количество страниц должно быть больше 0"
  else Return pages.

Definition validate (raw : Book) : Validated Book :=
  pure Build_Book
    <*> field "isbn" (validate_isbn (isbn raw))
    <*> plain (genre raw)
    <*> plain (title raw)
    <*> plain (author raw)
    <*> field "pages" (validate_pages (pages raw)).

Definition get_book (book_isbn book_title book_author book_genre : option string)
    (db : list BookDB) : Listing BookDB :=
  let query := db in
  let query := Db.filter_if book_isbn isbn query in
  let query := Db.filter_if book_title title query in
  let query := Db.filter_if book_author author query in
  let query := Db.filter_if book_genre (fun row => Genre_value (genre row)) query in
  Rows query.

Definition create_book (new_book : Book) (db : list BookDB)
    : Response Book * list BookDB :=
  match Db.first (Db.where_eq isbn (isbn new_book) db) with
  | Some _ => (Text "Книга с таким ISBN уже существует", db)
  | None =>
      match Db.add storable new_book db with
      | Some db => (Text "Книга успешно добавлена", db)
      | None => (CommitError, db)
      end
  end.

Definition update_book (book_isbn : string) (new_book : Book) (db : list BookDB)
    : Response Book * list BookDB :=
  if negb (book_isbn =? isbn new_book) then
    (Text "ISBN в теле запроса не совпадает с указанным в пути", db)
  else
    match Db.first (Db.where_eq isbn book_isbn db) with
    | None => (Text "Книги с таким ISBN не существует", db)
    | Some _ =>
        match Db.setattrs storable isbn book_isbn new_book db with
        | Some db => (Text "Книга успешно обновлена", db)
        | None => (CommitError, db)
        end
    end.

Definition delete_book (book_isbn : string) (db : list BookDB)
    : Response Book * list BookDB :=
  match Db.first (Db.where_eq isbn book_isbn db) with
  | None => (Text "Книги с таким ISBN не существует", db)
  | Some _ => (Text "Книга успешно удалена", Db.delete isbn book_isbn db)
  end.

End Book.

(** ** 14.03.2025/KEno.py *)

Module KEno.

Inductive MovieGenre : Type := ACTION | DRAMA | COMEDY | SCI_FI.

Definition MovieGenre_name (g : MovieGenre) : string :=
  match g with
  | ACTION => "ACTION"
  | DRAMA => "DRAMA"
  | COMEDY => "COMEDY"
  | SCI_FI => "SCI_FI"
  end.

Record Movie : Type := Build_Movie {
  movie_id : string;
  genre : MovieGenre;
  title : string;
  director : string;
  release_year : Z
}.

Definition MovieDB : Type := Movie.

(** [release_year] is the one [Integer] column of [movies]. *)
Definition storable (row : MovieDB) : bool :=
  Db.int64 (release_year row).

Definition validate_movie_id (movie_id : string) : Checked string :=
  if negb (PyStr.isalnum movie_id) then
    ValueError "ID фильма должен состоять только из букв и цифр"
  else if (PyStr.len movie_id <? 5)%nat then
    ValueError "ID фильма должен быть длиной не менее 5 символов"
  else Return movie_id.

Definition validate_release_year (release_year : Z) : Checked Z :=
  if (release_year <? 1888)%Z || (release_year >? 2025)%Z then
    ValueError "Год выпуска должен быть между 1888 и 2025"
  else Return release_year.

Definition validate (raw : Movie) : Validated Movie :=
  pure Build_Movie
    <*> field "movie_id" (validate_movie_id (movie_id raw))
    <*> plain (genre raw)
    <*> plain (title raw)
    <*> plain (director raw)
    <*> field "release_year" (validate_release_year (release_year raw)).

Definition get_movies (movie_id_ title_ director_ genre_ : option string)
    (db : list MovieDB) : Listing MovieDB :=
  let query := db in
  let query := Db.filter_if movie_id_ movie_id query in
  let query := Db.filter_if title_ title query in
  let query := Db.filter_if director_ director query in
  let query := Db.filter_if genre_ (fun row => MovieGenre_name (genre row)) query in
  Rows query.

Definition create_movie (movie : Movie) (db : list MovieDB)
    : Response Movie * list MovieDB :=
  match Db.first (Db.where_eq movie_id (movie_id movie) db) with
  | Some _ => (HTTPException 400 "Фильм с таким ID уже существует", db)
  | None =>
      match Db.add storable movie db with
      | Some db => (Message "Фильм успешно создан", db)
      | None => (CommitError, db)
      end
  end.

Definition update_movie (movie_id_ : string) (movie : Movie) (db : list MovieDB)
    : Response Movie * list MovieDB :=
  if negb (movie_id_ =? movie_id movie) then
    (HTTPException 400 "ID фильма в пути и теле запроса не совпадают", db)
  else
    match Db.first (Db.where_eq movie_id movie_id_ db) with
    | None => (HTTPException 404 "Фильм не найден", db)
    | Some _ =>
        match Db.setattrs storable movie_id movie_id_ movie db with
        | Some db => (Message "Фильм успешно обновлен", db)
        | None => (CommitError, db)
        end
    end.

Definition delete_movie (movie_id_ : string) (db : list MovieDB)
    : Response Movie * list MovieDB :=
  match Db.first (Db.where_eq movie_id movie_id_ db) with
  | None => (HTTPException 404 "Фильм не найден", db)
  | Some _ => (Message "Фильм успешно удален", Db.delete movie_id movie_id_ db)
  end.

End KEno.

(** ** 15.03.2025/To_Do_List.py *)

Module To_Do_List.

Inductive TaskStatus : Type := PENDING | IN_PROGRESS | COMPLETED.

Definition TaskStatus_name (s : TaskStatus) : string :=
  match s with
  | PENDING => "PENDING"
  | IN_PROGRESS => "IN_PROGRESS"
  | COMPLETED => "COMPLETED"
  end.

Inductive TaskPriority : Type := LOW | MEDIUM | HIGH.

Definition TaskPriority_name (p : TaskPriority) : string :=
  match p with
  | LOW => "LOW"
  | MEDIUM => "MEDIUM"
  | HIGH => "HIGH"
  end.

Record Task : Type := Build_Task {
  task_id : string;
  status : TaskStatus;
  description : string;
  priority : TaskPriority;
  created_at : Z
}.

Definition TaskDB : Type := Task.

(** [tasks] has string, enumeration and [DateTime] columns only. *)
Definition storable (_ : TaskDB) : bool :=
  true.

Definition validate_task_id (task_id : string) : Checked string :=
  if negb (PyStr.isalnum task_id) then
    ValueError "ID задачи должен состоять только из букв и цифр"
  else if (PyStr.len task_id <? 3)%nat then
    ValueError "ID задачи должен быть длиной не менее 3 символов"
  else Return task_id.

Definition validate_description (description : string) : Checked string :=
  if (PyStr.len (PyStr.strip description) <? 5)%nat then
    ValueError "Описание задачи должно быть длиной не менее 5 символов"
  else Return description.

Definition validate_created_at (now : Z) (created_at : Z) : Checked Z :=
  if (created_at >? now)%Z then
    ValueError "Дата создания не может быть в будущем"
  else Return created_at.

Definition validate (now : Z) (raw : Task) : Validated Task :=
  pure Build_Task
    <*> field "task_id" (validate_task_id (task_id raw))
    <*> plain (status raw)
    <*> field "description" (validate_description (description raw))
    <*> plain (priority raw)
    <*> field "created_at" (validate_created_at now (created_at raw)).

Definition get_tasks (task_id_ status_ priority_ : option string)
    (db : list TaskDB) : Listing TaskDB :=
  let query := db in
  let query := Db.filter_if task_id_ task_id query in
  let query := Db.filter_if status_ (fun row => TaskStatus_name (status row)) query in
  let query := Db.filter_if priority_ (fun row => TaskPriority_name (priority row)) query in
  Rows query.

Definition create_task (task : Task) (db : list TaskDB)
    : Response Task * list TaskDB :=
  match Db.first (Db.where_eq task_id (task_id task) db) with
  | Some _ => (HTTPException 400 "Задача с таким ID уже существует", db)
  | None =>
      match Db.add storable task db with
      | Some db => (Message "Задача успешно создана", db)
      | None => (CommitError, db)
      end
  end.

Definition update_task (task_id_ : string) (task : Task) (db : list TaskDB)
    : Response Task * list TaskDB :=
  if negb (task_id_ =? task_id task) then
    (HTTPException 400 "ID задачи в пути и теле запроса не совпадают", db)
  else
    match Db.first (Db.where_eq task_id task_id_ db) with
    | None => (HTTPException 404 "Задача не найдена", db)
    | Some _ =>
        match Db.setattrs storable task_id task_id_ task db with
        | Some db => (Message "Задача успешно обновлена", db)
        | None => (CommitError, db)
        end
    end.

Definition delete_task (task_id_ : string) (db : list TaskDB)
    : Response Task * list TaskDB :=
  match Db.first (Db.where_eq task_id task_id_ db) with
  | None => (HTTPException 404 "Задача не найдена", db)
  | Some _ => (Message "Задача успешно удалена", Db.delete task_id task_id_ db)
  end.

End To_Do_List.

(** ** 16.03.2025/events.py *)

Module Events.

Inductive EventType : Type := CONFERENCE | WORKSHOP | PARTY | SEMINAR.

Definition EventType_name (t : EventType) : string :=
  match t with
  | CONFERENCE => "CONFERENCE"
  | WORKSHOP => "WORKSHOP"
  | PARTY => "PARTY"
  | SEMINAR => "SEMINAR"
  end.

Record Event : Type := Build_Event {
  event_id : string;
  name : string;
  date : Z;
  location : string;
  event_type : EventType
}.

Definition EventDB : Type := Event.

(** [events] has string, enumeration and [DateTime] columns only. *)
Definition storable (_ : EventDB) : bool :=
  true.

Definition validate_event_id (event_id : string) : Checked string :=
  if negb (PyStr.isalnum event_id) then
    ValueError "ID события должен состоять только из букв и цифр"
  else if (PyStr.len event_id <? 4)%nat then
    ValueError "ID события должен быть длиной не менее 4 символов"
  else Return event_id.

Definition validate_name (name : string) : Checked string :=
  if (PyStr.len (PyStr.strip name) <? 3)%nat then
    ValueError "Название события должно быть длиной не менее 3 символов"
  else Return name.

Definition validate_date (now : Z) (date : Z) : Checked Z :=
  if (date <? now)%Z then
    ValueError "Дата события не может быть в прошлом"
  else Return date.

Definition validate (now : Z) (raw : Event) : Validated Event :=
  pure Build_Event
    <*> field "event_id" (validate_event_id (event_id raw))
    <*> field "name" (validate_name (name raw))
    <*> field "date" (validate_date now (date raw))
    <*> plain (location raw)
    <*> plain (event_type raw).

Definition get_events (event_id_ name_ location_ event_type_ : option string)
    (db : list EventDB) : Listing EventDB :=
  let query := db in
  let query := Db.filter_if event_id_ event_id query in
  let query := Db.filter_if name_ name query in
  let query := Db.filter_if location_ location query in
  let query := Db.filter_if event_type_ (fun row => EventType_name (event_type row)) query in
  Rows query.

Definition create_event (event : Event) (db : list EventDB)
    : Response Event * list EventDB :=
  match Db.first (Db.where_eq event_id (event_id event) db) with
  | Some _ => (HTTPException 400 "Событие с таким ID уже существует", db)
  | None =>
      match Db.add storable event db with
      | Some db => (Message "Событие успешно создано", db)
      | None => (CommitError, db)
      end
  end.

Definition update_event (event_id_ : string) (event : Event) (db : list EventDB)
    : Response Event * list EventDB :=
  if negb (event_id_ =? event_id event) then
    (HTTPException 400 "ID события в пути и теле запроса не совпадают", db)
  else
    match Db.first (Db.where_eq event_id event_id_ db) with
    | None => (HTTPException 404 "Событие не найдено", db)
    | Some _ =>
        match Db.setattrs storable event_id event_id_ event db with
        | Some db => (Message "Событие успешно обновлено", db)
        | None => (CommitError, db)
        end
    end.

Definition delete_event (event_id_ : string) (db : list EventDB)
    : Response Event * list EventDB :=
  match Db.first (Db.where_eq event_id event_id_ db) with
  | None => (HTTPException 404 "Событие не найдено", db)
  | Some _ => (Message "Событие успешно удалено", Db.delete event_id event_id_ db)
  end.

End Events.

(** ** 17.03.2025/login.py *)

Module Login.

Inductive GenderType : Type := MAN | WOMEN.

Definition GenderType_name (g : GenderType) : string :=
  match g with
  | MAN => "MAN"
  | WOMEN => "WOMEN"
  end.

Record User : Type := Build_User {
  mail_ID : string;
  password : string;
  first_name : string;
  last_name : string;
  patronymic : string;
  gender : GenderType;
  age : Z
}.

Definition UserDB : Type := User.

(** [age] is the one [Integer] column of [users]. *)
Definition storable (row : UserDB) : bool :=
  Db.int64 (age row).

Definition validator_age (age : Z) : Checked Z :=
  if (age <? 18)%Z then
    ValueError "Ваш возраст не соответствует минимальному, минимальный возраст 18 лет"
  else Return age.

Definition special : ascii -> bool := Re.one_of "@$!%*#?&".

(** [^(?=.*[a-z])(?=.*[A-Z])(?=.*\d)(?=.*[@$!%*#?&])[A-Za-z\d@$!%*#?&]{8,}$] *)
Definition password_pattern : Re.regex :=
  Re.And (Re.lookahead (Re.Cat (Re.Star Re.dot) (Re.Cls Re.lower)))
 (Re.And (Re.lookahead (Re.Cat (Re.Star Re.dot) (Re.Cls Re.upper)))
 (Re.And (Re.lookahead (Re.Cat (Re.Star Re.dot) (Re.Cls Re.digit)))
 (Re.And (Re.lookahead (Re.Cat (Re.Star Re.dot) (Re.Cls special)))
         (Re.Cat
            (Re.at_least 8
               (Re.Cls (Re.union Re.upper (Re.union Re.lower (Re.union Re.digit special)))))
            Re.dollar)))).

Definition validator_password (password : string) : Checked string :=
  if negb (Re.fullmatch password_pattern password) then
    ValueError "Пароль должен содержать минимум 8 символов, включая хотя бы одну заглавную букву, одну строчную букву, одну цифру и один спецсимвол (@$!%*#?&)"
  else Return password.

Definition alnum_ascii : ascii -> bool :=
  Re.union Re.lower (Re.union Re.upper Re.ascii_digit).

(** [[a-zA-Z0-9._%+-]+@[a-zA-Z0-9.-]+\.[a-zA-Z]{2,}] *)
Definition mail_pattern : Re.regex :=
  Re.Cat (Re.plus (Re.Cls (Re.union alnum_ascii (Re.one_of "._%+-"))))
 (Re.Cat (Re.chr "@")
 (Re.Cat (Re.plus (Re.Cls (Re.union alnum_ascii (Re.one_of ".-"))))
 (Re.Cat (Re.chr ".")
         (Re.at_least 2 (Re.Cls (Re.union Re.lower Re.upper)))))).

Definition validator_mail (mail_ID : string) : Checked string :=
  if negb (Re.match_anchored mail_pattern mail_ID) then
    ValueError "Неверный формат email. Пример: user@example.com"
  else Return mail_ID.

Definition validator_first_name (first_name : string) : Checked string :=
  if (PyStr.len (PyStr.strip first_name) <? 2)%nat then
    ValueError "Имя должно содержать минимум 2 символа"
  else Return first_name.

Definition validator_last_name (last_name : string) : Checked string :=
  if (PyStr.len (PyStr.strip last_name) <? 2)%nat then
    ValueError "Фамилия должна содержать минимум 2 символа"
  else Return last_name.

Definition validator_patronymic (patronymic : string) : Checked string :=
  if (PyStr.len (PyStr.strip patronymic) <? 2)%nat then
    ValueError "Отчество должно содержать минимум 2 символа"
  else Return patronymic.

Definition validate (raw : User) : Validated User :=
  pure Build_User
    <*> field "mail_ID" (validator_mail (mail_ID raw))
    <*> field "password" (validator_password (password raw))
    <*> field "first_name" (validator_first_name (first_name raw))
    <*> field "last_name" (validator_last_name (last_name raw))
    <*> field "patronymic" (validator_patronymic (patronymic raw))
    <*> plain (gender raw)
    <*> field "age" (validator_age (age raw)).

Definition get_users (mail_ID_ first_name_ last_name_ : option string)
    (gender_ : option GenderType) (db : list UserDB) : Listing UserDB :=
  let query := db in
  let query := Db.filter_if mail_ID_ mail_ID query in
  let query := Db.filter_if first_name_ first_name query in
  let query := Db.filter_if last_name_ last_name query in
  let query := Db.filter_if_member GenderType_name gender_ gender query in
  Rows query.

Definition create_user (user : User) (db : list UserDB)
    : Response User * list UserDB :=
  match Db.first (Db.where_eq mail_ID (mail_ID user) db) with
  | Some _ => (HTTPException 400 "Пользователь с таким email уже существует", db)
  | None =>
      match Db.add storable user db with
      | Some db => (Message "Пользователь успешно создан", db)
      | None => (CommitError, db)
      end
  end.

Definition update_user (mail_ID_ : string) (user : User) (db : list UserDB)
    : Response User * list UserDB :=
  if negb (mail_ID_ =? mail_ID user) then
    (HTTPException 400 "Email в пути и теле запроса не совпадают", db)
  else
    match Db.first (Db.where_eq mail_ID mail_ID_ db) with
    | None => (HTTPException 404 "Пользователь не найден", db)
    | Some _ =>
        match Db.setattrs storable mail_ID mail_ID_ user db with
        | Some db => (Message "Пользователь успешно обновлен", db)
        | None => (CommitError, db)
        end
    end.

Definition delete_user (mail_ID_ : string) (db : list UserDB)
    : Response User * list UserDB :=
  match Db.first (Db.where_eq mail_ID mail_ID_ db) with
  | None => (HTTPException 404 "Пользователь не найден", db)
  | Some _ => (Message "Пользователь успешно удален", Db.delete mail_ID mail_ID_ db)
  end.

End Login.

(** ** 18.03.2025/catalog.py *)

Module Catalog.

Inductive RarityType : Type := COMMON | UNCOMMON | RARE | EXTREMELY_RARE.

Definition RarityType_name (r : RarityType) : string :=
  match r with
  | COMMON => "COMMON"
  | UNCOMMON => "UNCOMMON"
  | RARE => "RARE"
  | EXTREMELY_RARE => "EXTREMELY_RARE"
  end.

Record Mineral : Type := Build_Mineral {
  catalog_id : string;
  name : string;
  chemical_formula : string;
  hardness : float;
  weight_carats : float;
  rarity : RarityType;
  origin_country : string;
  specimens_count : Z
}.

Definition MineralDB : Type := Mineral.

(** [hardness] and [weight_carats] are [Float] columns, [specimens_count]
    is an [Integer] column; all three are declared [nullable=False]. *)
Definition storable (row : MineralDB) : bool :=
  Db.not_null (hardness row) && Db.not_null (weight_carats row)
  && Db.int64 (specimens_count row).

(** [[A-Z]{2}-\d{4}] *)
Definition catalog_id_pattern : Re.regex :=
  Re.Cat (Re.times 2 (Re.Cls Re.upper))
 (Re.Cat (Re.chr "-") (Re.times 4 (Re.Cls Re.digit))).

Definition validator_catalog_id (catalog_id : string) : Checked string :=
  if negb (Re.match_anchored catalog_id_pattern catalog_id) then
    ValueError "ID каталога должен иметь формат XX-1234 (две буквы, дефис, четыре цифры)"
  else Return catalog_id.

Definition validator_name (name : string) : Checked string :=
  if (PyStr.len (PyStr.strip name) <? 3)%nat then
    ValueError "Название минерала должно содержать минимум 3 символа"
  else Return name.

Definition validator_formula (chemical_formula : string) : Checked string :=
  if negb (Re.search (Re.Cls (Re.union Re.upper Re.lower)) chemical_formula)
     || negb (Re.search (Re.Cls Re.digit) chemical_formula) then
    ValueError "Химическая формула должна содержать буквы и цифры"
  else Return chemical_formula.

Definition validator_hardness (hardness : float) : Checked float :=
  if PrimFloat.ltb hardness 1.0 || PrimFloat.ltb 10.0 hardness then
    ValueError "Твердость по шкале Мооса должна быть от 1 до 10"
  else Return hardness.

Definition validator_weight (weight_carats : float) : Checked float :=
  if PrimFloat.leb weight_carats 0 then
    ValueError "Вес в каратах должен быть положительным числом"
  else Return weight_carats.

Definition validator_country (origin_country : string) : Checked string :=
  if (PyStr.len (PyStr.strip origin_country) <? 2)%nat then
    ValueError "Название страны должно содержать минимум 2 символа"
  else Return origin_country.

Definition validator_count (specimens_count : Z) : Checked Z :=
  if (specimens_count <? 0)%Z then
    ValueError "Количество образцов не может быть отрицательным"
  else Return specimens_count.

Definition validate (raw : Mineral) : Validated Mineral :=
  pure Build_Mineral
    <*> field "catalog_id" (validator_catalog_id (catalog_id raw))
    <*> field "name" (validator_name (name raw))
    <*> field "chemical_formula" (validator_formula (chemical_formula raw))
    <*> field "hardness" (validator_hardness (hardness raw))
    <*> field "weight_carats" (validator_weight (weight_carats raw))
    <*> plain (rarity raw)
    <*> field "origin_country" (validator_country (origin_country raw))
    <*> field "specimens_count" (validator_count (specimens_count raw)).

Definition get_minerals (catalog_id_ name_ : option string)
    (rarity_ : option RarityType) (origin_country_ : option string)
    (db : list MineralDB) : Listing MineralDB :=
  let query := db in
  let query := Db.filter_if catalog_id_ catalog_id query in
  let query := Db.filter_if name_ name query in
  let query := Db.filter_if_member RarityType_name rarity_ rarity query in
  let query := Db.filter_if origin_country_ origin_country query in
  let results := query in
  Found (String.append "Найдено "
           (String.append (PyStr.of_nat (List.length results)) " минералов"))
        results.

Definition create_mineral (mineral : Mineral) (db : list MineralDB)
    : Response Mineral * list MineralDB :=
  match Db.first (Db.where_eq catalog_id (catalog_id mineral) db) with
  | Some _ => (HTTPException 400 "Минерал с таким ID каталога уже существует", db)
  | None =>
      match Db.add storable mineral db with
      | Some db => (MessageData "Минерал успешно добавлен в коллекцию" (Entity mineral), db)
      | None => (CommitError, db)
      end
  end.

Definition update_mineral (catalog_id_ : string) (mineral : Mineral)
    (db : list MineralDB) : Response Mineral * list MineralDB :=
  if negb (catalog_id_ =? catalog_id mineral) then
    (HTTPException 400 "ID каталога в пути и теле запроса не совпадают", db)
  else
    match Db.first (Db.where_eq catalog_id catalog_id_ db) with
    | None => (HTTPException 404 "Минерал не найден", db)
    | Some _ =>
        match Db.setattrs storable catalog_id catalog_id_ mineral db with
        | Some db => (MessageData "Информация о минерале успешно обновлена" (Entity mineral), db)
        | None => (CommitError, db)
        end
    end.

Definition delete_mineral (catalog_id_ : string) (db : list MineralDB)
    : Response Mineral * list MineralDB :=
  match Db.first (Db.where_eq catalog_id catalog_id_ db) with
  | None => (HTTPException 404 "Минерал не найден", db)
  | Some _ => (MessageData "Минерал успешно удален из коллекции"
                 (Key "catalog_id" catalog_id_),
               Db.delete catalog_id catalog_id_ db)
  end.

End Catalog.

(** ** 19.03.2025/Clock.py *)

Module Clock.

Inductive MechanismType : Type := MECHANICAL | QUARTZ | PENDULUM | SPRING_DRIVEN.

Definition MechanismType_name (m : MechanismType) : string :=
  match m with
  | MECHANICAL => "MECHANICAL"
  | QUARTZ => "QUARTZ"
  | PENDULUM => "PENDULUM"
  | SPRING_DRIVEN => "SPRING_DRIVEN"
  end.

Record Clock : Type := Build_Clock {
  serial_number : string;
  brand : string;
  model : string;
  manufacture_year : Z;
  mechanism : MechanismType;
  material : string;
  condition_grade : Z
}.

Definition ClockDB : Type := Clock.

(** [manufacture_year] and [condition_grade] are the [Integer] columns of
    [clocks]. *)
Definition storable (row : ClockDB) : bool :=
  Db.int64 (manufacture_year row) && Db.int64 (condition_grade row).

(** [[A-Z0-9]{6,12}] *)
Definition serial_number_pattern : Re.regex :=
  Re.from_to 6 12 (Re.Cls (Re.union Re.upper Re.ascii_digit)).

Definition validator_serial_number (serial_number : string) : Checked string :=
  if negb (Re.match_anchored serial_number_pattern serial_number) then
    ValueError "Серийный номер должен содержать от 6 до 12 букв и цифр"
  else Return serial_number.

Definition validator_brand (brand : string) : Checked string :=
  if (PyStr.len (PyStr.strip brand) <? 2)%nat then
    ValueError "Бренд должен содержать минимум 2 символа"
  else Return brand.

Definition validator_model (model : string) : Checked string :=
  if (PyStr.len (PyStr.strip model) <? 2)%nat then
    ValueError "Модель должна содержать минимум 2 символа"
  else Return model.

Definition validator_year (manufacture_year : Z) : Checked Z :=
  let current_year := 2025%Z in
  if (manufacture_year <? 1600)%Z || (manufacture_year >? current_year)%Z then
    ValueError (String.append "Год изготовления должен быть между 1600 и " "2025")
  else Return manufacture_year.

Definition validator_material (material : string) : Checked string :=
  if (PyStr.len (PyStr.strip material) <? 3)%nat then
    ValueError "Материал должен содержать минимум 3 символа"
  else Return material.

Definition validator_condition (condition_grade : Z) : Checked Z :=
  if (condition_grade <? 1)%Z || (condition_grade >? 10)%Z then
    ValueError "Оценка состояния должна быть от 1 до 10"
  else Return condition_grade.

Definition validate (raw : Clock) : Validated Clock :=
  pure Build_Clock
    <*> field "serial_number" (validator_serial_number (serial_number raw))
    <*> field "brand" (validator_brand (brand raw))
    <*> field "model" (validator_model (model raw))
    <*> field "manufacture_year" (validator_year (manufacture_year raw))
    <*> plain (mechanism raw)
    <*> field "material" (validator_material (material raw))
    <*> field "condition_grade" (validator_condition (condition_grade raw)).

(** [Clock.from_orm(row)] reads the columns of the row and validates them
    as a model ([orm_mode]). *)
Definition from_orm (row : ClockDB) : Validated Clock := validate row.

(** [[Clock.from_orm(r).dict() for r in results]]: the first row that
    fails raises. *)
Fixpoint from_orm_each (results : list ClockDB) : Validated (list Clock) :=
  match results with
  | [] => inl []
  | r :: rest =>
      match from_orm r with
      | inr errors => inr errors
      | inl c =>
          match from_orm_each rest with
          | inr errors => inr errors
          | inl cs => inl (c :: cs)
          end
      end
  end.

Definition get_clocks (serial_number_ brand_ : option string)
    (mechanism_ : option MechanismType) (db : list ClockDB) : Listing Clock :=
  let query := db in
  let query := Db.filter_if serial_number_ serial_number query in
  let query := Db.filter_if brand_ brand query in
  let query := Db.filter_if_member MechanismType_name mechanism_ mechanism query in
  let results := query in
  match from_orm_each results with
  | inr errors => ListingError errors
  | inl results_dict =>
      Found (String.append "Найдено "
               (String.append (PyStr.of_nat (List.length results)) " часов"))
            results_dict
  end.

Definition create_clock (clock : Clock) (db : list ClockDB)
    : Response Clock * list ClockDB :=
  match Db.first (Db.where_eq serial_number (serial_number clock) db) with
  | Some _ => (HTTPException 400 "Часы с таким серийным номером уже существуют", db)
  | None =>
      let db_clock := clock in
      match Db.add storable db_clock db with
      | None => (CommitError, db)
      | Some db =>
          match from_orm db_clock with
          | inl c => (MessageData "Часы успешно добавлены в коллекцию" (Entity c), db)
          | inr errors => (ServerError errors, db)
          end
      end
  end.

Definition update_clock (serial_number_ : string) (clock : Clock)
    (db : list ClockDB) : Response Clock * list ClockDB :=
  if negb (serial_number_ =? serial_number clock) then
    (HTTPException 400 "Серийный номер в пути и теле запроса не совпадают", db)
  else
    match Db.first (Db.where_eq serial_number serial_number_ db) with
    | None => (HTTPException 404 "Часы не найдены", db)
    | Some _ =>
        let db_clock := clock in
        match Db.setattrs storable serial_number serial_number_ clock db with
        | None => (CommitError, db)
        | Some db =>
            match from_orm db_clock with
            | inl c => (MessageData "Информация о часах успешно обновлена" (Entity c), db)
            | inr errors => (ServerError errors, db)
            end
        end
    end.

Definition delete_clock (serial_number_ : string) (db : list ClockDB)
    : Response Clock * list ClockDB :=
  match Db.first (Db.where_eq serial_number serial_number_ db) with
  | None => (HTTPException 404 "Часы не найдены", db)
  | Some _ => (MessageData "Часы успешно удалены из коллекции"
                 (Key "serial_number" serial_number_),
               Db.delete serial_number serial_number_ db)
  end.

End Clock.

(** ** 20.03.2025/Mission.py *)

Module Mission.

Inductive MissionType : Type := ORBITAL | LUNAR | MARS | DEEP_SPACE.

Definition MissionType_name (t : MissionType) : string :=
  match t with
  | ORBITAL => "ORBITAL"
  | LUNAR => "LUNAR"
  | MARS => "MARS"
  | DEEP_SPACE => "DEEP_SPACE"
  end.

Record Mission : Type := Build_Mission {
  mission_code : string;
  mission_name : string;
  launch_site : string;
  launch_date : Z;
  mission_type : MissionType;
  spacecraft : string;
  crew_size : Z
}.

Definition MissionDB : Type := Mission.

(** [crew_size] is the one [Integer] column of [missions]. *)
Definition storable (row : MissionDB) : bool :=
  Db.int64 (crew_size row).

(** [[A-Z]{2}-\d{4}-[A-Z]] *)
Definition mission_code_pattern : Re.regex :=
  Re.Cat (Re.times 2 (Re.Cls Re.upper))
 (Re.Cat (Re.chr "-")
 (Re.Cat (Re.times 4 (Re.Cls Re.digit))
 (Re.Cat (Re.chr "-") (Re.Cls Re.upper)))).

Definition validator_mission_code (mission_code : string) : Checked string :=
  if negb (Re.match_anchored mission_code_pattern mission_code) then
    ValueError "Код миссии должен иметь формат XX-YYYY-Z (две буквы, дефис, четыре цифры, дефис, буква)"
  else Return mission_code.

Definition validator_mission_name (mission_name : string) : Checked string :=
  if (PyStr.len (PyStr.strip mission_name) <? 3)%nat then
    ValueError "Название миссии должно содержать минимум 3 символа"
  else Return mission_name.

Definition validator_launch_site (launch_site : string) : Checked string :=
  if (PyStr.len (PyStr.strip launch_site) <? 5)%nat then
    ValueError "Место запуска должно содержать минимум 5 символов"
  else Return launch_site.

Definition validator_launch_date (now : Z) (launch_date : Z) : Checked Z :=
  let current_date := now in
  if (launch_date <? current_date)%Z then
    ValueError "Дата запуска не может быть в прошлом"
  else Return launch_date.

Definition validator_spacecraft (spacecraft : string) : Checked string :=
  if (PyStr.len (PyStr.strip spacecraft) <? 3)%nat then
    ValueError "Название космического корабля должно содержать минимум 3 символа"
  else Return spacecraft.

Definition validator_crew_size (crew_size : Z) : Checked Z :=
  if (crew_size <? 0)%Z then
    ValueError "Размер экипажа не может быть отрицательным"
  else Return crew_size.

Definition validate (now : Z) (raw : Mission) : Validated Mission :=
  pure Build_Mission
    <*> field "mission_code" (validator_mission_code (mission_code raw))
    <*> field "mission_name" (validator_mission_name (mission_name raw))
    <*> field "launch_site" (validator_launch_site (launch_site raw))
    <*> field "launch_date" (validator_launch_date now (launch_date raw))
    <*> plain (mission_type raw)
    <*> field "spacecraft" (validator_spacecraft (spacecraft raw))
    <*> field "crew_size" (validator_crew_size (crew_size raw)).

(** The listing copies every column of a row into a dict (the date in ISO
    format); the dict is represented by the row. *)
Definition get_missions (mission_code_ : option string)
    (mission_type_ : option MissionType) (launch_site_ : option string)
    (db : list MissionDB) : Listing MissionDB :=
  let query := db in
  let query := Db.filter_if mission_code_ mission_code query in
  let query := Db.filter_if_member MissionType_name mission_type_ mission_type query in
  let query := Db.filter_if launch_site_ launch_site query in
  let results := query in
  let results_dict := map (fun r => r) results in
  Found (String.append "Найдено "
           (String.append (PyStr.of_nat (List.length results)) " миссий"))
        results_dict.

Definition create_mission (mission : Mission) (db : list MissionDB)
    : Response Mission * list MissionDB :=
  match Db.first (Db.where_eq mission_code (mission_code mission) db) with
  | Some _ => (HTTPException 400 "Миссия с таким кодом уже существует", db)
  | None =>
      match Db.add storable mission db with
      | Some db => (MessageData "Миссия успешно запланирована" (Entity mission), db)
      | None => (CommitError, db)
      end
  end.

Definition update_mission (mission_code_ : string) (mission : Mission)
    (db : list MissionDB) : Response Mission * list MissionDB :=
  if negb (mission_code_ =? mission_code mission) then
    (HTTPException 400 "Код миссии в пути и теле запроса не совпадают", db)
  else
    match Db.first (Db.where_eq mission_code mission_code_ db) with
    | None => (HTTPException 404 "Миссия не найдена", db)
    | Some _ =>
        match Db.setattrs storable mission_code mission_code_ mission db with
        | Some db => (MessageData "Информация о миссии успешно обновлена" (Entity mission), db)
        | None => (CommitError, db)
        end
    end.

Definition delete_mission (mission_code_ : string) (db : list MissionDB)
    : Response Mission * list MissionDB :=
  match Db.first (Db.where_eq mission_code mission_code_ db) with
  | None => (HTTPException 404 "Миссия не найдена", db)
  | Some _ => (MessageData "Миссия успешно отменена" (Key "mission_code" mission_code_),
               Db.delete mission_code mission_code_ db)
  end.

End Mission.

(** ** 21.03.2025/dron.py *)

Module Dron.

Inductive CargoType : Type := MEDICAL | FOOD | ELECTRONICS | DOCUMENTS.

Definition CargoType_name (t : CargoType) : string :=
  match t with
  | MEDICAL => "MEDICAL"
  | FOOD => "FOOD"
  | ELECTRONICS => "ELECTRONICS"
  | DOCUMENTS => "DOCUMENTS"
  end.

Record Flight : Type := Build_Flight {
  flight_id : string;
  drone_id : string;
  departure_point : string;
  destination : string;
  departure_time : Z;
  cargo_type : CargoType;
  cargo_weight_kg : float;
  max_altitude_m : Z
}.

Definition FlightDB : Type := Flight.

(** [cargo_weight_kg] is a [Float] column declared [nullable=False],
    [max_altitude_m] an [Integer] column. *)
Definition storable (row : FlightDB) : bool :=
  Db.not_null (cargo_weight_kg row) && Db.int64 (max_altitude_m row).

(** [FL-\d{5}-[A-Z]] *)
Definition flight_id_pattern : Re.regex :=
  Re.Cat (Re.lit "FL-")
 (Re.Cat (Re.times 5 (Re.Cls Re.digit))
 (Re.Cat (Re.chr "-") (Re.Cls Re.upper))).

Definition validator_flight_id (flight_id : string) : Checked string :=
  if negb (Re.match_anchored flight_id_pattern flight_id) then
    ValueError "ID полета должен иметь формат FL-XXXXX-Z (FL, дефис, 5 цифр, дефис, буква)"
  else Return flight_id.

(** [DRN-\d{4}] *)
Definition drone_id_pattern : Re.regex :=
  Re.Cat (Re.lit "DRN-") (Re.times 4 (Re.Cls Re.digit)).

Definition validator_drone_id (drone_id : string) : Checked string :=
  if negb (Re.match_anchored drone_id_pattern drone_id) then
    ValueError "ID дрона должен иметь формат DRN-XXXX (DRN и 4 цифры)"
  else Return drone_id.

Definition validator_departure_point (departure_point : string) : Checked string :=
  if (PyStr.len (PyStr.strip departure_point) <? 3)%nat then
    ValueError "Пункт отправления должен содержать минимум 3 символа"
  else Return departure_point.

Definition validator_destination (destination : string) : Checked string :=
  if (PyStr.len (PyStr.strip destination) <? 3)%nat then
    ValueError "Пункт назначения должен содержать минимум 3 символа"
  else Return destination.

Definition validator_departure_time (now : Z) (departure_time : Z) : Checked Z :=
  let current_time := now in
  if (departure_time <? current_time)%Z then
    ValueError "Время вылета не может быть в прошлом"
  else Return departure_time.

Definition validator_cargo_weight (cargo_weight_kg : float) : Checked float :=
  if PrimFloat.leb cargo_weight_kg 0 || PrimFloat.ltb 50 cargo_weight_kg then
    ValueError "Вес груза должен быть от 0.1 до 50 кг"
  else Return cargo_weight_kg.

Definition validator_altitude (max_altitude_m : Z) : Checked Z :=
  if (max_altitude_m <? 10)%Z || (max_altitude_m >? 400)%Z then
    ValueError "Максимальная высота должна быть от 10 до 400 метров"
  else Return max_altitude_m.

Definition validate (now : Z) (raw : Flight) : Validated Flight :=
  pure Build_Flight
    <*> field "flight_id" (validator_flight_id (flight_id raw))
    <*> field "drone_id" (validator_drone_id (drone_id raw))
    <*> field "departure_point" (validator_departure_point (departure_point raw))
    <*> field "destination" (validator_destination (destination raw))
    <*> field "departure_time" (validator_departure_time now (departure_time raw))
    <*> plain (cargo_type raw)
    <*> field "cargo_weight_kg" (validator_cargo_weight (cargo_weight_kg raw))
    <*> field "max_altitude_m" (validator_altitude (max_altitude_m raw)).

(** As for missions, the dict of a row is represented by the row. *)
Definition get_flights (flight_id_ drone_id_ : option string)
    (cargo_type_ : option CargoType) (db : list FlightDB) : Listing FlightDB :=
  let query := db in
  let query := Db.filter_if flight_id_ flight_id query in
  let query := Db.filter_if drone_id_ drone_id query in
  let query := Db.filter_if_member CargoType_name cargo_type_ cargo_type query in
  let results := query in
  let results_dict := map (fun r => r) results in
  Found (String.append "Найдено "
           (String.append (PyStr.of_nat (List.length results)) " полетов"))
        results_dict.

Definition create_flight (flight : Flight) (db : list FlightDB)
    : Response Flight * list FlightDB :=
  match Db.first (Db.where_eq flight_id (flight_id flight) db) with
  | Some _ => (HTTPException 400 "Полет с таким ID уже существует", db)
  | None =>
      match Db.add storable flight db with
      | Some db => (MessageData "Полет успешно запланирован" (Entity flight), db)
      | None => (CommitError, db)
      end
  end.

Definition update_flight (flight_id_ : string) (flight : Flight)
    (db : list FlightDB) : Response Flight * list FlightDB :=
  if negb (flight_id_ =? flight_id flight) then
    (HTTPException 400 "ID полета в пути и теле запроса не совпадают", db)
  else
    match Db.first (Db.where_eq flight_id flight_id_ db) with
    | None => (HTTPException 404 "Полет не найден", db)
    | Some _ =>
        match Db.setattrs storable flight_id flight_id_ flight db with
        | Some db => (MessageData "Информация о полете успешно обновлена" (Entity flight), db)
        | None => (CommitError, db)
        end
    end.

Definition delete_flight (flight_id_ : string) (db : list FlightDB)
    : Response Flight * list FlightDB :=
  match Db.first (Db.where_eq flight_id flight_id_ db) with
  | None => (HTTPException 404 "Полет не найден", db)
  | Some _ => (MessageData "Полет успешно отменен" (Key "flight_id" flight_id_),
               Db.delete flight_id flight_id_ db)
  end.

End Dron.

(** ** The ten services side by side *)

Inductive Resource : Type :=
| user | book | movie | task | event | login | mineral | clock | mission | flight.

(** What one module provides: its model with the identity column, the rows
    its table can hold, the model
    validation (with the clock reading it needs), the three mutating
    endpoints, the list endpoint called with the identity filter alone, and
    the literal answers of the module for each outcome. *)
Record Service : Type := {
  Model : Type;
  identity : Model -> string;
  storable : Model -> bool;
  validate : Z -> Model -> Validated Model;
  field_reports : Z -> Model -> list (list ValidationFailure);
  create : Model -> list Model -> Response Model * list Model;
  update : string -> Model -> list Model -> Response Model * list Model;
  delete : string -> list Model -> Response Model * list Model;
  list_by_identity : string -> list Model -> Listing Model;
  created : Model -> Response Model;
  conflict : Response Model;
  updated : Model -> Response Model;
  mismatch : Response Model;
  not_found : Response Model;
  deleted : string -> Response Model
}.

Definition user_service : Service := {|
  Model := Inn.User_inn;
  identity := Inn.inn;
  storable := Inn.storable;
  validate := fun _ => Inn.validate;
  field_reports := fun _ raw => [raised "inn" (Inn.validate_inn (Inn.inn raw))];
  create := Inn.create_user;
  update := Inn.update_user;
  delete := Inn.delete_user;
  list_by_identity := fun k => Inn.get_user (Some k) None None None None None;
  created := fun _ => Text "Пользователь успешно создан";
  conflict := Text "Пользователь с таким ИНН уже существует";
  updated := fun _ => Text "Пользователь успешно обновлён";
  mismatch := Text "ИНН в теле запроса не совпадает с указанным в пути";
  not_found := Text "Пользователя с таким ИНН не существует";
  deleted := fun _ => Text "Пользователь с таким ИНН удалён"
|}.

Definition book_service : Service := {|
  Model := Book.Book;
  identity := Book.isbn;
  storable := Book.storable;
  validate := fun _ => Book.validate;
  field_reports := fun _ raw =>
    [raised "isbn" (Book.validate_isbn (Book.isbn raw));
     raised "pages" (Book.validate_pages (Book.pages raw))];
  create := Book.create_book;
  update := Book.update_book;
  delete := Book.delete_book;
  list_by_identity := fun k => Book.get_book (Some k) None None None;
  created := fun _ => Text "Книга успешно добавлена";
  conflict := Text "Книга с таким ISBN уже существует";
  updated := fun _ => Text "Книга успешно обновлена";
  mismatch := Text "ISBN в теле запроса не совпадает с указанным в пути";
  not_found := Text "Книги с таким ISBN не существует";
  deleted := fun _ => Text "Книга успешно удалена"
|}.

Definition movie_service : Service := {|
  Model := KEno.Movie;
  identity := KEno.movie_id;
  storable := KEno.storable;
  validate := fun _ => KEno.validate;
  field_reports := fun _ raw =>
    [raised "movie_id" (KEno.validate_movie_id (KEno.movie_id raw));
     raised "release_year" (KEno.validate_release_year (KEno.release_year raw))];
  create := KEno.create_movie;
  update := KEno.update_movie;
  delete := KEno.delete_movie;
  list_by_identity := fun k => KEno.get_movies (Some k) None None None;
  created := fun _ => Message "Фильм успешно создан";
  conflict := HTTPException 400 "Фильм с таким ID уже существует";
  updated := fun _ => Message "Фильм успешно обновлен";
  mismatch := HTTPException 400 "ID фильма в пути и теле запроса не совпадают";
  not_found := HTTPException 404 "Фильм не найден";
  deleted := fun _ => Message "Фильм успешно удален"
|}.

Definition task_service : Service := {|
  Model := To_Do_List.Task;
  identity := To_Do_List.task_id;
  storable := To_Do_List.storable;
  validate := To_Do_List.validate;
  field_reports := fun now raw =>
    [raised "task_id" (To_Do_List.validate_task_id (To_Do_List.task_id raw));
     raised "description" (To_Do_List.validate_description (To_Do_List.description raw));
     raised "created_at" (To_Do_List.validate_created_at now (To_Do_List.created_at raw))];
  create := To_Do_List.create_task;
  update := To_Do_List.update_task;
  delete := To_Do_List.delete_task;
  list_by_identity := fun k => To_Do_List.get_tasks (Some k) None None;
  created := fun _ => Message "Задача успешно создана";
  conflict := HTTPException 400 "Задача с таким ID уже существует";
  updated := fun _ => Message "Задача успешно обновлена";
  mismatch := HTTPException 400 "ID задачи в пути и теле запроса не совпадают";
  not_found := HTTPException 404 "Задача не найдена";
  deleted := fun _ => Message "Задача успешно удалена"
|}.

Definition event_service : Service := {|
  Model := Events.Event;
  identity := Events.event_id;
  storable := Events.storable;
  validate := Events.validate;
  field_reports := fun now raw =>
    [raised "event_id" (Events.validate_event_id (Events.event_id raw));
     raised "name" (Events.validate_name (Events.name raw));
     raised "date" (Events.validate_date now (Events.date raw))];
  create := Events.create_event;
  update := Events.update_event;
  delete := Events.delete_event;
  list_by_identity := fun k => Events.get_events (Some k) None None None;
  created := fun _ => Message "Событие успешно создано";
  conflict := HTTPException 400 "Событие с таким ID уже существует";
  updated := fun _ => Message "Событие успешно обновлено";
  mismatch := HTTPException 400 "ID события в пути и теле запроса не совпадают";
  not_found := HTTPException 404 "Событие не найдено";
  deleted := fun _ => Message "Событие успешно удалено"
|}.

Definition login_service : Service := {|
  Model := Login.User;
  identity := Login.mail_ID;
  storable := Login.storable;
  validate := fun _ => Login.validate;
  field_reports := fun _ raw =>
    [raised "mail_ID" (Login.validator_mail (Login.mail_ID raw));
     raised "password" (Login.validator_password (Login.password raw));
     raised "first_name" (Login.validator_first_name (Login.first_name raw));
     raised "last_name" (Login.validator_last_name (Login.last_name raw));
     raised "patronymic" (Login.validator_patronymic (Login.patronymic raw));
     raised "age" (Login.validator_age (Login.age raw))];
  create := Login.create_user;
  update := Login.update_user;
  delete := Login.delete_user;
  list_by_identity := fun k => Login.get_users (Some k) None None None;
  created := fun _ => Message "Пользователь успешно создан";
  conflict := HTTPException 400 "Пользователь с таким email уже существует";
  updated := fun _ => Message "Пользователь успешно обновлен";
  mismatch := HTTPException 400 "Email в пути и теле запроса не совпадают";
  not_found := HTTPException 404 "Пользователь не найден";
  deleted := fun _ => Message "Пользователь успешно удален"
|}.

Definition mineral_service : Service := {|
  Model := Catalog.Mineral;
  identity := Catalog.catalog_id;
  storable := Catalog.storable;
  validate := fun _ => Catalog.validate;
  field_reports := fun _ raw =>
    [raised "catalog_id" (Catalog.validator_catalog_id (Catalog.catalog_id raw));
     raised "name" (Catalog.validator_name (Catalog.name raw));
     raised "chemical_formula" (Catalog.validator_formula (Catalog.chemical_formula raw));
     raised "hardness" (Catalog.validator_hardness (Catalog.hardness raw));
     raised "weight_carats" (Catalog.validator_weight (Catalog.weight_carats raw));
     raised "origin_country" (Catalog.validator_country (Catalog.origin_country raw));
     raised "specimens_count" (Catalog.validator_count (Catalog.specimens_count raw))];
  create := Catalog.create_mineral;
  update := Catalog.update_mineral;
  delete := Catalog.delete_mineral;
  list_by_identity := fun k => Catalog.get_minerals (Some k) None None None;
  created := fun e => MessageData "Минерал успешно добавлен в коллекцию" (Entity e);
  conflict := HTTPException 400 "Минерал с таким ID каталога уже существует";
  updated := fun e => MessageData "Информация о минерале успешно обновлена" (Entity e);
  mismatch := HTTPException 400 "ID каталога в пути и теле запроса не совпадают";
  not_found := HTTPException 404 "Минерал не найден";
  deleted := fun k => MessageData "Минерал успешно удален из коллекции" (Key "catalog_id" k)
|}.

Definition clock_service : Service := {|
  Model := Clock.Clock;
  identity := Clock.serial_number;
  storable := Clock.storable;
  validate := fun _ => Clock.validate;
  field_reports := fun _ raw =>
    [raised "serial_number" (Clock.validator_serial_number (Clock.serial_number raw));
     raised "brand" (Clock.validator_brand (Clock.brand raw));
     raised "model" (Clock.validator_model (Clock.model raw));
     raised "manufacture_year" (Clock.validator_year (Clock.manufacture_year raw));
     raised "material" (Clock.validator_material (Clock.material raw));
     raised "condition_grade" (Clock.validator_condition (Clock.condition_grade raw))];
  create := Clock.create_clock;
  update := Clock.update_clock;
  delete := Clock.delete_clock;
  list_by_identity := fun k => Clock.get_clocks (Some k) None None;
  created := fun e => MessageData "Часы успешно добавлены в коллекцию" (Entity e);
  conflict := HTTPException 400 "Часы с таким серийным номером уже существуют";
  updated := fun e => MessageData "Информация о часах успешно обновлена" (Entity e);
  mismatch := HTTPException 400 "Серийный номер в пути и теле запроса не совпадают";
  not_found := HTTPException 404 "Часы не найдены";
  deleted := fun k => MessageData "Часы успешно удалены из коллекции" (Key "serial_number" k)
|}.

Definition mission_service : Service := {|
  Model := Mission.Mission;
  identity := Mission.mission_code;
  storable := Mission.storable;
  validate := Mission.validate;
  field_reports := fun now raw =>
    [raised "mission_code" (Mission.validator_mission_code (Mission.mission_code raw));
     raised "mission_name" (Mission.validator_mission_name (Mission.mission_name raw));
     raised "launch_site" (Mission.validator_launch_site (Mission.launch_site raw));
     raised "launch_date" (Mission.validator_launch_date now (Mission.launch_date raw));
     raised "spacecraft" (Mission.validator_spacecraft (Mission.spacecraft raw));
     raised "crew_size" (Mission.validator_crew_size (Mission.crew_size raw))];
  create := Mission.create_mission;
  update := Mission.update_mission;
  delete := Mission.delete_mission;
  list_by_identity := fun k => Mission.get_missions (Some k) None None;
  created := fun e => MessageData "Миссия успешно запланирована" (Entity e);
  conflict := HTTPException 400 "Миссия с таким кодом уже существует";
  updated := fun e => MessageData "Информация о миссии успешно обновлена" (Entity e);
  mismatch := HTTPException 400 "Код миссии в пути и теле запроса не совпадают";
  not_found := HTTPException 404 "Миссия не найдена";
  deleted := fun k => MessageData "Миссия успешно отменена" (Key "mission_code" k)
|}.

Definition flight_service : Service := {|
  Model := Dron.Flight;
  identity := Dron.flight_id;
  storable := Dron.storable;
  validate := Dron.validate;
  field_reports := fun now raw =>
    [raised "flight_id" (Dron.validator_flight_id (Dron.flight_id raw));
     raised "drone_id" (Dron.validator_drone_id (Dron.drone_id raw));
     raised "departure_point" (Dron.validator_departure_point (Dron.departure_point raw));
     raised "destination" (Dron.validator_destination (Dron.destination raw));
     raised "departure_time" (Dron.validator_departure_time now (Dron.departure_time raw));
     raised "cargo_weight_kg" (Dron.validator_cargo_weight (Dron.cargo_weight_kg raw));
     raised "max_altitude_m" (Dron.validator_altitude (Dron.max_altitude_m raw))];
  create := Dron.create_flight;
  update := Dron.update_flight;
  delete := Dron.delete_flight;
  list_by_identity := fun k => Dron.get_flights (Some k) None None;
  created := fun e => MessageData "Полет успешно запланирован" (Entity e);
  conflict := HTTPException 400 "Полет с таким ID уже существует";
  updated := fun e => MessageData "Информация о полете успешно обновлена" (Entity e);
  mismatch := HTTPException 400 "ID полета в пути и теле запроса не совпадают";
  not_found := HTTPException 404 "Полет не найден";
  deleted := fun k => MessageData "Полет успешно отменен" (Key "flight_id" k)
|}.

Definition service (r : Resource) : Service :=
  match r with
  | user => user_service
  | book => book_service
  | movie => movie_service
  | task => task_service
  | event => event_service
  | login => login_service
  | mineral => mineral_service
  | clock => clock_service
  | mission => mission_service
  | flight => flight_service
  end.

(** The stored record under an identity, as every endpoint looks it up. *)
Definition stored (s : Service) (k : string) (db : list (Model s)) : option (Model s) :=
  Db.first (Db.where_eq (identity s) k db).

(** An entity is a model instance that validation returns as it is. *)
Definition valid (s : Service) (now : Z) (e : Model s) : Prop :=
  validate s now e = inl e.

(** Requests that change the store, and the tables a sequence of them
    reaches. *)
Inductive Request (M : Type) : Type :=
| Create (e : M)
| Update (k : string) (e : M)
| Delete (k : string).

Arguments Create {M} e.
Arguments Update {M} k e.
Arguments Delete {M} k.

Definition handle (s : Service) (q : Request (Model s)) (db : list (Model s))
    : Response (Model s) * list (Model s) :=
  match q with
  | Create e => create s e db
  | Update k e => update s k e db
  | Delete k => delete s k db
  end.

Definition run (s : Service) (qs : list (Request (Model s))) (db : list (Model s))
    : list (Model s) :=
  fold_left (fun db q => snd (handle s q db)) qs db.

(** The entity a response carries as its ["data"], if it carries one. *)
Definition carried {E : Type} (answer : Response E) : option E :=
  match answer with
  | MessageData _ (Entity e) => Some e
  | _ => None
  end.

(** A confirmation message and nothing else. *)
Definition message_only {E : Type} (answer : Response E) : bool :=
  match answer with
  | Text _ | Message _ => true
  | _ => false
  end.

(** The modules whose create endpoint returns the entity with the message. *)
Definition returns_entity (r : Resource) : bool :=
  match r with
  | mineral | clock | mission | flight => true
  | user | book | movie | task | event | login => false
  end.

(** A column value agrees with an optional filter: an omitted filter, and an
    empty one, ask nothing; any other value asks for equality. *)
Definition agrees (value : option string) (x : string) : bool :=
  match value with
  | Some v => if PyStr.truthy v then x =? v else true
  | None => true
  end.

(** The same for a filter typed by an enumeration. *)
Definition agrees_member {T : Type} (name_of : T -> string) (value : option T) (x : T) : bool :=
  match value with
  | Some v => name_of x =? name_of v
  | None => true
  end.

(** A filter value with the empty string turned into an omitted filter. *)
Definition omit_blank (value : option string) : option string :=
  match value with
  | Some v => if PyStr.truthy v then Some v else None
  | None => None
  end.

(** One row per identity. *)
Definition unique (s : Service) (db : list (Model s)) : Prop :=
  NoDup (map (identity s) db).

(** ** Shapes of accepted strings *)

(** [s] is [t], or [t] followed by one newline: what an anchored pattern
    accepts when its body accepts [t]. *)
Definition with_optional_newline (t s : string) : Prop :=
  s = t \/ s = String.append t (String "010" EmptyString).

(** Some character of [s] is in the class [p]. *)
Fixpoint has (p : ascii -> bool) (s : string) : bool :=
  match s with
  | EmptyString => false
  | String c s' => p c || has p s'
  end.

(** [s] begins with whitespace; [s] ends with whitespace. *)
Definition begins_blank (s : string) : bool :=
  match s with
  | EmptyString => false
  | String c _ => PyStr.char_isspace c
  end.

Fixpoint ends_blank (s : string) : bool :=
  match s with
  | EmptyString => false
  | String c EmptyString => PyStr.char_isspace c
  | String _ s' => ends_blank s'
  end.

(** [core] is [s] without the whitespace around it: [s] is [core] between
    two runs of whitespace, and [core] has no whitespace at either end. *)
Definition core_of (s core : string) : Prop :=
  exists lead trail,
    s = String.append lead (String.append core trail)
    /\ PyStr.all PyStr.char_isspace lead = true
    /\ PyStr.all PyStr.char_isspace trail = true
    /\ begins_blank core = false
    /\ ends_blank core = false.

(** ** Requests as the framework serves them *)

(** The identity a request addresses. *)
Definition target (s : Service) (q : Request (Model s)) : string :=
  match q with
  | Create e => identity s e
  | Update k _ => k
  | Delete k => k
  end.

(** A request served at the instant [now]: the body of a POST or PUT is
    validated before the endpoint runs, a DELETE has no body. *)
Definition serve (s : Service) (now : Z) (q : Request (Model s)) (db : list (Model s))
    : Response (Model s) * list (Model s) :=
  match q with
  | Create e => with_body (validate s now) (create s) e db
  | Update k e => with_body (validate s now) (update s k) e db
  | Delete k => delete s k db
  end.

(** The answer that confirms a request. *)
Definition confirmation (s : Service) (q : Request (Model s)) : Response (Model s) :=
  match q with
  | Create e => created s e
  | Update _ e => updated s e
  | Delete k => deleted s k
  end.

(** The table a request asks for. *)
Definition effect (s : Service) (q : Request (Model s)) (db : list (Model s))
    : list (Model s) :=
  match q with
  | Create e => Db.inserted e db
  | Update k e => Db.rewritten (identity s) k e db
  | Delete k => Db.delete (identity s) k db
  end.

(** The answers that turn a request down. *)
Definition refusal (s : Service) (answer : Response (Model s)) : Prop :=
  (exists errors, answer = Unprocessable errors)
  \/ answer = conflict s \/ answer = mismatch s \/ answer = not_found s
  \/ answer = CommitError.

(** The table after a sequence of requests, each served at its own instant. *)
Definition serve_all (s : Service) (qs : list (Z * Request (Model s)))
    (db : list (Model s)) : list (Model s) :=
  fold_left (fun db nq => snd (serve s (fst nq) (snd nq) db)) qs db.

(** The rows of a table can be read back as models: only the clock module
    re-validates the rows it returns. *)
Definition readable (r : Resource) : list (Model (service r)) -> Prop :=
  match r with
  | clock => Forall (fun row => Clock.from_orm row = inl row)
  | _ => fun _ => True
  end.

(** How the rules of a model depend on the clock, and the field that is
    compared with it. *)
Inductive TimeRule : Type := timeless | not_in_future | not_in_past.

Definition time_rule (r : Resource) : TimeRule :=
  match r with
  | task => not_in_future
  | event | mission | flight => not_in_past
  | user | book | movie | login | mineral | clock => timeless
  end.

Definition timestamp (r : Resource) : Model (service r) -> option Z :=
  match r with
  | task => fun e => Some (To_Do_List.created_at e)
  | event => fun e => Some (Events.date e)
  | mission => fun e => Some (Mission.launch_date e)
  | flight => fun e => Some (Dron.departure_time e)
  | _ => fun _ => None
  end.


(** The rows a lookup returns, as a list. *)
Definition found {A : Type} (o : option A) : list A :=
  match o with
  | Some a => [a]
  | None => []
  end.

(** ** Sample data *)

Definition ivanov : Inn.User_inn :=
  Inn.Build_User_inn "1234567890" Inn.MALE "Ivan" "Ivan" "Ivanov" "Moscow".

Definition petrova : Inn.User_inn :=
  Inn.Build_User_inn "123456789012" Inn.FEMALE "Anna" "Anna" "Petrova" "Kazan".

Definition misprinted_book : Book.Book :=
  Book.Build_Book "12345X7890" Book.SCIENCE "Optics" "Newton" 0.

Definition war_and_peace : Book.Book :=
  Book.Build_Book "9780140447" Book.FICTION "War and Peace" "Tolstoy" 1225.

(** A book the validators accept and the [pages] column cannot hold. *)
Definition endless_book : Book.Book :=
  Book.Build_Book "9780140447" Book.FICTION "The Aleph" "Borges" (2 ^ 63).

Definition quartz : Catalog.Mineral :=
  Catalog.Build_Mineral "AB-1234" "Quartz" "SiO2" 7 12.5 Catalog.COMMON "Brazil" 3.

Definition quartz_lowercase : Catalog.Mineral :=
  Catalog.Build_Mineral "ab-1234" "Quartz" "SiO2" 7 12.5 Catalog.COMMON "Brazil" 3.

(** A mineral the validators accept and the [hardness] column refuses. *)
Definition unmeasured_quartz : Catalog.Mineral :=
  Catalog.Build_Mineral "AB-1234" "Quartz" "SiO2" PrimFloat.nan 12.5 Catalog.COMMON "Brazil" 3.


Definition pocket_watch : Clock.Clock :=
  Clock.Build_Clock "AB12CD" "Omega" "Seamaster" 1950 Clock.MECHANICAL "Steel" 8.

Definition luna : Mission.Mission :=
  Mission.Build_Mission "RU-2025-B" "Luna" "Vostochny" 100 Mission.LUNAR "Soyuz" 3.

Definition courier : Dron.Flight :=
  Dron.Build_Flight "FL-00001-A" "DRN-0001" "Depot" "Clinic" 100 Dron.MEDICAL 2.5 120.



(** * Properties *)

(** ** The matcher decides the language of a pattern *)

Lemma append_empty (s1 s2 : string) :
  String.append s1 s2 = EmptyString -> s1 = EmptyString /\ s2 = EmptyString.
Proof.
  destruct s1; simpl; intros H; [split; [reflexivity|exact H]|discriminate].
Qed.

Lemma lang_cat_inv (r1 r2 : Re.regex) (s : string) :
  Re.lang (Re.Cat r1 r2) s ->
  exists s1 s2, s = String.append s1 s2 /\ Re.lang r1 s1 /\ Re.lang r2 s2.
Proof.
  intros H. inversion H; subst. eauto.
Qed.

Lemma nullable_lang (r : Re.regex) :
  Re.nullable r = true <-> Re.lang r EmptyString.
Proof.
  induction r as [| |p|r1 IH1 r2 IH2|r1 IH1 r2 IH2|r1 IH1 r2 IH2|r IH]; simpl.
  - split; [discriminate|]. intros H. inversion H.
  - split; [constructor|reflexivity].
  - split; [discriminate|]. intros H. inversion H.
  - rewrite andb_true_iff, IH1, IH2. split.
    + intros [H1 H2]. apply (Re.lang_cat r1 r2 EmptyString EmptyString H1 H2).
    + intros H. apply lang_cat_inv in H as (s1 & s2 & E & H1 & H2).
      symmetry in E. apply append_empty in E as [-> ->]. split; assumption.
  - rewrite orb_true_iff, IH1, IH2. split.
    + intros [H|H]; [apply Re.lang_alt_l|apply Re.lang_alt_r]; exact H.
    + intros H. inversion H; subst; [left|right]; assumption.
  - rewrite andb_true_iff, IH1, IH2. split.
    + intros [H1 H2]. constructor; assumption.
    + intros H. inversion H; subst. split; assumption.
  - split; [constructor|reflexivity].
Qed.

(** A non-empty string of a starred pattern starts with a non-empty string
    of the pattern. *)
Lemma star_uncons (r : Re.regex) (c : ascii) (s : string) :
  Re.lang (Re.Star r) (String c s) ->
  exists s1 s2,
    s = String.append s1 s2 /\ Re.lang r (String c s1) /\ Re.lang (Re.Star r) s2.
Proof.
  intros H. remember (Re.Star r) as r0 eqn:Er. remember (String c s) as t eqn:Et.
  revert s Et.
  induction H as [| | | | | | |r' s1 s2 H1 _ H2 IH2]; intros t' Et; try discriminate.
  injection Er as ->. destruct s1 as [|c1 s1]; simpl in Et.
  - apply IH2; [reflexivity|exact Et].
  - injection Et as -> <-. exists s1, s2. repeat split; assumption.
Qed.

Section Derivative.

Variable c : ascii.

Lemma deriv_cat_sound (r1 r2 : Re.regex) (t : string) :
  (forall s, Re.lang (Re.deriv c r1) s -> Re.lang r1 (String c s)) ->
  Re.lang (Re.Cat (Re.deriv c r1) r2) t ->
  Re.lang (Re.Cat r1 r2) (String c t).
Proof.
  intros IH1 H. apply lang_cat_inv in H as (s1 & s2 & -> & H1 & H2).
  apply IH1 in H1. apply (Re.lang_cat r1 r2 (String c s1) s2 H1 H2).
Qed.

Lemma deriv_cat_complete (r1 r2 : Re.regex) (t : string) :
  (forall s, Re.lang r1 (String c s) -> Re.lang (Re.deriv c r1) s) ->
  (forall s, Re.lang r2 (String c s) -> Re.lang (Re.deriv c r2) s) ->
  Re.lang (Re.Cat r1 r2) (String c t) ->
  Re.lang (Re.Cat (Re.deriv c r1) r2) t
  \/ (Re.nullable r1 = true /\ Re.lang (Re.deriv c r2) t).
Proof.
  intros IH1 IH2 H. apply lang_cat_inv in H as (s1 & s2 & E & H1 & H2).
  destruct s1 as [|c1 s1]; simpl in E.
  - right. subst s2. split; [apply nullable_lang; exact H1|apply IH2; exact H2].
  - injection E as <- ->. left. constructor; [apply IH1; exact H1|exact H2].
Qed.

Lemma deriv_lang (r : Re.regex) (s : string) :
  Re.lang (Re.deriv c r) s <-> Re.lang r (String c s).
Proof.
  revert s.
  induction r as [| |p|r1 IH1 r2 IH2|r1 IH1 r2 IH2|r1 IH1 r2 IH2|r IH];
    intros s; simpl.
  - split; intros H; inversion H.
  - split; intros H; inversion H.
  - destruct (p c) eqn:P; split; intros H; inversion H; subst.
    + constructor. exact P.
    + constructor.
    + congruence.
  - destruct (Re.nullable r1) eqn:N; split; intros H.
    + inversion H; subst.
      * apply deriv_cat_sound; [intros; apply IH1|]; assumption.
      * apply (Re.lang_cat r1 r2 EmptyString (String c s)).
        -- apply nullable_lang. exact N.
        -- apply IH2. assumption.
    + destruct (deriv_cat_complete r1 r2 s) as [L|[_ R]];
        [intros; apply IH1; assumption|intros; apply IH2; assumption|exact H| |].
      * apply Re.lang_alt_l. exact L.
      * apply Re.lang_alt_r. exact R.
    + apply deriv_cat_sound; [intros; apply IH1|]; assumption.
    + destruct (deriv_cat_complete r1 r2 s) as [L|[R _]];
        [intros; apply IH1; assumption|intros; apply IH2; assumption|exact H| |].
      * exact L.
      * congruence.
  - split; intros H; inversion H; subst.
    + apply Re.lang_alt_l, IH1. assumption.
    + apply Re.lang_alt_r, IH2. assumption.
    + apply Re.lang_alt_l, IH1. assumption.
    + apply Re.lang_alt_r, IH2. assumption.
  - split; intros H; inversion H; subst; constructor;
      first [apply IH1|apply IH2]; assumption.
  - split; intros H.
    + apply lang_cat_inv in H as (s1 & s2 & -> & H1 & H2).
      apply IH in H1. apply (Re.lang_star_app r (String c s1) s2 H1 H2).
    + apply star_uncons in H as (s1 & s2 & -> & H1 & H2).
      constructor; [apply IH; exact H1|exact H2].
Qed.

End Derivative.

Lemma fullmatch_lang (r : Re.regex) (s : string) :
  Re.fullmatch r s = true <-> Re.lang r s.
Proof.
  revert r. induction s as [|c s IH]; intros r; simpl.
  - apply nullable_lang.
  - rewrite IH. apply deriv_lang.
Qed.

Lemma append_empty_r (s : string) : String.append s EmptyString = s.
Proof. induction s as [|c s IH]; simpl; [|rewrite IH]; reflexivity. Qed.

(** An anchored match takes the whole string, or all of it but a newline
    that ends it. *)
Lemma match_anchored_lang (body : Re.regex) (s : string) :
  Re.match_anchored body s = true
  <-> Re.lang body s
      \/ exists s', s = String.append s' (String "010" EmptyString) /\ Re.lang body s'.
Proof.
  unfold Re.match_anchored. rewrite fullmatch_lang. split.
  - intros H. apply lang_cat_inv in H as (s1 & s2 & -> & H1 & H2).
    inversion H2 as [| | |? ? ? E|? ? ? N| | |]; subst.
    + inversion E; subst. left. rewrite append_empty_r. exact H1.
    + inversion N as [|? c P| | | | | |]; subst.
      apply Ascii.eqb_eq in P. subst c. right. exists s1. split; [reflexivity|exact H1].
  - intros [H|(s' & -> & H)].
    + rewrite <- (append_empty_r s).
      apply Re.lang_cat; [exact H|apply Re.lang_alt_l; constructor].
    + apply Re.lang_cat; [exact H|].
      apply Re.lang_alt_r. constructor. apply Ascii.eqb_refl.
Qed.

(** ** The session primitives *)

Section DbFacts.

Context {Row : Type} (column : Row -> string).

Implicit Types (k : string) (row : Row) (db : list Row).

Lemma where_eq_In k row db :
  In row (Db.where_eq column k db) <-> In row db /\ column row = k.
Proof.
  unfold Db.where_eq. rewrite filter_In, String.eqb_eq. reflexivity.
Qed.

Lemma first_None (q : list Row) : Db.first q = None <-> q = [].
Proof. destruct q; simpl; split; congruence. Qed.

Lemma lookup_None k db :
  Db.first (Db.where_eq column k db) = None <-> ~ In k (map column db).
Proof.
  rewrite first_None. split.
  - intros E H. apply in_map_iff in H as (row & Hk & Hin).
    assert (In row (Db.where_eq column k db)) as Hw by (apply where_eq_In; auto).
    rewrite E in Hw. exact Hw.
  - intros H. destruct (Db.where_eq column k db) as [|row q] eqn:E; [reflexivity|].
    exfalso. apply H.
    assert (In row (Db.where_eq column k db)) as Hw by (rewrite E; left; reflexivity).
    apply where_eq_In in Hw as [Hin <-]. apply in_map. exact Hin.
Qed.

Lemma lookup_Some k row db :
  Db.first (Db.where_eq column k db) = Some row -> In row db /\ column row = k.
Proof.
  intros E. apply where_eq_In.
  destruct (Db.where_eq column k db); simpl in E; [discriminate|].
  injection E as ->. left. reflexivity.
Qed.

Lemma where_eq_absent k db :
  ~ In k (map column db) -> Db.where_eq column k db = [].
Proof. intros H. apply first_None, lookup_None, H. Qed.

Lemma where_eq_inserted k row db :
  Db.where_eq column k (Db.inserted row db)
  = Db.where_eq column k db ++ (if column row =? k then [row] else []).
Proof.
  unfold Db.where_eq, Db.inserted. rewrite filter_app. reflexivity.
Qed.

(** A record added under a free identity is the one found there. *)
Lemma lookup_inserted_same row db :
  ~ In (column row) (map column db) ->
  Db.where_eq column (column row) (Db.inserted row db) = [row].
Proof.
  intros H. rewrite where_eq_inserted, (where_eq_absent _ _ H), String.eqb_refl.
  reflexivity.
Qed.

Lemma lookup_inserted_other k row db :
  column row <> k ->
  Db.where_eq column k (Db.inserted row db) = Db.where_eq column k db.
Proof.
  intros H. rewrite where_eq_inserted.
  apply String.eqb_neq in H. rewrite H. apply app_nil_r.
Qed.

Lemma map_inserted row db : map column (Db.inserted row db) = map column db ++ [column row].
Proof. unfold Db.inserted. apply map_app. Qed.

Lemma delete_absent k db :
  ~ In k (map column db) -> Db.delete column k db = db.
Proof.
  induction db as [|row db IH]; simpl; intros H; [reflexivity|].
  destruct (column row =? k) eqn:E.
  - apply String.eqb_eq in E. exfalso. apply H. left. exact E.
  - f_equal. apply IH. intros Hin. apply H. right. exact Hin.
Qed.

(** Deleting the identity just added gives the table back. *)
Lemma delete_inserted row db :
  ~ In (column row) (map column db) ->
  Db.delete column (column row) (Db.inserted row db) = db.
Proof.
  unfold Db.inserted. induction db as [|r db IH]; simpl; intros H.
  - rewrite String.eqb_refl. reflexivity.
  - destruct (column r =? column row) eqn:E.
    + apply String.eqb_eq in E. exfalso. apply H. left. exact E.
    + f_equal. apply IH. intros Hin. apply H. right. exact Hin.
Qed.

(** The rows that remain after a delete were there before. *)
Lemma delete_incl k row db :
  In row (Db.delete column k db) -> In row db.
Proof.
  induction db as [|r db IH]; simpl; [tauto|].
  destruct (column r =? k); simpl; intuition.
Qed.

Lemma delete_unique k db :
  NoDup (map column db) -> NoDup (map column (Db.delete column k db)).
Proof.
  induction db as [|r db IH]; simpl; intros H; [constructor|].
  inversion H as [|? ? Hnotin Hrest]; subst.
  destruct (column r =? k); [exact Hrest|].
  simpl. constructor; [|apply IH; exact Hrest].
  intros Hin. apply Hnotin.
  apply in_map_iff in Hin as (x & Hx & Hin). rewrite <- Hx.
  apply in_map. eapply delete_incl. exact Hin.
Qed.

(** With one record per identity, a delete leaves none under it. *)
Lemma delete_gone k db :
  NoDup (map column db) -> ~ In k (map column (Db.delete column k db)).
Proof.
  induction db as [|r db IH]; simpl; intros H; [tauto|].
  inversion H as [|? ? Hnotin Hrest]; subst.
  destruct (column r =? k) eqn:E.
  - apply String.eqb_eq in E. rewrite <- E. exact Hnotin.
  - simpl. intros [Hk|Hin].
    + apply String.eqb_neq in E. contradiction.
    + exact (IH Hrest Hin).
Qed.

Lemma delete_other k k' db :
  k' <> k ->
  Db.where_eq column k' (Db.delete column k db) = Db.where_eq column k' db.
Proof.
  intros Hne. induction db as [|r db IH]; simpl; [reflexivity|].
  destruct (column r =? k) eqn:E; simpl.
  - apply String.eqb_eq in E.
    assert ((column r =? k') = false) as -> by (apply String.eqb_neq; congruence).
    reflexivity.
  - rewrite IH. reflexivity.
Qed.

(** Rewriting a record under its own identity keeps every identity in
    place. *)
Lemma rewritten_identities k row db :
  column row = k ->
  map column (Db.rewritten column k row db) = map column db.
Proof.
  intros Hk. induction db as [|r db IH]; simpl; [reflexivity|].
  destruct (column r =? k) eqn:E; simpl.
  - apply String.eqb_eq in E. congruence.
  - rewrite IH. reflexivity.
Qed.

Lemma rewritten_absent k row db :
  ~ In k (map column db) -> Db.rewritten column k row db = db.
Proof.
  induction db as [|r db IH]; simpl; intros H; [reflexivity|].
  destruct (column r =? k) eqn:E.
  - apply String.eqb_eq in E. exfalso. apply H. left. exact E.
  - f_equal. apply IH. intros Hin. apply H. right. exact Hin.
Qed.

Lemma rewritten_same k row db :
  column row = k -> In k (map column db) ->
  Db.first (Db.where_eq column k (Db.rewritten column k row db)) = Some row.
Proof.
  intros Hk. induction db as [|r db IH]; simpl; [tauto|].
  intros Hin. destruct (column r =? k) eqn:E; simpl.
  - rewrite Hk, String.eqb_refl. reflexivity.
  - rewrite E. apply IH. destruct Hin as [Hr|Hin]; [|exact Hin].
    apply String.eqb_neq in E. contradiction.
Qed.

Lemma rewritten_other k k' row db :
  column row = k -> k' <> k ->
  Db.where_eq column k' (Db.rewritten column k row db) = Db.where_eq column k' db.
Proof.
  intros Hk Hne. induction db as [|r db IH]; simpl; [reflexivity|].
  destruct (column r =? k) eqn:E; simpl.
  - apply String.eqb_eq in E.
    assert ((column row =? k') = false) as -> by (apply String.eqb_neq; congruence).
    assert ((column r =? k') = false) as -> by (apply String.eqb_neq; congruence).
    reflexivity.
  - rewrite IH. reflexivity.
Qed.

Lemma inserted_unique row db :
  ~ In (column row) (map column db) ->
  NoDup (map column db) -> NoDup (map column (Db.inserted row db)).
Proof.
  intros Hfree Hdb. rewrite map_inserted.
  apply NoDup_app; [exact Hdb|repeat constructor; simpl; tauto|].
  intros x Hx [<-|[]]. exact (Hfree Hx).
Qed.

End DbFacts.

(** ** The endpoints of every service, case by case *)

Ltac open_service r :=
  destruct r;
  unfold stored, valid;
  cbn [service user_service book_service movie_service task_service event_service
       login_service mineral_service clock_service mission_service flight_service
       Model identity storable validate create update delete list_by_identity
       created conflict updated mismatch not_found deleted];
  unfold Inn.create_user, Inn.update_user, Inn.delete_user,
         Book.create_book, Book.update_book, Book.delete_book,
         KEno.create_movie, KEno.update_movie, KEno.delete_movie,
         To_Do_List.create_task, To_Do_List.update_task, To_Do_List.delete_task,
         Events.create_event, Events.update_event, Events.delete_event,
         Login.create_user, Login.update_user, Login.delete_user,
         Catalog.create_mineral, Catalog.update_mineral, Catalog.delete_mineral,
         Clock.create_clock, Clock.update_clock, Clock.delete_clock, Clock.from_orm,
         Mission.create_mission, Mission.update_mission, Mission.delete_mission,
         Dron.create_flight, Dron.update_flight, Dron.delete_flight,
         Db.add, Db.setattrs.

(** Splits on whether the table can hold the row of the request. *)
Ltac case_storable :=
  match goal with
  | |- context [if ?storable ?e then Some _ else None] => destruct (storable e)
  end.

Section Endpoints.

Variable r : Resource.

Local Abbreviation s := (service r).

Implicit Types (e : Model s) (db : list (Model s)) (k : string).

Lemma create_present e db :
  stored s (identity s e) db <> None ->
  create s e db = (conflict s, db).
Proof.
  revert e db. open_service r; intros e db H;
    destruct (Db.first _) eqn:F; first [reflexivity | congruence].
Qed.

Lemma create_refused e db :
  stored s (identity s e) db = None ->
  storable s e = false ->
  create s e db = (CommitError, db).
Proof.
  revert e db. open_service r; intros e db -> ->; reflexivity.
Qed.

Lemma create_absent_store e db :
  stored s (identity s e) db = None ->
  snd (create s e db) = if storable s e then Db.inserted e db else db.
Proof.
  revert e db. open_service r; intros e db ->; case_storable; try reflexivity.
  destruct (Clock.validate e); reflexivity.
Qed.

Lemma create_absent_response now e db :
  stored s (identity s e) db = None ->
  valid s now e ->
  storable s e = true ->
  fst (create s e db) = created s e.
Proof.
  revert e db. open_service r; intros e db -> V ->; try reflexivity.
  rewrite V. reflexivity.
Qed.

(** A create that is answered with the confirmation has stored the row. *)
Lemma create_confirmed e db :
  fst (create s e db) = created s e ->
  stored s (identity s e) db = None
  /\ storable s e = true
  /\ snd (create s e db) = Db.inserted e db.
Proof.
  revert e db. open_service r; intros e db;
    destruct (Db.first _) eqn:F; simpl; try discriminate;
    try case_storable; simpl; try discriminate; try (repeat split; reflexivity).
  destruct (Clock.validate e); simpl; try discriminate. repeat split; reflexivity.
Qed.

Lemma update_mismatch k e db :
  k <> identity s e ->
  update s k e db = (mismatch s, db).
Proof.
  revert e db. open_service r; intros e db H;
    apply String.eqb_neq in H; rewrite H; reflexivity.
Qed.

Lemma update_absent k e db :
  stored s k db = None ->
  update s k e db = (if k =? identity s e then not_found s else mismatch s, db).
Proof.
  revert e db. open_service r; intros e db ->;
    destruct (k =? _); reflexivity.
Qed.

Lemma update_refused e db :
  stored s (identity s e) db <> None ->
  storable s e = false ->
  update s (identity s e) e db = (CommitError, db).
Proof.
  revert e db. open_service r; intros e db H ->;
    rewrite String.eqb_refl; simpl;
    destruct (Db.first _) eqn:F; first [reflexivity | congruence].
Qed.

Lemma update_present_store e db :
  stored s (identity s e) db <> None ->
  snd (update s (identity s e) e db)
  = if storable s e then Db.rewritten (identity s) (identity s e) e db else db.
Proof.
  revert e db. open_service r; intros e db H;
    rewrite String.eqb_refl; simpl;
    destruct (Db.first _) eqn:F; try congruence;
    try case_storable; try reflexivity.
  destruct (Clock.validate e); reflexivity.
Qed.

Lemma update_present_response now e db :
  stored s (identity s e) db <> None ->
  valid s now e ->
  storable s e = true ->
  fst (update s (identity s e) e db) = updated s e.
Proof.
  revert e db. open_service r; intros e db H V ->;
    rewrite String.eqb_refl; simpl;
    destruct (Db.first _) eqn:F; try reflexivity; try congruence.
  rewrite V. reflexivity.
Qed.

Lemma delete_absent_answer k db :
  stored s k db = None ->
  delete s k db = (not_found s, db).
Proof.
  revert db. open_service r; intros db ->; reflexivity.
Qed.

Lemma delete_present k db :
  stored s k db <> None ->
  delete s k db = (deleted s k, Db.delete (identity s) k db).
Proof.
  revert db. open_service r; intros db H;
    destruct (Db.first _) eqn:F; first [reflexivity | congruence].
Qed.

(** The store after any request, whatever the answer. *)
Lemma create_store e db :
  snd (create s e db)
  = match stored s (identity s e) db with
    | Some _ => db
    | None => if storable s e then Db.inserted e db else db
    end.
Proof.
  destruct (stored s (identity s e) db) eqn:E.
  - rewrite create_present; [reflexivity|congruence].
  - apply create_absent_store. exact E.
Qed.

Lemma update_store k e db :
  snd (update s k e db)
  = if k =? identity s e then
      match stored s k db with
      | Some _ => if storable s e then Db.rewritten (identity s) k e db else db
      | None => db
      end
    else db.
Proof.
  destruct (k =? identity s e) eqn:E.
  - apply String.eqb_eq in E. subst k.
    destruct (stored s (identity s e) db) eqn:F.
    + apply update_present_store. congruence.
    + rewrite update_absent by exact F. reflexivity.
  - apply String.eqb_neq in E. rewrite update_mismatch by exact E. reflexivity.
Qed.

Lemma delete_store k db :
  snd (delete s k db)
  = match stored s k db with
    | Some _ => Db.delete (identity s) k db
    | None => db
    end.
Proof.
  destruct (stored s k db) eqn:E.
  - rewrite delete_present; [reflexivity|congruence].
  - rewrite delete_absent_answer by exact E. reflexivity.
Qed.

End Endpoints.

(** ** Identities stay unique *)

Section Unique.

Variable r : Resource.

Local Abbreviation s := (service r).

Implicit Types (e : Model s) (db : list (Model s)) (k : string).

Lemma stored_None k db : stored s k db = None <-> ~ In k (map (identity s) db).
Proof. apply lookup_None. Qed.

Lemma handle_unique (q : Request (Model s)) db :
  unique s db -> unique s (snd (handle s q db)).
Proof.
  unfold unique. intros U. destruct q as [e|k e|k]; simpl.
  - rewrite create_store. destruct (stored s (identity s e) db) eqn:E.
    + exact U.
    + destruct (storable s e); [|exact U].
      apply inserted_unique; [apply stored_None; exact E|exact U].
  - rewrite update_store. destruct (k =? identity s e) eqn:K; [|exact U].
    destruct (stored s k db); [|exact U].
    destruct (storable s e); [|exact U].
    apply String.eqb_eq in K. rewrite rewritten_identities by congruence. exact U.
  - rewrite delete_store. destruct (stored s k db); [|exact U].
    apply delete_unique. exact U.
Qed.

Lemma run_unique (qs : list (Request (Model s))) db :
  unique s db -> unique s (run s qs db).
Proof.
  revert db. induction qs as [|q qs IH]; simpl; intros db U; [exact U|].
  apply IH, handle_unique, U.
Qed.

(** With unique identities a filter on the identity finds at most one
    row. *)
Lemma unique_at_most_one k db :
  unique s db -> (List.length (Db.where_eq (identity s) k db) <= 1)%nat.
Proof.
  unfold unique. induction db as [|row db IH]; simpl; intros U; [lia|].
  inversion U as [|? ? Hnotin Hrest]; subst.
  destruct (identity s row =? k) eqn:E; [|apply IH; exact Hrest].
  apply String.eqb_eq in E. subst k.
  rewrite (where_eq_absent _ _ _ Hnotin). simpl. lia.
Qed.

End Unique.

(** ** Scenarios *)

Example user_with_ten_digits_is_created :
  with_body Inn.validate Inn.create_user ivanov []
  = (Text "Пользователь успешно создан", [ivanov]).
Proof. reflexivity. Qed.

Example user_with_five_digits_is_refused :
  Inn.validate_inn "12345" = ValueError "ИНН должен состоять из 10 или 12 цифр".
Proof. reflexivity. Qed.

Example update_replaces_the_row_in_place :
  Inn.update_user "1234567890"
    (Inn.Build_User_inn "1234567890" Inn.MALE "Ivan" "Ivan" "Ivanov" "Tver")
    [ivanov; petrova]
  = (Text "Пользователь успешно обновлён",
     [Inn.Build_User_inn "1234567890" Inn.MALE "Ivan" "Ivan" "Ivanov" "Tver"; petrova]).
Proof. reflexivity. Qed.

Example delete_removes_the_row :
  Inn.delete_user "1234567890" [ivanov; petrova]
  = (Text "Пользователь с таким ИНН удалён", [petrova]).
Proof. reflexivity. Qed.

Example book_beyond_the_column_is_refused_at_commit :
  with_body Book.validate Book.create_book endless_book [] = (CommitError, []).
Proof. reflexivity. Qed.

Example mineral_of_unknown_hardness_is_refused_at_commit :
  with_body Catalog.validate Catalog.create_mineral unmeasured_quartz []
  = (CommitError, []).
Proof. vm_compute. reflexivity. Qed.

Example refused_update_keeps_the_row :
  with_body Book.validate (Book.update_book "9780140447") endless_book [war_and_peace]
  = (CommitError, [war_and_peace]).
Proof. reflexivity. Qed.

Example listing_conjoins_filters :
  Inn.get_user None None None None (Some "Kazan") (Some "FEMALE") [ivanov; petrova]
  = Rows [petrova].
Proof. reflexivity. Qed.

(** * The repository contract *)

(** The answers of a module tell the outcomes apart. *)
Lemma answers_distinct (r : Resource) (e : Model (service r)) (k : string) :
  conflict (service r) <> created (service r) e
  /\ mismatch (service r) <> updated (service r) e
  /\ mismatch (service r) <> not_found (service r)
  /\ not_found (service r) <> updated (service r) e
  /\ not_found (service r) <> deleted (service r) k.
Proof.
  destruct r; simpl; repeat split; discriminate.
Qed.


(** C1.  For every resource and identity [k]: when a record is stored under
    [k], create answers with the module's conflict response (which is not its
    answer to a successful create) and the table is the same table.  A create
    is successful when it is answered with the module's confirmation, and
    then the identity was absent, the table could hold the row, and the row
    has been appended.  From a table without [k], create of a valid entity
    the table can hold succeeds, a second create under [k] is a conflict that
    leaves the table alone, delete of [k] then succeeds, and create of a
    valid entity under [k] that the table can hold succeeds again on the
    table delete left. *)
Theorem create_conflicts_until_deleted (r : Resource) (now : Z)
    (e e' : Model (service r)) (db : list (Model (service r))) :
  conflict (service r) <> created (service r) e
  /\
  (stored (service r) (identity (service r) e) db <> None ->
   create (service r) e db = (conflict (service r), db))
  /\
  (fst (create (service r) e db) = created (service r) e ->
   stored (service r) (identity (service r) e) db = None
   /\ storable (service r) e = true
   /\ snd (create (service r) e db) = Db.inserted e db)
  /\
  (stored (service r) (identity (service r) e) db = None ->
   valid (service r) now e ->
   storable (service r) e = true ->
   identity (service r) e' = identity (service r) e ->
   create (service r) e db = (created (service r) e, Db.inserted e db)
   /\ stored (service r) (identity (service r) e) (Db.inserted e db) = Some e
   /\ create (service r) e' (Db.inserted e db) = (conflict (service r), Db.inserted e db)
   /\ delete (service r) (identity (service r) e) (Db.inserted e db)
      = (deleted (service r) (identity (service r) e), db)
   /\ (valid (service r) now e' ->
       storable (service r) e' = true ->
       create (service r) e' db = (created (service r) e', Db.inserted e' db))).
Proof.
  split; [apply (answers_distinct r e EmptyString)|]. split; [|split].
  - apply create_present.
  - apply create_confirmed.
  - intros Absent V S Same.
    assert (~ In (identity (service r) e) (map (identity (service r)) db)) as Free
      by (apply stored_None; exact Absent).
    assert (stored (service r) (identity (service r) e) (Db.inserted e db) = Some e) as Now.
    { unfold stored. rewrite lookup_inserted_same by exact Free. reflexivity. }
    repeat split.
    + rewrite (surjective_pairing (create (service r) e db)).
      rewrite (create_absent_response r now), create_absent_store, S by assumption.
      reflexivity.
    + exact Now.
    + apply create_present. rewrite Same, Now. discriminate.
    + rewrite delete_present by (rewrite Now; discriminate).
      rewrite delete_inserted by exact Free. reflexivity.
    + intros V' S'. rewrite (surjective_pairing (create (service r) e' db)).
      rewrite (create_absent_response r now), create_absent_store, S'
        by (rewrite ?Same; assumption).
      reflexivity.
Qed.

Lemma create_conflicts_until_deleted_witness :
  create (service book) war_and_peace [] = (created (service book) war_and_peace, [war_and_peace])
  /\ stored (service book) "9780140447" [war_and_peace] = Some war_and_peace
  /\ create (service book) war_and_peace [war_and_peace]
     = (conflict (service book), [war_and_peace])
  /\ delete (service book) "9780140447" [war_and_peace]
     = (deleted (service book) "9780140447", [])
  /\ (valid (service book) 0 war_and_peace ->
      storable (service book) war_and_peace = true ->
      create (service book) war_and_peace []
      = (created (service book) war_and_peace, [war_and_peace])).
Proof.
  apply (proj2 (proj2 (proj2
           (create_conflicts_until_deleted book 0 war_and_peace war_and_peace [])))).
  - reflexivity.
  - reflexivity.
  - reflexivity.
  - reflexivity.
Defined.

(** C2.  For every resource, an update whose path identity [k1] differs
    from the identity [k2] of the body answers with the module's
    identity-mismatch response and returns the table it was given, so the
    records under [k1] and under [k2] are what they were, stored or not. *)
Theorem update_mismatch_leaves_store (r : Resource) (k1 : string)
    (e : Model (service r)) (db : list (Model (service r))) :
  k1 <> identity (service r) e ->
  update (service r) k1 e db = (mismatch (service r), db)
  /\ mismatch (service r) <> updated (service r) e
  /\ stored (service r) k1 (snd (update (service r) k1 e db)) = stored (service r) k1 db
  /\ stored (service r) (identity (service r) e) (snd (update (service r) k1 e db))
     = stored (service r) (identity (service r) e) db.
Proof.
  intros H. rewrite (update_mismatch r k1 e db H). simpl. repeat split.
  apply (answers_distinct r e k1).
Qed.

Lemma update_mismatch_leaves_store_witness :
  update (service mission) "RU-2025-A" luna [luna] = (mismatch (service mission), [luna])
  /\ mismatch (service mission) <> updated (service mission) luna
  /\ stored (service mission) "RU-2025-A" (snd (update (service mission) "RU-2025-A" luna [luna]))
     = stored (service mission) "RU-2025-A" [luna]
  /\ stored (service mission) "RU-2025-B" (snd (update (service mission) "RU-2025-A" luna [luna]))
     = stored (service mission) "RU-2025-B" [luna].
Proof.
  apply (update_mismatch_leaves_store mission "RU-2025-A" luna [luna]).
  discriminate.
Defined.

(** C3.  For every resource and identity [k] without a stored record, an
    update of [k] by an entity whose identity is [k] and a delete of [k]
    both answer with the module's not-found response and return the table
    they were given, in which [k] is still absent. *)
Theorem absent_update_delete_not_found (r : Resource) (k : string)
    (e : Model (service r)) (db : list (Model (service r))) :
  stored (service r) k db = None ->
  identity (service r) e = k ->
  update (service r) k e db = (not_found (service r), db)
  /\ delete (service r) k db = (not_found (service r), db)
  /\ not_found (service r) <> updated (service r) e
  /\ not_found (service r) <> deleted (service r) k
  /\ stored (service r) k (snd (update (service r) k e db)) = None
  /\ stored (service r) k (snd (delete (service r) k db)) = None.
Proof.
  intros Absent Same.
  rewrite (update_absent r k e db Absent), (delete_absent_answer r k db Absent).
  rewrite <- Same, String.eqb_refl. simpl. rewrite Same.
  repeat split; try exact Absent; apply (answers_distinct r e k).
Qed.

Lemma absent_update_delete_not_found_witness :
  update (service flight) "FL-00001-A" courier [] = (not_found (service flight), [])
  /\ delete (service flight) "FL-00001-A" [] = (not_found (service flight), [])
  /\ not_found (service flight) <> updated (service flight) courier
  /\ not_found (service flight) <> deleted (service flight) "FL-00001-A"
  /\ stored (service flight) "FL-00001-A" (snd (update (service flight) "FL-00001-A" courier [])) = None
  /\ stored (service flight) "FL-00001-A" (snd (delete (service flight) "FL-00001-A" [])) = None.
Proof.
  apply (absent_update_delete_not_found flight "FL-00001-A" courier []).
  - reflexivity.
  - reflexivity.
Defined.

(** C9.  For every resource, in every table reached from the empty one by
    any sequence of create, update and delete requests, each identity value
    has at most one row; in such a table create adds a row only when the
    identity is absent (and the table can hold the row), update leaves every
    row under the identity it had and puts the new fields under the identity
    it rewrites when the table can hold them, the old row staying otherwise,
    and after delete no row is under the deleted identity. *)
Theorem reachable_store_has_unique_identities (r : Resource)
    (qs : list (Request (Model (service r)))) :
  let db := run (service r) qs [] in
  (forall k, (List.length (Db.where_eq (identity (service r)) k db) <= 1)%nat)
  /\ (forall e,
        snd (create (service r) e db)
        = match stored (service r) (identity (service r) e) db with
          | Some _ => db
          | None => if storable (service r) e then Db.inserted e db else db
          end)
  /\ (forall k e,
        map (identity (service r)) (snd (update (service r) k e db))
        = map (identity (service r)) db)
  /\ (forall e,
        stored (service r) (identity (service r) e) db <> None ->
        stored (service r) (identity (service r) e)
          (snd (update (service r) (identity (service r) e) e db))
        = if storable (service r) e then Some e
          else stored (service r) (identity (service r) e) db)
  /\ (forall k, stored (service r) k (snd (delete (service r) k db)) = None).
Proof.
  intros db.
  assert (unique (service r) db) as U by (apply run_unique; constructor).
  repeat split.
  - intros k. apply unique_at_most_one. exact U.
  - intros e. apply create_store.
  - intros k e. rewrite update_store.
    destruct (k =? identity (service r) e) eqn:K; [|reflexivity].
    destruct (stored (service r) k db); [|reflexivity].
    destruct (storable (service r) e); [|reflexivity].
    apply String.eqb_eq in K. apply rewritten_identities. congruence.
  - intros e Present. rewrite update_present_store by exact Present.
    destruct (storable (service r) e); [|reflexivity].
    apply rewritten_same; [reflexivity|].
    destruct (in_dec string_dec (identity (service r) e)
                (map (identity (service r)) db)) as [Hin|Hout]; [exact Hin|].
    apply stored_None in Hout. contradiction.
  - intros k. rewrite delete_store. destruct (stored (service r) k db) eqn:E.
    + apply stored_None, delete_gone. exact U.
    + exact E.
Qed.

(** ** Validation *)

Lemma ap_inl {A B : Type} (f : Validated (A -> B)) (x : Validated A) (v : B) :
  f <*> x = inl v -> exists g a, f = inl g /\ x = inl a /\ v = g a.
Proof.
  destruct f as [g|ef], x as [a|ex]; simpl; intros H; try discriminate.
  injection H as <-. exists g, a. repeat split.
Qed.

Lemma failures_ap {A B : Type} (f : Validated (A -> B)) (x : Validated A) :
  failures (f <*> x) = failures f ++ failures x.
Proof.
  destruct f, x; simpl; rewrite ?app_nil_r; reflexivity.
Qed.

(** Splits [f <*> x1 <*> ... <*> xn = inl v] into one equation per field. *)
Ltac split_fields V :=
  let g := fresh "g" in
  let a := fresh "a" in
  let Vf := fresh "Vf" in
  let Vx := fresh "Vx" in
  let E := fresh "E" in
  apply ap_inl in V as (g & a & Vf & Vx & E);
  try split_fields Vf.

Ltac open_validate :=
  unfold Inn.validate, Book.validate, KEno.validate, To_Do_List.validate,
         Events.validate, Login.validate, Catalog.validate, Clock.validate,
         Mission.validate, Dron.validate.

(** Unfolds the field validators down to their tests. *)
Ltac open_validators :=
  unfold Inn.validate_inn, Book.validate_isbn, Book.validate_pages,
         KEno.validate_movie_id, KEno.validate_release_year,
         To_Do_List.validate_task_id, To_Do_List.validate_description,
         To_Do_List.validate_created_at, Events.validate_event_id,
         Events.validate_name, Events.validate_date, Login.validator_age,
         Login.validator_password, Login.validator_mail, Login.validator_first_name,
         Login.validator_last_name, Login.validator_patronymic,
         Catalog.validator_catalog_id, Catalog.validator_name,
         Catalog.validator_formula, Catalog.validator_hardness,
         Catalog.validator_weight, Catalog.validator_country, Catalog.validator_count,
         Clock.validator_serial_number, Clock.validator_brand, Clock.validator_model,
         Clock.validator_year, Clock.validator_material, Clock.validator_condition,
         Mission.validator_mission_code, Mission.validator_mission_name,
         Mission.validator_launch_site, Mission.validator_launch_date,
         Mission.validator_spacecraft, Mission.validator_crew_size,
         Dron.validator_flight_id, Dron.validator_drone_id,
         Dron.validator_departure_point, Dron.validator_destination,
         Dron.validator_departure_time, Dron.validator_cargo_weight,
         Dron.validator_altitude.

(** Validation returns the input when no field reports anything, and the
    reports of all fields, in declaration order, otherwise. *)
Lemma validate_by_fields (r : Resource) (now : Z) (raw : Model (service r)) :
  validate (service r) now raw
  = match concat (field_reports (service r) now raw) with
    | [] => inl raw
    | errors => inr errors
    end.
Proof.
  destruct r;
    cbn [service user_service book_service movie_service task_service event_service
         login_service mineral_service clock_service mission_service flight_service
         Model validate field_reports];
    open_validate; open_validators; destruct raw;
    cbn [Inn.inn Book.isbn Book.pages KEno.movie_id KEno.release_year
         To_Do_List.task_id To_Do_List.description To_Do_List.created_at
         Events.event_id Events.name Events.date
         Login.mail_ID Login.password Login.first_name Login.last_name
         Login.patronymic Login.age
         Catalog.catalog_id Catalog.name Catalog.chemical_formula Catalog.hardness
         Catalog.weight_carats Catalog.origin_country Catalog.specimens_count
         Clock.serial_number Clock.brand Clock.model Clock.manufacture_year
         Clock.material Clock.condition_grade
         Mission.mission_code Mission.mission_name Mission.launch_site
         Mission.launch_date Mission.spacecraft Mission.crew_size
         Dron.flight_id Dron.drone_id Dron.departure_point Dron.destination
         Dron.departure_time Dron.cargo_weight_kg Dron.max_altitude_m];
    repeat match goal with
           | |- context [if ?c then _ else _] => destruct c
           end;
    reflexivity.
Qed.

(** Every identity rule refuses the empty string, so the identity of a
    valid entity is truthy. *)
Lemma valid_identity_truthy (r : Resource) (now : Z) (e : Model (service r)) :
  valid (service r) now e -> PyStr.truthy (identity (service r) e) = true.
Proof.
  unfold valid. rewrite validate_by_fields.
  destruct r; destruct e as [k]; cbn [service identity Inn.inn Book.isbn
    KEno.movie_id To_Do_List.task_id Events.event_id Login.mail_ID
    Catalog.catalog_id Clock.serial_number Mission.mission_code Dron.flight_id
    user_service book_service movie_service task_service event_service
    login_service mineral_service clock_service mission_service flight_service];
    (destruct k; [|reflexivity]); intros V; exfalso;
    match type of V with
    | ?lhs = _ => let l := eval hnf in lhs in change lhs with l in V
    end;
    discriminate V.
Qed.

Ltac open_listing :=
  unfold Inn.get_user, Book.get_book, KEno.get_movies, To_Do_List.get_tasks,
         Events.get_events, Login.get_users, Catalog.get_minerals, Clock.get_clocks,
         Mission.get_missions, Dron.get_flights.

(** C4, as the claim states it, fails for a valid entity the table cannot
    hold.  A book of [2 ^ 63] pages passes validation; its create request
    reaches the commit, which raises, and the list endpoint called with its
    isbn afterwards returns no record. *)
Lemma valid_book_beyond_the_column_is_not_listed :
  valid (service book) 0 endless_book
  /\ stored (service book) (identity (service book) endless_book) [] = None
  /\ with_body Book.validate Book.create_book endless_book [] = (CommitError, [])
  /\ records (list_by_identity (service book) (identity (service book) endless_book)
                (snd (create (service book) endless_book [])))
     = []
  /\ records (list_by_identity (service book) (identity (service book) endless_book)
                (snd (create (service book) endless_book [])))
     <> [endless_book].
Proof.
  repeat split. discriminate.
Qed.

(** C4, amended.  For every resource and every valid entity [e] whose values
    the table can hold, from a table with no record under the identity of
    [e], create followed by the list endpoint called with the identity
    filter alone returns exactly one record, which is [e] field for field. *)
Theorem create_then_list_returns_entity (r : Resource) (now : Z)
    (e : Model (service r)) (db : list (Model (service r))) :
  valid (service r) now e ->
  storable (service r) e = true ->
  stored (service r) (identity (service r) e) db = None ->
  records (list_by_identity (service r) (identity (service r) e)
             (snd (create (service r) e db)))
  = [e].
Proof.
  intros V S Absent.
  rewrite create_absent_store, S by exact Absent.
  pose proof (valid_identity_truthy r now e V) as T.
  apply stored_None in Absent.
  pose proof (lookup_inserted_same (identity (service r)) e db Absent) as L.
  revert V T L. clear Absent S.
  open_service r; open_listing; intros V T L;
    cbn [Db.filter_if Db.filter_if_member]; rewrite T, L;
    cbn [records map]; try reflexivity.
  cbn [Clock.from_orm_each]. unfold Clock.from_orm. rewrite V. reflexivity.
Qed.

Lemma create_then_list_returns_entity_witness :
  records (list_by_identity (service book) "9780140447"
             (snd (create (service book) war_and_peace [])))
  = [war_and_peace].
Proof.
  apply (create_then_list_returns_entity book 0 war_and_peace []).
  - reflexivity.
  - reflexivity.
  - reflexivity.
Defined.

(** C6, as the claim states it, fails for the user service: a successful
    create of a valid user into an empty table answers with the bare text
    and carries no entity. *)
Lemma create_user_answers_with_text_only :
  valid (service user) 0 ivanov
  /\ stored (service user) (identity (service user) ivanov) [] = None
  /\ create (service user) ivanov [] = (Text "Пользователь успешно создан", [ivanov])
  /\ carried (fst (create (service user) ivanov [])) <> Some ivanov.
Proof.
  repeat split. discriminate.
Qed.

(** C6, amended.  For every resource, a successful create (of a valid
    entity the table can hold, under an identity that is absent) stores the
    entity under its identity and answers with the module's confirmation; in
    the mineral, clock, mission and flight services the answer carries the
    created entity, in the user, book, movie, task, event and login services
    it is the confirmation message alone. *)
Theorem create_answer_by_service (r : Resource) (now : Z)
    (e : Model (service r)) (db : list (Model (service r))) :
  valid (service r) now e ->
  storable (service r) e = true ->
  stored (service r) (identity (service r) e) db = None ->
  fst (create (service r) e db) = created (service r) e
  /\ stored (service r) (identity (service r) e) (snd (create (service r) e db)) = Some e
  /\ (returns_entity r = true -> carried (fst (create (service r) e db)) = Some e)
  /\ (returns_entity r = false -> message_only (fst (create (service r) e db)) = true).
Proof.
  intros V S Absent.
  rewrite (create_absent_response r now e db Absent V S).
  rewrite (create_absent_store r e db Absent), S.
  split; [reflexivity|]. split.
  - unfold stored. rewrite lookup_inserted_same; [reflexivity|].
    apply stored_None. exact Absent.
  - clear. destruct r; simpl; split; intros H; try reflexivity; discriminate H.
Qed.

Lemma create_answer_by_service_witness :
  fst (create (service mineral) quartz []) = created (service mineral) quartz
  /\ stored (service mineral) "AB-1234" (snd (create (service mineral) quartz [])) = Some quartz
  /\ (returns_entity mineral = true ->
      carried (fst (create (service mineral) quartz [])) = Some quartz)
  /\ (returns_entity mineral = false ->
      message_only (fst (create (service mineral) quartz [])) = true).
Proof.
  apply (create_answer_by_service mineral 0 quartz []).
  - vm_compute. reflexivity.
  - vm_compute. reflexivity.
  - reflexivity.
Defined.

(** C7.  Validation visits every declared field: its failure report is the
    reports of all fields in declaration order, so a field that fails is in
    the report whatever the other fields do, and an entity comes out only
    when no field reports anything, and is then the input.  A book whose
    isbn holds a non-digit and whose pages are not positive is refused with
    the error of each of the two fields. *)
Theorem validation_reports_every_failing_field :
  (forall (r : Resource) (now : Z) (raw : Model (service r)),
     failures (validate (service r) now raw)
     = concat (field_reports (service r) now raw))
  /\
  (forall (r : Resource) (now : Z) (raw : Model (service r)) report failure,
     In report (field_reports (service r) now raw) ->
     In failure report ->
     exists errors,
       validate (service r) now raw = inr errors /\ In failure errors)
  /\
  (forall (r : Resource) (now : Z) (raw e : Model (service r)),
     validate (service r) now raw = inl e ->
     e = raw
     /\ forall report, In report (field_reports (service r) now raw) -> report = [])
  /\
  (forall b : Book.Book,
     PyStr.isdigit (Book.isbn b) = false ->
     (Book.pages b <= 0)%Z ->
     Book.validate b
     = inr [Failure "isbn" "ISBN должен состоять только из цифр";
            Failure "pages" "Количество страниц должно быть больше 0"]).
Proof.
  repeat apply conj.
  - intros r now raw. rewrite validate_by_fields.
    destruct (concat _); reflexivity.
  - intros r now raw report failure Hr Hf. rewrite validate_by_fields.
    assert (In failure (concat (field_reports (service r) now raw))) as Hin
      by (apply in_concat; exists report; split; assumption).
    destruct (concat _) as [|x errors]; [destruct Hin|].
    exists (x :: errors). split; [reflexivity|exact Hin].
  - intros r now raw e. rewrite validate_by_fields.
    destruct (concat _) as [|x errors] eqn:C; [|discriminate].
    intros H. injection H as <-. split; [reflexivity|].
    intros report Hr. destruct report as [|f report]; [reflexivity|].
    assert (In f (concat (field_reports (service r) now raw))) as Hin
      by (apply in_concat; exists (f :: report); split; [exact Hr|left; reflexivity]).
    rewrite C in Hin. destruct Hin.
  - intros b Hd Hp. change (Book.validate b) with (validate (service book) 0%Z b).
    rewrite validate_by_fields. cbn [service book_service field_reports concat].
    unfold Book.validate_isbn, Book.validate_pages. rewrite Hd.
    apply Z.leb_le in Hp. rewrite Hp. reflexivity.
Qed.

Lemma validation_reports_every_failing_field_witness :
  Book.validate misprinted_book
  = inr [Failure "isbn" "ISBN должен состоять только из цифр";
         Failure "pages" "Количество страниц должно быть больше 0"].
Proof.
  apply (proj2 (proj2 (proj2 validation_reports_every_failing_field)) misprinted_book).
  - reflexivity.
  - vm_compute. discriminate.
Defined.

(** C8.  The catalog id rule returns ["AB-1234"] and raises on
    ["ab-1234"].  A mineral with catalog id ["AB-1234"] whose other fields
    pass their rules is validated, and posting it to a table without that id
    creates it when the table can hold its numbers (no NaN, a count within
    64 bits); a mineral with catalog id ["ab-1234"] is refused with a
    failure on the [catalog_id] field, whatever its other fields, and the
    table is not touched. *)
Theorem mineral_catalog_id_format :
  Catalog.validator_catalog_id "AB-1234" = Return "AB-1234"
  /\
  (forall (m : Catalog.Mineral) (db : list Catalog.MineralDB),
     Catalog.catalog_id m = "AB-1234" ->
     Catalog.validator_name (Catalog.name m) = Return (Catalog.name m) ->
     Catalog.validator_formula (Catalog.chemical_formula m)
       = Return (Catalog.chemical_formula m) ->
     Catalog.validator_hardness (Catalog.hardness m) = Return (Catalog.hardness m) ->
     Catalog.validator_weight (Catalog.weight_carats m) = Return (Catalog.weight_carats m) ->
     Catalog.validator_country (Catalog.origin_country m)
       = Return (Catalog.origin_country m) ->
     Catalog.validator_count (Catalog.specimens_count m)
       = Return (Catalog.specimens_count m) ->
     Catalog.storable m = true ->
     stored mineral_service "AB-1234" db = None ->
     Catalog.validate m = inl m
     /\ with_body Catalog.validate Catalog.create_mineral m db
        = (MessageData "Минерал успешно добавлен в коллекцию" (Entity m), Db.inserted m db))
  /\
  Catalog.validator_catalog_id "ab-1234"
  = ValueError "ID каталога должен иметь формат XX-1234 (две буквы, дефис, четыре цифры)"
  /\
  (forall (m : Catalog.Mineral) (db : list Catalog.MineralDB),
     Catalog.catalog_id m = "ab-1234" ->
     exists errors,
       Catalog.validate m = inr errors
       /\ In (Failure "catalog_id"
                "ID каталога должен иметь формат XX-1234 (две буквы, дефис, четыре цифры)")
             errors
       /\ with_body Catalog.validate Catalog.create_mineral m db
          = (Unprocessable errors, db)).
Proof.
  repeat apply conj.
  - reflexivity.
  - intros m db Hid Hn Hf Hh Hw Hc Hs Storable Absent.
    assert (Catalog.validate m = inl m) as V.
    { destruct m; cbn in *. subst. unfold Catalog.validate. cbn.
      rewrite Hn, Hf, Hh, Hw, Hc, Hs. reflexivity. }
    split; [exact V|].
    unfold with_body. rewrite V. cbv beta iota. unfold Catalog.create_mineral.
    rewrite Hid.
    change (Db.first (Db.where_eq Catalog.catalog_id "AB-1234" db) = None) in Absent.
    rewrite Absent. unfold Db.add. rewrite Storable. reflexivity.
  - reflexivity.
  - intros m db Hid.
    exists (Failure "catalog_id"
              "ID каталога должен иметь формат XX-1234 (две буквы, дефис, четыре цифры)"
            :: concat (tl (field_reports (service mineral) 0%Z m))).
    assert (Catalog.validate m
            = inr (Failure "catalog_id"
                     "ID каталога должен иметь формат XX-1234 (две буквы, дефис, четыре цифры)"
                   :: concat (tl (field_reports (service mineral) 0%Z m)))) as V.
    { change (Catalog.validate m) with (validate (service mineral) 0%Z m).
      rewrite validate_by_fields.
      cbn [service mineral_service field_reports concat tl].
      rewrite Hid. reflexivity. }
    split; [exact V|]. split; [left; reflexivity|].
    unfold with_body. rewrite V. reflexivity.
Qed.

Lemma mineral_catalog_id_format_witness :
  (Catalog.validate quartz = inl quartz
   /\ with_body Catalog.validate Catalog.create_mineral quartz []
      = (MessageData "Минерал успешно добавлен в коллекцию" (Entity quartz), [quartz]))
  /\
  (exists errors,
     Catalog.validate quartz_lowercase = inr errors
     /\ In (Failure "catalog_id"
              "ID каталога должен иметь формат XX-1234 (две буквы, дефис, четыре цифры)")
           errors
     /\ with_body Catalog.validate Catalog.create_mineral quartz_lowercase [quartz]
        = (Unprocessable errors, [quartz])).
Proof.
  split.
  - apply (proj1 (proj2 mineral_catalog_id_format) quartz []); reflexivity.
  - apply (proj2 (proj2 (proj2 mineral_catalog_id_format)) quartz_lowercase [quartz]).
    reflexivity.
Defined.

(** ** Listing *)

Section Filters.

Context {Row : Type}.

Implicit Types (q db : list Row) (column : Row -> string).

Lemma filter_filter (f g : Row -> bool) q :
  filter g (filter f q) = filter (fun row => f row && g row) q.
Proof.
  induction q as [|row q IH]; simpl; [reflexivity|].
  destruct (f row); simpl; [destruct (g row)|]; rewrite IH; reflexivity.
Qed.

Lemma filter_all q : filter (fun _ => true) q = q.
Proof. induction q as [|row q IH]; simpl; [|rewrite IH]; reflexivity. Qed.

Lemma filter_if_agrees value column q :
  Db.filter_if value column q = filter (fun row => agrees value (column row)) q.
Proof.
  destruct value as [v|]; simpl; [destruct (PyStr.truthy v)|];
    try reflexivity; symmetry; apply filter_all.
Qed.

Lemma filter_if_member_agrees {T : Type} (name_of : T -> string) (value : option T)
    (column : Row -> T) q :
  Db.filter_if_member name_of value column q
  = filter (fun row => agrees_member name_of value (column row)) q.
Proof.
  destruct value as [v|]; simpl; [reflexivity|]. symmetry. apply filter_all.
Qed.

Lemma filter_if_omit_blank value column q :
  Db.filter_if (omit_blank value) column q = Db.filter_if value column q.
Proof.
  destruct value as [v|]; simpl; [|reflexivity].
  destruct (PyStr.truthy v) eqn:T; simpl; [rewrite T|]; reflexivity.
Qed.

Lemma Forall_filter (P : Row -> Prop) (f : Row -> bool) q :
  Forall P q -> Forall P (filter f q).
Proof.
  rewrite !Forall_forall. intros H row Hin. apply filter_In in Hin. apply H, Hin.
Qed.

End Filters.

Lemma from_orm_each_valid (q : list Clock.ClockDB) :
  Forall (fun row => Clock.from_orm row = inl row) q ->
  Clock.from_orm_each q = inl q.
Proof.
  induction 1 as [|row q Hrow _ IH]; simpl; [reflexivity|].
  rewrite Hrow, IH. reflexivity.
Qed.

Ltac by_filters :=
  intros; open_listing; cbv zeta;
  rewrite ?filter_if_agrees, ?filter_if_member_agrees, ?filter_filter.

(** C5, as the claim states it, fails for the user listing: a [user_name]
    filter supplied as the empty string is not applied, and the listing
    returns a row whose name is not the supplied value. *)
Lemma empty_filter_value_is_not_applied :
  Inn.get_user None (Some "") None None None None [ivanov] = Rows [ivanov]
  /\ Inn.name ivanov <> "".
Proof.
  split; [reflexivity|discriminate].
Qed.

(** C5, amended.  Every list endpoint returns exactly the stored rows, in
    store order, that agree with each of its own filter parameters: a
    parameter that is omitted or empty asks nothing, any other value asks
    for equality on its column, and the parameters are combined by
    conjunction, so a call without filters returns every row.  The
    parameters are those each endpoint declares (not every column has one);
    the clock listing assumes that the stored rows pass the clock rules. *)
Theorem listing_applies_its_nonempty_filters :
  (forall a b c d e f db,
     records (Inn.get_user a b c d e f db)
     = filter (fun row =>
                 agrees a (Inn.inn row) && agrees b (Inn.name row)
                 && agrees c (Inn.first_name row) && agrees d (Inn.last_name row)
                 && agrees e (Inn.address row)
                 && agrees f (Inn.Gender_value (Inn.gender row))) db)
  /\
  (forall a b c d db,
     records (Book.get_book a b c d db)
     = filter (fun row =>
                 agrees a (Book.isbn row) && agrees b (Book.title row)
                 && agrees c (Book.author row)
                 && agrees d (Book.Genre_value (Book.genre row))) db)
  /\
  (forall a b c d db,
     records (KEno.get_movies a b c d db)
     = filter (fun row =>
                 agrees a (KEno.movie_id row) && agrees b (KEno.title row)
                 && agrees c (KEno.director row)
                 && agrees d (KEno.MovieGenre_name (KEno.genre row))) db)
  /\
  (forall a b c db,
     records (To_Do_List.get_tasks a b c db)
     = filter (fun row =>
                 agrees a (To_Do_List.task_id row)
                 && agrees b (To_Do_List.TaskStatus_name (To_Do_List.status row))
                 && agrees c (To_Do_List.TaskPriority_name (To_Do_List.priority row))) db)
  /\
  (forall a b c d db,
     records (Events.get_events a b c d db)
     = filter (fun row =>
                 agrees a (Events.event_id row) && agrees b (Events.name row)
                 && agrees c (Events.location row)
                 && agrees d (Events.EventType_name (Events.event_type row))) db)
  /\
  (forall a b c g db,
     records (Login.get_users a b c g db)
     = filter (fun row =>
                 agrees a (Login.mail_ID row) && agrees b (Login.first_name row)
                 && agrees c (Login.last_name row)
                 && agrees_member Login.GenderType_name g (Login.gender row)) db)
  /\
  (forall a b g c db,
     records (Catalog.get_minerals a b g c db)
     = filter (fun row =>
                 agrees a (Catalog.catalog_id row) && agrees b (Catalog.name row)
                 && agrees_member Catalog.RarityType_name g (Catalog.rarity row)
                 && agrees c (Catalog.origin_country row)) db)
  /\
  (forall a b g db,
     Forall (fun row => Clock.from_orm row = inl row) db ->
     records (Clock.get_clocks a b g db)
     = filter (fun row =>
                 agrees a (Clock.serial_number row) && agrees b (Clock.brand row)
                 && agrees_member Clock.MechanismType_name g (Clock.mechanism row)) db)
  /\
  (forall a g b db,
     records (Mission.get_missions a g b db)
     = filter (fun row =>
                 agrees a (Mission.mission_code row)
                 && agrees_member Mission.MissionType_name g (Mission.mission_type row)
                 && agrees b (Mission.launch_site row)) db)
  /\
  (forall a b g db,
     records (Dron.get_flights a b g db)
     = filter (fun row =>
                 agrees a (Dron.flight_id row) && agrees b (Dron.drone_id row)
                 && agrees_member Dron.CargoType_name g (Dron.cargo_type row)) db).
Proof.
  repeat apply conj; by_filters;
    rewrite ?from_orm_each_valid by (apply Forall_filter; assumption);
    cbn [records]; rewrite ?map_id;
    apply filter_ext; intros row; rewrite ?andb_assoc; reflexivity.
Qed.

Lemma listing_applies_its_nonempty_filters_witness :
  records (Clock.get_clocks (Some "AB12CD") (Some "") None [pocket_watch])
  = filter (fun row =>
              agrees (Some "AB12CD") (Clock.serial_number row)
              && agrees (Some "") (Clock.brand row)
              && agrees_member Clock.MechanismType_name None (Clock.mechanism row))
           [pocket_watch].
Proof.
  apply (proj1 (proj2 (proj2 (proj2 (proj2 (proj2 (proj2 (proj2
           listing_applies_its_nonempty_filters)))))))
           (Some "AB12CD") (Some "") None [pocket_watch]).
  repeat constructor.
Defined.

(** C10.  In every list endpoint a string filter supplied as the empty
    string does what an omitted filter does: the call equals the call with
    the empty values omitted, and with every string filter empty and the
    typed filters omitted the listing returns all stored rows, not the rows
    whose column is empty.  (The clock listing returns all rows when they
    pass the clock rules, which it checks again.) *)
Theorem empty_filter_is_an_omitted_filter :
  (forall a b c d e f db,
     Inn.get_user a b c d e f db
     = Inn.get_user (omit_blank a) (omit_blank b) (omit_blank c) (omit_blank d)
         (omit_blank e) (omit_blank f) db)
  /\ (forall db,
        records (Inn.get_user (Some "") (Some "") (Some "") (Some "") (Some "") (Some "") db)
        = db)
  /\ (forall a b c d db,
        Book.get_book a b c d db
        = Book.get_book (omit_blank a) (omit_blank b) (omit_blank c) (omit_blank d) db)
  /\ (forall db,
        records (Book.get_book (Some "") (Some "") (Some "") (Some "") db) = db)
  /\ (forall a b c d db,
        KEno.get_movies a b c d db
        = KEno.get_movies (omit_blank a) (omit_blank b) (omit_blank c) (omit_blank d) db)
  /\ (forall db,
        records (KEno.get_movies (Some "") (Some "") (Some "") (Some "") db) = db)
  /\ (forall a b c db,
        To_Do_List.get_tasks a b c db
        = To_Do_List.get_tasks (omit_blank a) (omit_blank b) (omit_blank c) db)
  /\ (forall db,
        records (To_Do_List.get_tasks (Some "") (Some "") (Some "") db) = db)
  /\ (forall a b c d db,
        Events.get_events a b c d db
        = Events.get_events (omit_blank a) (omit_blank b) (omit_blank c) (omit_blank d) db)
  /\ (forall db,
        records (Events.get_events (Some "") (Some "") (Some "") (Some "") db) = db)
  /\ (forall a b c g db,
        Login.get_users a b c g db
        = Login.get_users (omit_blank a) (omit_blank b) (omit_blank c) g db)
  /\ (forall db,
        records (Login.get_users (Some "") (Some "") (Some "") None db) = db)
  /\ (forall a b g c db,
        Catalog.get_minerals a b g c db
        = Catalog.get_minerals (omit_blank a) (omit_blank b) g (omit_blank c) db)
  /\ (forall db,
        records (Catalog.get_minerals (Some "") (Some "") None (Some "") db) = db)
  /\ (forall a b g db,
        Clock.get_clocks a b g db
        = Clock.get_clocks (omit_blank a) (omit_blank b) g db)
  /\ (forall db,
        Forall (fun row => Clock.from_orm row = inl row) db ->
        records (Clock.get_clocks (Some "") (Some "") None db) = db)
  /\ (forall a g b db,
        Mission.get_missions a g b db
        = Mission.get_missions (omit_blank a) g (omit_blank b) db)
  /\ (forall db,
        records (Mission.get_missions (Some "") None (Some "") db) = db)
  /\ (forall a b g db,
        Dron.get_flights a b g db
        = Dron.get_flights (omit_blank a) (omit_blank b) g db)
  /\ (forall db,
        records (Dron.get_flights (Some "") (Some "") None db) = db).
Proof.
  repeat apply conj; intros; open_listing; cbv zeta;
    rewrite ?filter_if_omit_blank; cbn [Db.filter_if Db.filter_if_member PyStr.truthy];
    rewrite ?map_id; try reflexivity.
  rewrite from_orm_each_valid by assumption. reflexivity.
Qed.

Lemma empty_filter_is_an_omitted_filter_witness :
  records (Clock.get_clocks (Some "") (Some "") None [pocket_watch]) = [pocket_watch].
Proof.
  apply (proj1 (proj2 (proj2 (proj2 (proj2 (proj2 (proj2 (proj2 (proj2 (proj2
           (proj2 (proj2 (proj2 (proj2 (proj2 (proj2
             empty_filter_is_an_omitted_filter)))))))))))))))
           [pocket_watch]).
  repeat constructor.
Defined.

(** * Further properties of the endpoints *)

(** ** More on the session primitives *)

Section RowFacts.

Context {Row : Type} (column : Row -> string).

Implicit Types (k : string) (row : Row) (db : list Row).

Lemma rewritten_length k row db :
  List.length (Db.rewritten column k row db) = List.length db.
Proof.
  induction db as [|r db IH]; simpl; [reflexivity|].
  destruct (column r =? k); simpl; [|rewrite IH]; reflexivity.
Qed.

Lemma rewritten_idempotent k row db :
  column row = k ->
  Db.rewritten column k row (Db.rewritten column k row db) = Db.rewritten column k row db.
Proof.
  intros Hk. induction db as [|r db IH]; simpl; [reflexivity|].
  destruct (column r =? k) eqn:E; simpl.
  - rewrite Hk, String.eqb_refl. reflexivity.
  - rewrite E, IH. reflexivity.
Qed.

Lemma delete_length k db :
  In k (map column db) ->
  S (List.length (Db.delete column k db)) = List.length db.
Proof.
  induction db as [|r db IH]; simpl; [tauto|].
  intros Hin. destruct (column r =? k) eqn:E; simpl; [reflexivity|].
  f_equal. apply IH. destruct Hin as [Hr|Hin]; [|exact Hin].
  apply String.eqb_neq in E. contradiction.
Qed.

Lemma rewritten_Forall (P : Row -> Prop) k row db :
  P row -> Forall P db -> Forall P (Db.rewritten column k row db).
Proof.
  intros Hrow. induction 1 as [|r db Hr Hdb IH]; simpl; [constructor|].
  destruct (column r =? k); constructor; assumption.
Qed.

Lemma delete_Forall (P : Row -> Prop) k db :
  Forall P db -> Forall P (Db.delete column k db).
Proof.
  induction 1 as [|r db Hr Hdb IH]; simpl; [constructor|].
  destruct (column r =? k); [exact Hdb|constructor; assumption].
Qed.

Lemma inserted_Forall (P : Row -> Prop) row db :
  P row -> Forall P db -> Forall P (Db.inserted row db).
Proof.
  intros Hrow Hdb. unfold Db.inserted. apply Forall_app. split; [exact Hdb|].
  constructor; [exact Hrow|constructor].
Qed.

(** With one row per identity, the rows under an identity are the row the
    lookup finds, if it finds one. *)
Lemma where_eq_found k db :
  NoDup (map column db) ->
  Db.where_eq column k db = found (Db.first (Db.where_eq column k db)).
Proof.
  induction db as [|r db IH]; simpl; intros U; [reflexivity|].
  inversion U as [|? ? Hnotin Hrest]; subst.
  destruct (column r =? k) eqn:E; [|apply IH; exact Hrest].
  apply String.eqb_eq in E. subst k. simpl.
  rewrite (where_eq_absent _ _ _ Hnotin). reflexivity.
Qed.

End RowFacts.

Section Answers.

Variable r : Resource.

Local Abbreviation s := (service r).

Implicit Types (e : Model s) (db : list (Model s)) (k : string).

Lemma stored_present k db : stored s k db <> None <-> In k (map (identity s) db).
Proof.
  split.
  - intros H. destruct (in_dec string_dec k (map (identity s) db)) as [Hin|Hout];
      [exact Hin|]. apply stored_None in Hout. contradiction.
  - intros Hin H. apply stored_None in H. contradiction.
Qed.

(** The answer of an update depends on the table only through the presence
    of the addressed record. *)
Lemma update_answer_by_presence k e db db' :
  (stored s k db = None <-> stored s k db' = None) ->
  fst (update s k e db) = fst (update s k e db').
Proof.
  revert e db db'. open_service r; intros e db db' H;
    destruct (k =? _); simpl; try reflexivity;
    destruct (Db.first (Db.where_eq _ k db)) eqn:F,
             (Db.first (Db.where_eq _ k db')) eqn:F'; try reflexivity;
    try (destruct H as [H1 H2]; first [specialize (H1 eq_refl)|specialize (H2 eq_refl)];
         discriminate);
    try case_storable; try reflexivity.
  destruct (Clock.validate e); reflexivity.
Qed.

End Answers.

(** ** Update and delete when the record exists *)

(** X1.  For every resource, an update of a stored identity by a valid entity
    of that identity whose values the table can hold answers with the
    module's update confirmation and replaces the stored fields wholesale:
    the record found under the identity afterwards is the new entity, and
    the table keeps its length and its identities in their places.  When
    the table cannot hold the values, the commit raises and the table is
    the one the request found. *)
Theorem update_replaces_the_record (r : Resource) (now : Z) (k : string)
    (e : Model (service r)) (db : list (Model (service r))) :
  stored (service r) k db <> None ->
  identity (service r) e = k ->
  (storable (service r) e = false ->
   update (service r) k e db = (CommitError, db))
  /\
  (valid (service r) now e ->
   storable (service r) e = true ->
   update (service r) k e db
  = (updated (service r) e, Db.rewritten (identity (service r)) k e db)
  /\ stored (service r) k (snd (update (service r) k e db)) = Some e
  /\ List.length (snd (update (service r) k e db)) = List.length db
  /\ map (identity (service r)) (snd (update (service r) k e db))
     = map (identity (service r)) db).
Proof.
  intros Present Same. subst k. split; [apply update_refused; exact Present|].
  intros V S.
  rewrite (surjective_pairing (update (service r) (identity (service r) e) e db)).
  rewrite (update_present_response r now e db Present V S).
  rewrite (update_present_store r e db Present), S. simpl.
  repeat split.
  - apply rewritten_same; [reflexivity|]. apply stored_present. exact Present.
  - apply rewritten_length.
  - apply rewritten_identities. reflexivity.
Qed.

Lemma update_replaces_the_record_witness :
  update (service user) "1234567890"
    (Inn.Build_User_inn "1234567890" Inn.MALE "Ivan" "Ivan" "Ivanov" "Tver")
    [petrova; ivanov]
  = (updated (service user)
       (Inn.Build_User_inn "1234567890" Inn.MALE "Ivan" "Ivan" "Ivanov" "Tver"),
     [petrova; Inn.Build_User_inn "1234567890" Inn.MALE "Ivan" "Ivan" "Ivanov" "Tver"]).
Proof.
  apply (update_replaces_the_record user 0 "1234567890"
           (Inn.Build_User_inn "1234567890" Inn.MALE "Ivan" "Ivan" "Ivanov" "Tver")
           [petrova; ivanov]).
  - discriminate.
  - reflexivity.
  - reflexivity.
  - reflexivity.
Defined.

(** X2.  For every resource, a delete of a stored identity answers with the
    module's delete confirmation and removes one row; when the table has one
    row per identity, no record is left under the deleted identity. *)
Theorem delete_removes_the_record (r : Resource) (k : string)
    (db : list (Model (service r))) :
  stored (service r) k db <> None ->
  delete (service r) k db = (deleted (service r) k, Db.delete (identity (service r)) k db)
  /\ S (List.length (snd (delete (service r) k db))) = List.length db
  /\ (unique (service r) db -> stored (service r) k (snd (delete (service r) k db)) = None).
Proof.
  intros Present. rewrite (delete_present r k db Present). simpl. repeat split.
  - apply delete_length. apply stored_present. exact Present.
  - intros U. apply stored_None, delete_gone. exact U.
Qed.

Lemma delete_removes_the_record_witness :
  delete (service user) "1234567890" [petrova; ivanov]
  = (deleted (service user) "1234567890", [petrova])
  /\ stored (service user) "1234567890"
       (snd (delete (service user) "1234567890" [petrova; ivanov])) = None.
Proof.
  destruct (delete_removes_the_record user "1234567890" [petrova; ivanov])
    as (D & _ & G).
  - discriminate.
  - split; [exact D|]. apply G. repeat constructor; simpl; intuition discriminate.
Defined.

(** X3.  For every resource, whatever a create, update or delete request
    answers, the rows stored under every identity other than the one the
    request addresses are the rows that were there. *)
Theorem request_leaves_other_identities (r : Resource)
    (q : Request (Model (service r))) (db : list (Model (service r))) (k' : string) :
  k' <> target (service r) q ->
  Db.where_eq (identity (service r)) k' (snd (handle (service r) q db))
  = Db.where_eq (identity (service r)) k' db.
Proof.
  intros Other. destruct q as [e|k e|k]; simpl in *.
  - rewrite create_store. destruct (stored (service r) (identity (service r) e) db);
      [reflexivity|]. destruct (storable (service r) e); [|reflexivity].
    apply lookup_inserted_other. congruence.
  - rewrite update_store. destruct (k =? identity (service r) e) eqn:K; [|reflexivity].
    destruct (stored (service r) k db); [|reflexivity].
    destruct (storable (service r) e); [|reflexivity].
    apply String.eqb_eq in K. apply rewritten_other; congruence.
  - rewrite delete_store. destruct (stored (service r) k db); [|reflexivity].
    apply delete_other. exact Other.
Qed.

Lemma request_leaves_other_identities_witness :
  Db.where_eq (identity (service user)) "123456789012"
    (snd (handle (service user) (Delete "1234567890") [ivanov; petrova]))
  = Db.where_eq (identity (service user)) "123456789012" [ivanov; petrova].
Proof.
  apply (request_leaves_other_identities user (Delete "1234567890") [ivanov; petrova]).
  discriminate.
Defined.

(** X4.  For every resource, repeating an update changes nothing more: the
    second call gives the answer of the first and leaves the table the first
    call produced. *)
Theorem update_twice_is_update_once (r : Resource) (k : string)
    (e : Model (service r)) (db : list (Model (service r))) :
  update (service r) k e (snd (update (service r) k e db)) = update (service r) k e db.
Proof.
  rewrite (surjective_pairing (update (service r) k e (snd (update (service r) k e db)))).
  rewrite (surjective_pairing (update (service r) k e db)) at 3.
  f_equal.
  - apply update_answer_by_presence. rewrite !stored_None, update_store.
    destruct (k =? identity (service r) e) eqn:K; [|reflexivity].
    destruct (stored (service r) k db); [|reflexivity].
    destruct (storable (service r) e); [|reflexivity].
    apply String.eqb_eq in K. rewrite rewritten_identities by congruence. reflexivity.
  - rewrite !update_store.
    destruct (k =? identity (service r) e) eqn:K; [|reflexivity].
    apply String.eqb_eq in K.
    destruct (stored (service r) k db) eqn:F; [|rewrite F; reflexivity].
    destruct (storable (service r) e); [|rewrite F; reflexivity].
    assert (stored (service r) k (Db.rewritten (identity (service r)) k e db) = Some e) as ->.
    { apply rewritten_same; [congruence|]. apply stored_present. congruence. }
    apply rewritten_idempotent. congruence.
Qed.

(** X5.  For every resource, in a table with one row per identity a delete
    that is repeated answers not-found the second time and leaves the table
    the first call produced. *)
Theorem delete_twice_is_not_found (r : Resource) (k : string)
    (db : list (Model (service r))) :
  unique (service r) db ->
  delete (service r) k (snd (delete (service r) k db))
  = (not_found (service r), snd (delete (service r) k db)).
Proof.
  intros U. apply delete_absent_answer. rewrite delete_store.
  destruct (stored (service r) k db) eqn:F; [|exact F].
  apply stored_None, delete_gone. exact U.
Qed.

Lemma delete_twice_is_not_found_witness :
  delete (service flight) "FL-00001-A" (snd (delete (service flight) "FL-00001-A" [courier]))
  = (not_found (service flight), snd (delete (service flight) "FL-00001-A" [courier])).
Proof.
  apply (delete_twice_is_not_found flight "FL-00001-A" [courier]).
  repeat constructor. simpl. tauto.
Defined.

(** ** Looking a record up through the list endpoint *)

(** With a non-empty identity as its only filter, a list endpoint returns
    the rows stored under that identity. *)
Lemma list_by_identity_rows (r : Resource) (k : string) (db : list (Model (service r))) :
  PyStr.truthy k = true ->
  readable r db ->
  records (list_by_identity (service r) k db) = Db.where_eq (identity (service r)) k db.
Proof.
  revert db. open_service r; open_listing; intros db T R;
    cbn [Db.filter_if Db.filter_if_member]; rewrite T;
    cbn [records]; rewrite ?map_id; try reflexivity.
  cbn [readable] in R.
  rewrite from_orm_each_valid; [reflexivity|].
  apply Forall_filter. exact R.
Qed.

(** X6.  For every resource, in a table with one row per identity (whose
    rows pass the clock rules, for clocks), the list endpoint called with a
    non-empty identity as its only filter returns the stored record of that
    identity and nothing else, or nothing when there is none. *)
Theorem list_by_identity_is_the_lookup (r : Resource) (k : string)
    (db : list (Model (service r))) :
  PyStr.truthy k = true ->
  unique (service r) db ->
  readable r db ->
  records (list_by_identity (service r) k db) = found (stored (service r) k db).
Proof.
  intros T U R. rewrite list_by_identity_rows by assumption.
  apply where_eq_found. exact U.
Qed.

Lemma list_by_identity_is_the_lookup_witness :
  records (list_by_identity (service clock) "AB12CD" [pocket_watch])
  = found (stored (service clock) "AB12CD" [pocket_watch]).
Proof.
  apply (list_by_identity_is_the_lookup clock "AB12CD" [pocket_watch]).
  - reflexivity.
  - repeat constructor. simpl. tauto.
  - repeat constructor.
Defined.

(** X7.  For every resource, after an update of a stored identity by a
    valid entity whose values the table can hold, listing by that identity
    returns the new entity alone: nothing of the replaced record is left. *)
Theorem update_then_list_returns_new_fields (r : Resource) (now : Z)
    (e : Model (service r)) (db : list (Model (service r))) :
  unique (service r) db ->
  readable r db ->
  stored (service r) (identity (service r) e) db <> None ->
  valid (service r) now e ->
  storable (service r) e = true ->
  records (list_by_identity (service r) (identity (service r) e)
             (snd (update (service r) (identity (service r) e) e db)))
  = [e].
Proof.
  intros U R Present V S.
  rewrite (update_present_store r e db Present), S.
  rewrite list_by_identity_rows, where_eq_found.
  - rewrite rewritten_same; [reflexivity|reflexivity|].
    apply stored_present. exact Present.
  - rewrite rewritten_identities by reflexivity. exact U.
  - apply (valid_identity_truthy r now e V).
  - revert db U R Present V. clear. destruct r; intros; cbn [readable] in *; try exact I.
    apply rewritten_Forall; assumption.
Qed.

Lemma update_then_list_returns_new_fields_witness :
  records (list_by_identity (service clock) "AB12CD"
             (snd (update (service clock) "AB12CD"
                     (Clock.Build_Clock "AB12CD" "Omega" "Speedmaster" 1957
                        Clock.MECHANICAL "Steel" 9)
                     [pocket_watch])))
  = [Clock.Build_Clock "AB12CD" "Omega" "Speedmaster" 1957 Clock.MECHANICAL "Steel" 9].
Proof.
  apply (update_then_list_returns_new_fields clock 0
           (Clock.Build_Clock "AB12CD" "Omega" "Speedmaster" 1957
              Clock.MECHANICAL "Steel" 9)
           [pocket_watch]).
  - repeat constructor. simpl. tauto.
  - repeat constructor.
  - discriminate.
  - reflexivity.
  - reflexivity.
Defined.

(** X8.  For every resource, in a table with one row per identity, after a
    delete of a non-empty identity the list endpoint filtered by that
    identity returns no record. *)
Theorem delete_then_list_returns_nothing (r : Resource) (k : string)
    (db : list (Model (service r))) :
  PyStr.truthy k = true ->
  unique (service r) db ->
  readable r db ->
  records (list_by_identity (service r) k (snd (delete (service r) k db))) = [].
Proof.
  intros T U R. rewrite delete_store.
  assert (forall db', unique (service r) db' -> readable r db' ->
                      stored (service r) k db' = None ->
                      records (list_by_identity (service r) k db') = []) as Gone.
  { intros db' U' R' N. rewrite list_by_identity_rows, where_eq_found by assumption.
    unfold stored in N. rewrite N. reflexivity. }
  destruct (stored (service r) k db) eqn:F.
  - apply Gone.
    + apply delete_unique. exact U.
    + revert db U R F. clear. destruct r; intros; cbn [readable] in *; try exact I.
      apply delete_Forall. assumption.
    + apply stored_None, delete_gone. exact U.
  - apply Gone; assumption.
Qed.

Lemma delete_then_list_returns_nothing_witness :
  records (list_by_identity (service user) "1234567890"
             (snd (delete (service user) "1234567890" [ivanov; petrova])))
  = [].
Proof.
  apply (delete_then_list_returns_nothing user "1234567890" [ivanov; petrova]).
  - reflexivity.
  - repeat constructor; simpl; intuition discriminate.
  - exact I.
Defined.

(** ** Creating many records *)




(** ** More on validation *)

(** Validation returns its input or nothing. *)
Lemma validate_inl (r : Resource) (now : Z) (raw m : Model (service r)) :
  validate (service r) now raw = inl m -> m = raw /\ valid (service r) now raw.
Proof.
  unfold valid. rewrite validate_by_fields.
  destruct (concat _); [|discriminate]. intros H. injection H as <-.
  split; reflexivity.
Qed.

Ltac open_reports r :=
  destruct r;
  cbn [service user_service book_service movie_service task_service event_service
       login_service mineral_service clock_service mission_service flight_service
       Model field_reports].

Ltac split_checks :=
  repeat match goal with
         | |- context [raised _ ?c] =>
             lazymatch c with
             | Return _ => fail
             | ValueError _ => fail
             | _ => destruct c
             end
         end.

Ltac open_time_rules :=
  unfold To_Do_List.validate_created_at, Events.validate_date,
         Mission.validator_launch_date, Dron.validator_departure_time.

(** X11.  The rules of the user, book, movie, login, mineral and clock
    models do not read the clock.  A task that is valid at one instant has a
    creation time not after it, and is valid exactly at the instants from its
    creation time on; an event, mission or flight that is valid at one
    instant has its date not before it, and is valid exactly at the instants
    up to its date, the date included. *)
Theorem validity_window (r : Resource) (now now' : Z) (e : Model (service r)) :
  valid (service r) now e ->
  (time_rule r = timeless -> valid (service r) now' e)
  /\ (time_rule r = not_in_future ->
      exists t, timestamp r e = Some t /\ (t <= now)%Z
                /\ (valid (service r) now' e <-> (t <= now')%Z))
  /\ (time_rule r = not_in_past ->
      exists t, timestamp r e = Some t /\ (now <= t)%Z
                /\ (valid (service r) now' e <-> (now' <= t)%Z)).
Proof.
  unfold valid. rewrite !validate_by_fields.
  open_reports r; cbn [time_rule timestamp]; intros V;
    (repeat apply conj; intros R; try discriminate R; try exact V);
    eexists; (split; [reflexivity|]);
    revert V; open_time_rules; cbv zeta;
    repeat match goal with
           | |- context [(?a >? ?b)%Z] => destruct (Z.gtb_spec a b)
           | |- context [(?a <? ?b)%Z] => destruct (Z.ltb_spec a b)
           end;
    split_checks; cbn; intros Valid; try discriminate Valid;
    (split; [lia|]); split; intros Later;
    first [reflexivity|lia|discriminate Later].
Qed.

Lemma validity_window_witness :
  (time_rule mission = timeless -> valid (service mission) 250 luna)
  /\ (time_rule mission = not_in_future ->
      exists t, timestamp mission luna = Some t /\ (t <= 50)%Z
                /\ (valid (service mission) 250 luna <-> (t <= 250)%Z))
  /\ (time_rule mission = not_in_past ->
      exists t, timestamp mission luna = Some t /\ (50 <= t)%Z
                /\ (valid (service mission) 250 luna <-> (250 <= t)%Z)).
Proof.
  apply (validity_window mission 50 250 luna). reflexivity.
Defined.

(** ** Tables reached through served requests *)

Section Served.

Variable r : Resource.

Local Abbreviation s := (service r).

Implicit Types (db : list (Model s)) (q : Request (Model s)).

(** A served request keeps the rows it does not write and writes only a
    body that passed validation at the instant of the request. *)
Lemma serve_rows (Q : Model s -> Prop) (now : Z) q db :
  Forall Q db ->
  Forall (fun row => Q row \/ valid s now row) (snd (serve s now q db)).
Proof.
  intros H.
  assert (Forall (fun row => Q row \/ valid s now row) db) as H'
    by (revert H; apply Forall_impl; tauto).
  destruct q as [e|k e|k]; unfold serve, with_body.
  - destruct (validate s now e) as [m|errors] eqn:V; [|exact H'].
    apply validate_inl in V as [-> V]. rewrite create_store.
    destruct (stored s (identity s e) db); [exact H'|].
    destruct (storable s e); [|exact H'].
    apply inserted_Forall; [right; exact V|exact H'].
  - destruct (validate s now e) as [m|errors] eqn:V; [|exact H'].
    apply validate_inl in V as [-> V]. rewrite update_store.
    destruct (k =? identity s e); [|exact H'].
    destruct (stored s k db); [|exact H'].
    destruct (storable s e); [|exact H'].
    apply rewritten_Forall; [right; exact V|exact H'].
  - rewrite delete_store. destruct (stored s k db); [|exact H'].
    apply delete_Forall. exact H'.
Qed.

Lemma serve_all_rows (Q : Model s -> Prop) (qs : list (Z * Request (Model s))) db :
  Forall Q db ->
  Forall (fun row => Q row \/ exists now, In now (map fst qs) /\ valid s now row)
         (serve_all s qs db).
Proof.
  revert Q db. induction qs as [|[now q] qs IH]; intros Q db H; simpl.
  - revert H. apply Forall_impl. tauto.
  - apply (serve_rows Q now q) in H. apply IH in H. revert H.
    apply Forall_impl. intros row [[HQ|V]|(now' & Hin & V)].
    + left. exact HQ.
    + right. exists now. split; [left; reflexivity|exact V].
    + right. exists now'. split; [right; exact Hin|exact V].
Qed.

(** A served request changes the table as the bare endpoint would, or not
    at all. *)
Lemma serve_store (now : Z) q db :
  snd (serve s now q db) = snd (handle s q db) \/ snd (serve s now q db) = db.
Proof.
  destruct q as [e|k e|k]; unfold serve, with_body; simpl.
  - destruct (validate s now e) as [m|errors] eqn:V; [|right; reflexivity].
    apply validate_inl in V as [-> _]. left. reflexivity.
  - destruct (validate s now e) as [m|errors] eqn:V; [|right; reflexivity].
    apply validate_inl in V as [-> _]. left. reflexivity.
  - left. reflexivity.
Qed.

Lemma serve_all_unique (qs : list (Z * Request (Model s))) db :
  unique s db -> unique s (serve_all s qs db).
Proof.
  revert db. induction qs as [|[now q] qs IH]; intros db U; simpl; [exact U|].
  apply IH. destruct (serve_store now q db) as [-> | ->]; [|exact U].
  apply handle_unique. exact U.
Qed.

End Served.

(** X12.  For every resource, a table reached from the empty one through
    served requests has one row per identity and holds only rows that passed
    the validation of the model at the instant of one of the requests. *)
Theorem served_tables_hold_validated_rows (r : Resource)
    (qs : list (Z * Request (Model (service r)))) :
  unique (service r) (serve_all (service r) qs [])
  /\ Forall (fun row => exists now, In now (map fst qs) /\ valid (service r) now row)
            (serve_all (service r) qs []).
Proof.
  split.
  - apply serve_all_unique. constructor.
  - pose proof (serve_all_rows r (fun _ => False) qs [] (Forall_nil _)) as H.
    revert H. apply Forall_impl. intros row [[]|H]. exact H.
Qed.

(** X13.  On a table reached from the empty one through served requests the
    clock listing, which validates again every row it returns, never fails:
    every stored row passes the clock rules, and the listing returns the rows
    its filters select. *)
Theorem clock_listing_never_fails (qs : list (Z * Request Clock.Clock))
    (a b : option string) (g : option Clock.MechanismType) :
  readable clock (serve_all (service clock) qs [])
  /\ exists message,
       Clock.get_clocks a b g (serve_all (service clock) qs [])
       = Found message
           (filter (fun row =>
                      agrees a (Clock.serial_number row) && agrees b (Clock.brand row)
                      && agrees_member Clock.MechanismType_name g (Clock.mechanism row))
                   (serve_all (service clock) qs [])).
Proof.
  assert (readable clock (serve_all (service clock) qs [])) as R.
  { cbn [readable].
    pose proof (serve_all_rows clock (fun _ => False) qs [] (Forall_nil _)) as H.
    revert H. apply Forall_impl. intros row [[]|(now & _ & V)]. exact V. }
  split; [exact R|].
  unfold Clock.get_clocks. cbv zeta.
  rewrite !filter_if_agrees, filter_if_member_agrees, !filter_filter.
  rewrite from_orm_each_valid by (apply Forall_filter; exact R).
  eexists. f_equal. apply filter_ext. intros row. rewrite ?andb_assoc. reflexivity.
Qed.

(** The answers that are not requests turned down. *)
Lemma confirmation_is_no_refusal (r : Resource) (q : Request (Model (service r))) :
  (forall errors, Unprocessable errors <> confirmation (service r) q)
  /\ CommitError <> confirmation (service r) q.
Proof.
  destruct q, r; split; try intros errors; discriminate.
Qed.

(** X14.  For every resource, a served request is applied whole or not at
    all.  Either it is answered with the module's confirmation for it, and
    the table is the one the request asks for: the entity appended, the
    record rewritten, or the record removed.  Or the table is the one the
    request found, and the answer, which is not the confirmation, is one of
    the refusals: the validation failures of the body, conflict, identity
    mismatch, not found, or the error of a commit that raised. *)
Theorem served_request_is_applied_or_dropped (r : Resource) (now : Z)
    (q : Request (Model (service r))) (db : list (Model (service r))) :
  serve (service r) now q db = (confirmation (service r) q, effect (service r) q db)
  \/ (snd (serve (service r) now q db) = db
      /\ refusal (service r) (fst (serve (service r) now q db))
      /\ fst (serve (service r) now q db) <> confirmation (service r) q).
Proof.
  destruct (confirmation_is_no_refusal r q) as [NoErrors NoCommit].
  unfold refusal.
  destruct q as [e|k e|k]; unfold serve, with_body; cbn [confirmation effect] in *.
  - destruct (validate (service r) now e) as [m|errors] eqn:V;
      [|right; cbn [fst snd]; eauto 6].
    apply validate_inl in V as [-> V].
    destruct (stored (service r) (identity (service r) e) db) eqn:F.
    + rewrite create_present by congruence. right. cbn [fst snd].
      repeat split; [tauto|]. apply (answers_distinct r e EmptyString).
    + destruct (storable (service r) e) eqn:S.
      * left. rewrite (surjective_pairing (create (service r) e db)).
        rewrite (create_absent_response r now e db F V S).
        rewrite (create_absent_store r e db F), S. reflexivity.
      * rewrite (create_refused r e db F S). right. cbn [fst snd].
        repeat split; [tauto|exact NoCommit].
  - destruct (validate (service r) now e) as [m|errors] eqn:V;
      [|right; cbn [fst snd]; eauto 6].
    apply validate_inl in V as [-> V].
    destruct (String.eqb_spec k (identity (service r) e)) as [->|K].
    + destruct (stored (service r) (identity (service r) e) db) eqn:F.
      * assert (stored (service r) (identity (service r) e) db <> None) as Present
          by congruence.
        destruct (storable (service r) e) eqn:S.
        -- left.
           rewrite (surjective_pairing (update (service r) (identity (service r) e) e db)).
           rewrite (update_present_response r now e db Present V S).
           rewrite (update_present_store r e db Present), S. reflexivity.
        -- rewrite (update_refused r e db Present S). right. cbn [fst snd].
           repeat split; [tauto|exact NoCommit].
      * rewrite update_absent by exact F. rewrite String.eqb_refl. right. cbn [fst snd].
        repeat split; [tauto|]. apply (answers_distinct r e EmptyString).
    + rewrite update_mismatch by exact K. right. cbn [fst snd].
      repeat split; [tauto|]. apply (answers_distinct r e EmptyString).
  - destruct (stored (service r) k db) eqn:F.
    + left. apply delete_present. congruence.
    + rewrite delete_absent_answer by exact F. right. cbn [fst snd].
      repeat split; [tauto|]. clear. destruct r; discriminate.
Qed.

(** ** Validated values and the columns that hold them *)



(** ** The float rules *)

Section FloatOrder.

Lemma SFcompare_swap (x y : SpecFloat.spec_float) :
  SpecFloat.SFcompare y x = option_map CompOpp (SpecFloat.SFcompare x y).
Proof.
  destruct x as [sx|sx| |sx mx ex], y as [sy|sy| |sy my ey]; simpl;
    try destruct sx; try destruct sy; try reflexivity;
    rewrite (Z.compare_antisym ex ey); destruct (ex ?= ey)%Z; simpl; try reflexivity;
    rewrite (Pos.compare_cont_antisym mx my Eq); simpl;
    rewrite ?CompOpp_involutive; reflexivity.
Qed.

Lemma SFcompare_refl (x : SpecFloat.spec_float) :
  x <> SpecFloat.S754_nan -> SpecFloat.SFcompare x x = Some Eq.
Proof.
  destruct x as [sx|sx| |sx mx ex]; simpl; try destruct sx; try reflexivity;
    try congruence; intros _;
    rewrite Z.compare_refl, Pos.compare_cont_refl; reflexivity.
Qed.

Lemma is_nan_Prim2SF (x : float) :
  PrimFloat.is_nan x = true <-> FloatOps.Prim2SF x = SpecFloat.S754_nan.
Proof.
  unfold PrimFloat.is_nan. rewrite FloatAxioms.eqb_spec.
  unfold SpecFloat.SFeqb. split.
  - intros H. destruct (FloatOps.Prim2SF x) eqn:E; try reflexivity;
      rewrite SFcompare_refl in H by discriminate; discriminate H.
  - intros ->. reflexivity.
Qed.

Lemma SFcompare_nan (x y : SpecFloat.spec_float) :
  SpecFloat.SFcompare x y = None
  <-> x = SpecFloat.S754_nan \/ y = SpecFloat.S754_nan.
Proof.
  destruct x as [sx|sx| |sx mx ex], y as [sy|sy| |sy my ey]; simpl;
    try destruct sx; try destruct sy; simpl; intuition discriminate.
Qed.

(** [x < y] fails exactly when one of the two is NaN or [y <= x]. *)
Lemma ltb_false (x y : float) :
  PrimFloat.ltb x y = false
  <-> PrimFloat.is_nan x = true \/ PrimFloat.is_nan y = true \/ PrimFloat.leb y x = true.
Proof.
  rewrite FloatAxioms.ltb_spec, FloatAxioms.leb_spec, !is_nan_Prim2SF.
  unfold SpecFloat.SFltb, SpecFloat.SFleb. rewrite (SFcompare_swap _ (FloatOps.Prim2SF y)).
  pose proof (SFcompare_nan (FloatOps.Prim2SF x) (FloatOps.Prim2SF y)) as N.
  destruct (SpecFloat.SFcompare _ _) as [[| |]|]; simpl; intuition discriminate.
Qed.

(** [x <= y] fails exactly when one of the two is NaN or [y < x]. *)
Lemma leb_false (x y : float) :
  PrimFloat.leb x y = false
  <-> PrimFloat.is_nan x = true \/ PrimFloat.is_nan y = true \/ PrimFloat.ltb y x = true.
Proof.
  rewrite FloatAxioms.ltb_spec, FloatAxioms.leb_spec, !is_nan_Prim2SF.
  unfold SpecFloat.SFltb, SpecFloat.SFleb. rewrite (SFcompare_swap _ (FloatOps.Prim2SF y)).
  pose proof (SFcompare_nan (FloatOps.Prim2SF x) (FloatOps.Prim2SF y)) as N.
  destruct (SpecFloat.SFcompare _ _) as [[| |]|]; simpl; intuition discriminate.
Qed.

End FloatOrder.

Lemma checked_if {A : Type} (c : bool) (message : string) (x : A) :
  (if c then ValueError message else Return x) = Return x <-> c = false.
Proof.
  destruct c; split; intros H; try reflexivity; discriminate H.
Qed.

(** X15.  The range rules on floats let NaN through: the hardness rule
    accepts exactly NaN and the values from 1.0 to 10.0, the weight rule
    exactly NaN and the values above zero, and the cargo weight rule exactly
    NaN and the values above zero up to 50. *)
Theorem float_rules_accept_nan_and_the_range (x : float) :
  (Catalog.validator_hardness x = Return x
   <-> PrimFloat.is_nan x = true
       \/ (PrimFloat.leb 1 x = true /\ PrimFloat.leb x 10 = true))
  /\ (Catalog.validator_weight x = Return x
      <-> PrimFloat.is_nan x = true \/ PrimFloat.ltb 0 x = true)
  /\ (Dron.validator_cargo_weight x = Return x
      <-> PrimFloat.is_nan x = true
          \/ (PrimFloat.ltb 0 x = true /\ PrimFloat.leb x 50 = true)).
Proof.
  unfold Catalog.validator_hardness, Catalog.validator_weight, Dron.validator_cargo_weight.
  rewrite !checked_if, !orb_false_iff, !ltb_false, !leb_false.
  change (PrimFloat.is_nan 1) with false.
  change (PrimFloat.is_nan 10) with false.
  change (PrimFloat.is_nan 0) with false.
  change (PrimFloat.is_nan 50) with false.
  intuition discriminate.
Qed.

(** ** The shapes the identity patterns accept *)

Section Shapes.

Implicit Types (p : ascii -> bool) (s t : string) (r : Re.regex).

Lemma lang_cat_iff r1 r2 s :
  Re.lang (Re.Cat r1 r2) s
  <-> exists s1 s2, s = String.append s1 s2 /\ Re.lang r1 s1 /\ Re.lang r2 s2.
Proof.
  split; [apply lang_cat_inv|]. intros (s1 & s2 & -> & H1 & H2).
  constructor; assumption.
Qed.

Lemma lang_eps_iff s : Re.lang Re.Eps s <-> s = EmptyString.
Proof.
  split; intros H; [inversion H; reflexivity|subst; constructor].
Qed.

Lemma lang_cls_iff p s :
  Re.lang (Re.Cls p) s <-> exists c, s = String c EmptyString /\ p c = true.
Proof.
  split.
  - intros H. inversion H; subst. eauto.
  - intros (c & -> & H). constructor. exact H.
Qed.

Lemma lang_chr_iff c s : Re.lang (Re.chr c) s <-> s = String c EmptyString.
Proof.
  unfold Re.chr. rewrite lang_cls_iff. split.
  - intros (c' & -> & E). apply Ascii.eqb_eq in E. subst. reflexivity.
  - intros ->. exists c. split; [reflexivity|apply Ascii.eqb_refl].
Qed.

Lemma lang_lit_iff (w : string) s : Re.lang (Re.lit w) s <-> s = w.
Proof.
  revert s. induction w as [|c w IH]; intros s; simpl.
  - apply lang_eps_iff.
  - rewrite lang_cat_iff. split.
    + intros (s1 & s2 & -> & H1 & H2). apply lang_chr_iff in H1. apply IH in H2.
      subst. reflexivity.
    + intros ->. exists (String c EmptyString), w.
      split; [reflexivity|]. split; [apply lang_chr_iff|apply IH]; reflexivity.
Qed.

Lemma lang_times_cls p (n : nat) s :
  Re.lang (Re.times n (Re.Cls p)) s <-> PyStr.len s = n /\ PyStr.all p s = true.
Proof.
  revert s. induction n as [|n IH]; intros s; simpl.
  - rewrite lang_eps_iff. split.
    + intros ->. split; reflexivity.
    + intros [H _]. destruct s; [reflexivity|discriminate H].
  - rewrite lang_cat_iff. split.
    + intros (s1 & s2 & -> & H1 & H2). apply lang_cls_iff in H1 as (c & -> & Hc).
      apply IH in H2 as [L A]. simpl. rewrite Hc, A. unfold PyStr.len in *.
      simpl. split; [congruence|reflexivity].
    + intros [L A]. destruct s as [|c s]; [discriminate L|].
      simpl in A. apply andb_true_iff in A as [Hc A].
      exists (String c EmptyString), s. split; [reflexivity|]. split.
      * apply lang_cls_iff. eauto.
      * apply IH. unfold PyStr.len in *. simpl in L. split; [congruence|exact A].
Qed.

Lemma lang_star_cls p s :
  Re.lang (Re.Star (Re.Cls p)) s <-> PyStr.all p s = true.
Proof.
  split.
  - intros H. remember (Re.Star (Re.Cls p)) as r0 eqn:E.
    induction H as [| | | | | | |r' s1 s2 H1 _ _ IH2]; try discriminate; [reflexivity|].
    injection E as ->. apply lang_cls_iff in H1 as (c & -> & Hc).
    simpl. rewrite Hc. apply IH2. reflexivity.
  - induction s as [|c s IH]; simpl; intros A; [constructor|].
    apply andb_true_iff in A as [Hc A].
    apply (Re.lang_star_app (Re.Cls p) (String c EmptyString) s).
    + apply lang_cls_iff. eauto.
    + apply IH. exact A.
Qed.

Lemma len_append s t : PyStr.len (String.append s t) = (PyStr.len s + PyStr.len t)%nat.
Proof.
  unfold PyStr.len. induction s as [|c s IH]; simpl; [|rewrite IH]; reflexivity.
Qed.

Lemma all_append p s t :
  PyStr.all p (String.append s t) = PyStr.all p s && PyStr.all p t.
Proof.
  induction s as [|c s IH]; simpl; [reflexivity|].
  rewrite IH, andb_assoc. reflexivity.
Qed.

(** A string splits at any length it reaches. *)
Lemma split_at (n : nat) s :
  (n <= PyStr.len s)%nat ->
  exists s1 s2, s = String.append s1 s2 /\ PyStr.len s1 = n.
Proof.
  unfold PyStr.len. revert s. induction n as [|n IH]; intros s L.
  - exists EmptyString, s. split; reflexivity.
  - destruct s as [|c s]; simpl in L; [lia|].
    destruct (IH s) as (s1 & s2 & -> & L1); [lia|].
    exists (String c s1), s2. simpl. split; [reflexivity|congruence].
Qed.

Lemma lang_at_least_cls p (n : nat) s :
  Re.lang (Re.at_least n (Re.Cls p)) s
  <-> (n <= PyStr.len s)%nat /\ PyStr.all p s = true.
Proof.
  unfold Re.at_least. rewrite lang_cat_iff. split.
  - intros (s1 & s2 & -> & H1 & H2).
    apply lang_times_cls in H1 as [L1 A1]. apply lang_star_cls in H2.
    rewrite len_append, all_append, A1, H2. split; [lia|reflexivity].
  - intros [L A]. destruct (split_at n s L) as (s1 & s2 & -> & L1).
    rewrite all_append in A. apply andb_true_iff in A as [A1 A2].
    exists s1, s2. split; [reflexivity|]. split.
    + apply lang_times_cls. split; assumption.
    + apply lang_star_cls. exact A2.
Qed.

Lemma lang_up_to_cls p (n : nat) s :
  Re.lang (Re.up_to n (Re.Cls p)) s
  <-> (PyStr.len s <= n)%nat /\ PyStr.all p s = true.
Proof.
  revert s. induction n as [|n IH]; intros s; simpl.
  - rewrite lang_eps_iff. split.
    + intros ->. split; [apply Nat.le_refl|reflexivity].
    + intros [L _]. destruct s; [reflexivity|]. unfold PyStr.len in L. simpl in L. lia.
  - split.
    + intros H. inversion H as [| | |? ? ? E|? ? ? C| | |]; subst.
      * apply lang_eps_iff in E. subst. split; [apply Nat.le_0_l|reflexivity].
      * apply lang_cat_iff in C as (s1 & s2 & -> & H1 & H2).
        apply lang_cls_iff in H1 as (c & -> & Hc). apply IH in H2 as [L A].
        simpl. rewrite Hc, A. unfold PyStr.len in *. simpl. split; [lia|reflexivity].
    + intros [L A]. destruct s as [|c s].
      * apply Re.lang_alt_l. constructor.
      * simpl in A. apply andb_true_iff in A as [Hc A].
        apply Re.lang_alt_r.
        apply (Re.lang_cat (Re.Cls p) _ (String c EmptyString) s).
        -- apply lang_cls_iff. eauto.
        -- apply IH. unfold PyStr.len in *. simpl in L. split; [lia|exact A].
Qed.

Lemma lang_from_to_cls p (m n : nat) s :
  (m <= n)%nat ->
  Re.lang (Re.from_to m n (Re.Cls p)) s
  <-> (m <= PyStr.len s <= n)%nat /\ PyStr.all p s = true.
Proof.
  intros Hmn. unfold Re.from_to. rewrite lang_cat_iff. split.
  - intros (s1 & s2 & -> & H1 & H2).
    apply lang_times_cls in H1 as [L1 A1]. apply lang_up_to_cls in H2 as [L2 A2].
    rewrite len_append, all_append, A1, A2. split; [lia|reflexivity].
  - intros [L A]. destruct (split_at m s (proj1 L)) as (s1 & s2 & -> & L1).
    rewrite all_append in A. apply andb_true_iff in A as [A1 A2].
    rewrite len_append in L.
    exists s1, s2. split; [reflexivity|]. split.
    + apply lang_times_cls. split; assumption.
    + apply lang_up_to_cls. split; [lia|exact A2].
Qed.

(** An anchored match of [s] is a match of the body on [s] without the
    newline that may end it. *)
Lemma match_anchored_iff (body : Re.regex) s :
  Re.match_anchored body s = true
  <-> exists t, with_optional_newline t s /\ Re.lang body t.
Proof.
  rewrite match_anchored_lang. unfold with_optional_newline. split.
  - intros [H|(t & -> & H)]; [exists s|exists t]; split; auto.
  - intros (t & [->| ->] & H); [left; exact H|right; exists t; split; auto].
Qed.

(** A rule of the form [if not re.match(...): raise ...; return value]. *)
Lemma checked_unless (c : bool) (message : string) (x : string) :
  (if negb c then ValueError message else Return x) = Return x <-> c = true.
Proof.
  destruct c; simpl; split; intros H; try reflexivity; discriminate H.
Qed.

End Shapes.

(** X16.  The catalog id rule accepts exactly the strings made of two
    uppercase ASCII letters, a hyphen and four decimal digits, and the same
    strings followed by one newline (the end anchor of the pattern stops
    before a final newline). *)
Theorem catalog_id_shape (s : string) :
  Catalog.validator_catalog_id s = Return s
  <-> exists letters digits,
        with_optional_newline (String.append letters (String "-" digits)) s
        /\ PyStr.len letters = 2%nat /\ PyStr.all Re.upper letters = true
        /\ PyStr.len digits = 4%nat /\ PyStr.all Re.digit digits = true.
Proof.
  unfold Catalog.validator_catalog_id, Catalog.catalog_id_pattern.
  rewrite checked_unless, match_anchored_iff. split.
  - intros (t & W & L).
    apply lang_cat_iff in L as (s1 & s2 & -> & H1 & H2).
    apply lang_times_cls in H1 as [L1 A1].
    apply lang_cat_iff in H2 as (s3 & s4 & -> & H3 & H4).
    apply lang_chr_iff in H3. subst s3.
    apply lang_times_cls in H4 as [L4 A4].
    exists s1, s4. repeat split; assumption.
  - intros (letters & digits & W & L1 & A1 & L2 & A2).
    exists (String.append letters (String "-" digits)). split; [exact W|].
    apply lang_cat_iff. exists letters, (String "-" digits). split; [reflexivity|].
    split; [apply lang_times_cls; split; assumption|].
    apply lang_cat_iff. exists (String "-" EmptyString), digits. split; [reflexivity|].
    split; [apply lang_chr_iff; reflexivity|apply lang_times_cls; split; assumption].
Qed.

(** X17.  The mission code rule accepts exactly the strings made of two
    uppercase ASCII letters, a hyphen, four decimal digits, a hyphen and one
    uppercase ASCII letter, and the same strings followed by one newline. *)
Theorem mission_code_shape (s : string) :
  Mission.validator_mission_code s = Return s
  <-> exists letters digits c,
        with_optional_newline
          (String.append letters
             (String "-" (String.append digits (String "-" (String c EmptyString))))) s
        /\ PyStr.len letters = 2%nat /\ PyStr.all Re.upper letters = true
        /\ PyStr.len digits = 4%nat /\ PyStr.all Re.digit digits = true
        /\ Re.upper c = true.
Proof.
  unfold Mission.validator_mission_code, Mission.mission_code_pattern.
  rewrite checked_unless, match_anchored_iff. split.
  - intros (t & W & L).
    apply lang_cat_iff in L as (s1 & s2 & -> & H1 & H2).
    apply lang_times_cls in H1 as [L1 A1].
    apply lang_cat_iff in H2 as (s3 & s4 & -> & H3 & H4).
    apply lang_chr_iff in H3. subst s3.
    apply lang_cat_iff in H4 as (s5 & s6 & -> & H5 & H6).
    apply lang_times_cls in H5 as [L5 A5].
    apply lang_cat_iff in H6 as (s7 & s8 & -> & H7 & H8).
    apply lang_chr_iff in H7. subst s7.
    apply lang_cls_iff in H8 as (c & -> & Hc).
    exists s1, s5, c. repeat split; assumption.
  - intros (letters & digits & c & W & L1 & A1 & L2 & A2 & Hc).
    eexists. split; [exact W|].
    apply lang_cat_iff. exists letters, (String "-" (String.append digits (String "-" (String c EmptyString)))).
    split; [reflexivity|]. split; [apply lang_times_cls; split; assumption|].
    apply lang_cat_iff.
    exists (String "-" EmptyString), (String.append digits (String "-" (String c EmptyString))).
    split; [reflexivity|]. split; [apply lang_chr_iff; reflexivity|].
    apply lang_cat_iff. exists digits, (String "-" (String c EmptyString)).
    split; [reflexivity|]. split; [apply lang_times_cls; split; assumption|].
    apply lang_cat_iff. exists (String "-" EmptyString), (String c EmptyString).
    split; [reflexivity|]. split; [apply lang_chr_iff; reflexivity|].
    apply lang_cls_iff. eauto.
Qed.

(** X18.  The flight id rule accepts exactly [FL-], five decimal digits, a
    hyphen and one uppercase ASCII letter, and the drone id rule exactly
    [DRN-] and four decimal digits; each also accepts its strings followed
    by one newline. *)
Theorem flight_and_drone_id_shapes (s : string) :
  (Dron.validator_flight_id s = Return s
   <-> exists digits c,
         with_optional_newline
           (String.append "FL-"
              (String.append digits (String "-" (String c EmptyString)))) s
         /\ PyStr.len digits = 5%nat /\ PyStr.all Re.digit digits = true
         /\ Re.upper c = true)
  /\
  (Dron.validator_drone_id s = Return s
   <-> exists digits,
         with_optional_newline (String.append "DRN-" digits) s
         /\ PyStr.len digits = 4%nat /\ PyStr.all Re.digit digits = true).
Proof.
  unfold Dron.validator_flight_id, Dron.flight_id_pattern,
         Dron.validator_drone_id, Dron.drone_id_pattern.
  rewrite !checked_unless, !match_anchored_iff. split; split.
  - intros (t & W & L).
    apply lang_cat_iff in L as (s1 & s2 & -> & H1 & H2).
    apply lang_lit_iff in H1. subst s1.
    apply lang_cat_iff in H2 as (s3 & s4 & -> & H3 & H4).
    apply lang_times_cls in H3 as [L3 A3].
    apply lang_cat_iff in H4 as (s5 & s6 & -> & H5 & H6).
    apply lang_chr_iff in H5. subst s5.
    apply lang_cls_iff in H6 as (c & -> & Hc).
    exists s3, c. repeat split; assumption.
  - intros (digits & c & W & L & A & Hc).
    eexists. split; [exact W|].
    apply lang_cat_iff.
    exists "FL-"%string, (String.append digits (String "-" (String c EmptyString))).
    split; [reflexivity|]. split; [apply lang_lit_iff; reflexivity|].
    apply lang_cat_iff. exists digits, (String "-" (String c EmptyString)).
    split; [reflexivity|]. split; [apply lang_times_cls; split; assumption|].
    apply lang_cat_iff. exists (String "-" EmptyString), (String c EmptyString).
    split; [reflexivity|]. split; [apply lang_chr_iff; reflexivity|].
    apply lang_cls_iff. eauto.
  - intros (t & W & L).
    apply lang_cat_iff in L as (s1 & s2 & -> & H1 & H2).
    apply lang_lit_iff in H1. subst s1.
    apply lang_times_cls in H2 as [L2 A2].
    exists s2. repeat split; assumption.
  - intros (digits & W & L & A).
    eexists. split; [exact W|].
    apply lang_cat_iff. exists "DRN-"%string, digits.
    split; [reflexivity|]. split; [apply lang_lit_iff; reflexivity|].
    apply lang_times_cls. split; assumption.
Qed.

(** X19.  The serial number rule accepts exactly the strings of six to
    twelve characters, each an uppercase ASCII letter or an ASCII digit, and
    the same strings followed by one newline. *)
Theorem serial_number_shape (s : string) :
  Clock.validator_serial_number s = Return s
  <-> exists t,
        with_optional_newline t s
        /\ (6 <= PyStr.len t <= 12)%nat
        /\ PyStr.all (Re.union Re.upper Re.ascii_digit) t = true.
Proof.
  unfold Clock.validator_serial_number, Clock.serial_number_pattern.
  rewrite checked_unless, match_anchored_iff.
  split; intros (t & W & H); exists t; (split; [exact W|]);
    apply (lang_from_to_cls _ 6 12); try exact H; lia.
Qed.

(** X20.  The email rule accepts exactly [local@domain.tld], where [local]
    is one or more characters among ASCII letters, digits and [._%+-],
    [domain] one or more among ASCII letters, digits, dots and hyphens, and
    [tld] two or more ASCII letters, and the same strings followed by one
    newline. *)
Theorem mail_shape (s : string) :
  Login.validator_mail s = Return s
  <-> exists local domain tld,
        with_optional_newline
          (String.append local
             (String "@" (String.append domain (String "." tld)))) s
        /\ (1 <= PyStr.len local)%nat
        /\ PyStr.all (Re.union Login.alnum_ascii (Re.one_of "._%+-")) local = true
        /\ (1 <= PyStr.len domain)%nat
        /\ PyStr.all (Re.union Login.alnum_ascii (Re.one_of ".-")) domain = true
        /\ (2 <= PyStr.len tld)%nat
        /\ PyStr.all (Re.union Re.lower Re.upper) tld = true.
Proof.
  unfold Login.validator_mail, Login.mail_pattern, Re.plus.
  rewrite checked_unless, match_anchored_iff. split.
  - intros (t & W & L).
    apply lang_cat_iff in L as (s1 & s2 & -> & H1 & H2).
    apply lang_at_least_cls in H1 as [L1 A1].
    apply lang_cat_iff in H2 as (s3 & s4 & -> & H3 & H4).
    apply lang_chr_iff in H3. subst s3.
    apply lang_cat_iff in H4 as (s5 & s6 & -> & H5 & H6).
    apply lang_at_least_cls in H5 as [L5 A5].
    apply lang_cat_iff in H6 as (s7 & s8 & -> & H7 & H8).
    apply lang_chr_iff in H7. subst s7.
    apply lang_at_least_cls in H8 as [L8 A8].
    exists s1, s5, s8. repeat split; assumption.
  - intros (loc & domain & tld & W & L1 & A1 & L2 & A2 & L3 & A3).
    eexists. split; [exact W|].
    apply lang_cat_iff.
    exists loc, (String "@" (String.append domain (String "." tld))).
    split; [reflexivity|]. split; [apply lang_at_least_cls; split; assumption|].
    apply lang_cat_iff.
    exists (String "@" EmptyString), (String.append domain (String "." tld)).
    split; [reflexivity|]. split; [apply lang_chr_iff; reflexivity|].
    apply lang_cat_iff. exists domain, (String "." tld).
    split; [reflexivity|]. split; [apply lang_at_least_cls; split; assumption|].
    apply lang_cat_iff. exists (String "." EmptyString), tld.
    split; [reflexivity|]. split; [apply lang_chr_iff; reflexivity|].
    apply lang_at_least_cls. split; assumption.
Qed.

Section Lookahead.

Implicit Types (p q : ascii -> bool) (s t : string).

Lemma lang_and_iff (r1 r2 : Re.regex) s :
  Re.lang (Re.And r1 r2) s <-> Re.lang r1 s /\ Re.lang r2 s.
Proof.
  split; intros H; [inversion H; subst; split; assumption|].
  constructor; apply H.
Qed.

Lemma all_true s : PyStr.all (fun _ => true) s = true.
Proof. induction s as [|c s IH]; simpl; [reflexivity|exact IH]. Qed.

Lemma has_append q s t : has q (String.append s t) = has q s || has q t.
Proof.
  induction s as [|c s IH]; simpl; [reflexivity|].
  rewrite IH, orb_assoc. reflexivity.
Qed.

Lemma has_split q s :
  has q s = true ->
  exists pre c post, s = String.append pre (String c post) /\ q c = true.
Proof.
  induction s as [|c s IH]; simpl; [discriminate|].
  destruct (q c) eqn:Q; simpl.
  - intros _. exists EmptyString, c, s. split; [reflexivity|exact Q].
  - intros H. destruct (IH H) as (pre & c' & post & -> & Q').
    exists (String c pre), c', post. split; [reflexivity|exact Q'].
Qed.

Lemma all_weaken p q s :
  (forall c, p c = true -> q c = true) -> PyStr.all p s = true -> PyStr.all q s = true.
Proof.
  intros W. induction s as [|c s IH]; simpl; [reflexivity|].
  intros H. apply andb_true_iff in H as [Hc H]. rewrite (W c Hc), (IH H). reflexivity.
Qed.

Lemma is_code_eq (n : N) (c : ascii) : PyStr.is_code n c = true -> c = ascii_of_N n.
Proof.
  unfold PyStr.is_code, PyStr.code. intros H. apply N.eqb_eq in H.
  rewrite <- H. symmetry. apply ascii_N_embedding.
Qed.

(** A class without the newline holds only characters the dot matches. *)
Lemma not_newline q c :
  q "010"%char = false -> q c = true -> negb (PyStr.is_code 10 c) = true.
Proof.
  intros Hq Hc. destruct (PyStr.is_code 10 c) eqn:E; [|reflexivity].
  apply is_code_eq in E. subst c.
  change (ascii_of_N 10) with "010"%char in Hc. congruence.
Qed.

(** [(?=.*[q])] at the start of a pattern: some character of the class
    stands in the input with no newline before it. *)
Lemma lang_lookahead q s :
  Re.lang (Re.lookahead (Re.Cat (Re.Star Re.dot) (Re.Cls q))) s
  <-> exists pre c post,
        s = String.append pre (String c post)
        /\ PyStr.all (fun c => negb (PyStr.is_code 10 c)) pre = true
        /\ q c = true.
Proof.
  unfold Re.lookahead, Re.dot, Re.any. rewrite lang_cat_iff. split.
  - intros (s1 & post & -> & H1 & _).
    apply lang_cat_iff in H1 as (pre & s2 & -> & H1 & H2).
    apply lang_star_cls in H1. apply lang_cls_iff in H2 as (c & -> & Hc).
    exists pre, c, post. split; [|split; assumption].
    clear. induction pre as [|a pre IH]; simpl; [reflexivity|rewrite IH; reflexivity].
  - intros (pre & c & post & -> & A & Hc).
    exists (String.append pre (String c EmptyString)), post. split.
    + clear. induction pre as [|a pre IH]; simpl; [reflexivity|rewrite IH; reflexivity].
    + split; [|apply lang_star_cls, all_true].
      apply lang_cat_iff. exists pre, (String c EmptyString).
      split; [reflexivity|]. split; [apply lang_star_cls; exact A|].
      apply lang_cls_iff. eauto.
Qed.

(** On an input made of a line of allowed characters and at most a final
    newline, the lookahead for a class without the newline asks that the
    line has a character of the class. *)
Lemma lookahead_on_line p q t s :
  p "010"%char = false -> q "010"%char = false ->
  PyStr.all p t = true ->
  with_optional_newline t s ->
  Re.lang (Re.lookahead (Re.Cat (Re.Star Re.dot) (Re.Cls q))) s <-> has q t = true.
Proof.
  intros Hp Hq A W. rewrite lang_lookahead. split.
  - intros (pre & c & post & E & _ & Hc).
    assert (has q s = true) as Hs.
    { rewrite E, has_append. simpl. rewrite Hc. apply orb_true_r. }
    destruct W as [->| ->]; [exact Hs|].
    rewrite has_append in Hs. simpl in Hs. rewrite Hq in Hs. simpl in Hs.
    rewrite orb_false_r in Hs. exact Hs.
  - intros H. apply has_split in H as (pre & c & post & -> & Hc).
    rewrite all_append in A. apply andb_true_iff in A as [Apre _].
    assert (PyStr.all (fun c => negb (PyStr.is_code 10 c)) pre = true) as N.
    { revert Apre. apply all_weaken. intros a. apply not_newline. exact Hp. }
    destruct W as [->| ->].
    + exists pre, c, post. repeat split; assumption.
    + exists pre, c, (String.append post (String "010" EmptyString)).
      split; [|split; assumption].
      clear. induction pre as [|a pre IH]; simpl; [reflexivity|rewrite IH; reflexivity].
Qed.

End Lookahead.

(** X21.  The password rule accepts exactly the strings of eight or more
    characters among ASCII letters, decimal digits and [@$!%*#?&] that hold
    at least one lowercase letter, one uppercase letter, one digit and one
    of the special characters, and the same strings followed by one
    newline. *)
Theorem password_shape (s : string) :
  Login.validator_password s = Return s
  <-> exists t,
        with_optional_newline t s
        /\ (8 <= PyStr.len t)%nat
        /\ PyStr.all (Re.union Re.upper
                        (Re.union Re.lower (Re.union Re.digit Login.special))) t = true
        /\ has Re.lower t = true /\ has Re.upper t = true
        /\ has Re.digit t = true /\ has Login.special t = true.
Proof.
  unfold Login.validator_password, Login.password_pattern.
  rewrite checked_unless, fullmatch_lang, !lang_and_iff.
  rewrite <- (fullmatch_lang (Re.Cat _ Re.dollar) s).
  change (Re.fullmatch (Re.Cat ?body Re.dollar) s) with (Re.match_anchored body s).
  rewrite match_anchored_iff.
  split.
  - intros (Hl & Hu & Hd & Hs & t & W & B).
    apply lang_at_least_cls in B as [L A].
    pose proof (fun q Hq => lookahead_on_line _ q t s eq_refl Hq A W) as Look.
    apply (Look Re.lower eq_refl) in Hl. apply (Look Re.upper eq_refl) in Hu.
    apply (Look Re.digit eq_refl) in Hd. apply (Look Login.special eq_refl) in Hs.
    exists t. repeat split; assumption.
  - intros (t & W & L & A & Hl & Hu & Hd & Hs).
    pose proof (fun q Hq => lookahead_on_line _ q t s eq_refl Hq A W) as Look.
    repeat split.
    + apply (Look Re.lower eq_refl). exact Hl.
    + apply (Look Re.upper eq_refl). exact Hu.
    + apply (Look Re.digit eq_refl). exact Hd.
    + apply (Look Login.special eq_refl). exact Hs.
    + exists t. split; [exact W|]. apply lang_at_least_cls. split; assumption.
Qed.

(** [re.search] for one character of a class finds it anywhere. *)
Lemma search_cls (p : ascii -> bool) (s : string) :
  Re.search (Re.Cls p) s = true <-> has p s = true.
Proof.
  unfold Re.search, Re.any. rewrite fullmatch_lang, lang_cat_iff. split.
  - intros (s1 & s2 & -> & _ & H).
    apply lang_cat_iff in H as (s3 & s4 & -> & H3 & _).
    apply lang_cls_iff in H3 as (c & -> & Hc).
    rewrite has_append. simpl. rewrite Hc. apply orb_true_r.
  - intros H. apply has_split in H as (pre & c & post & -> & Hc).
    exists pre, (String c post). split; [reflexivity|].
    split; [apply lang_star_cls, all_true|].
    apply lang_cat_iff. exists (String c EmptyString), post.
    split; [reflexivity|]. split; [apply lang_cls_iff; eauto|].
    apply lang_star_cls, all_true.
Qed.

(** X22.  The chemical formula rule asks only that an ASCII letter and a
    decimal digit occur somewhere in the string: it accepts exactly the
    strings that hold at least one of each, whatever else they hold and in
    whatever order. *)
Theorem chemical_formula_shape (s : string) :
  Catalog.validator_formula s = Return s
  <-> has (Re.union Re.upper Re.lower) s = true /\ has Re.digit s = true.
Proof.
  unfold Catalog.validator_formula.
  rewrite checked_if, orb_false_iff, !negb_false_iff, !search_cls. reflexivity.
Qed.

(** ** The length rules on text *)

Section Strip.

Lemma lstrip_blank (s : string) :
  PyStr.all PyStr.char_isspace s = true -> PyStr.lstrip s = EmptyString.
Proof.
  induction s as [|c s IH]; simpl; [reflexivity|].
  intros H. apply andb_true_iff in H as [Hc H]. rewrite Hc. apply IH. exact H.
Qed.

Lemma rstrip_blank (s : string) :
  PyStr.all PyStr.char_isspace s = true -> PyStr.rstrip s = EmptyString.
Proof.
  induction s as [|c s IH]; simpl; [reflexivity|].
  intros H. apply andb_true_iff in H as [Hc H]. rewrite (IH H), Hc. reflexivity.
Qed.

Lemma lstrip_lead (lead s : string) :
  PyStr.all PyStr.char_isspace lead = true ->
  PyStr.lstrip (String.append lead s) = PyStr.lstrip s.
Proof.
  induction lead as [|c lead IH]; simpl; [reflexivity|].
  intros H. apply andb_true_iff in H as [Hc H]. rewrite Hc. apply IH. exact H.
Qed.

Lemma lstrip_core (s : string) : begins_blank s = false -> PyStr.lstrip s = s.
Proof.
  destruct s as [|c s]; simpl; [reflexivity|]. intros ->. reflexivity.
Qed.

Lemma rstrip_core (core trail : string) :
  ends_blank core = false ->
  PyStr.all PyStr.char_isspace trail = true ->
  PyStr.rstrip (String.append core trail) = core.
Proof.
  intros E T. induction core as [|c core IH].
  - apply rstrip_blank. exact T.
  - destruct core as [|c' core].
    + cbn [String.append PyStr.rstrip]. rewrite (rstrip_blank trail T).
      cbn [ends_blank] in E. rewrite E. reflexivity.
    + change (PyStr.rstrip (String.append (String c (String c' core)) trail))
        with (match PyStr.rstrip (String.append (String c' core) trail) with
              | EmptyString =>
                  if PyStr.char_isspace c then EmptyString else String c EmptyString
              | t => String c t
              end).
      rewrite IH by exact E. reflexivity.
Qed.

(** The whitespace around a core is what [str.strip] removes. *)
Lemma strip_unique (s core : string) : core_of s core -> PyStr.strip s = core.
Proof.
  intros (lead & trail & -> & L & T & B & E). unfold PyStr.strip.
  rewrite lstrip_lead by exact L.
  destruct core as [|c core].
  - cbn [String.append]. rewrite (lstrip_blank trail T). reflexivity.
  - rewrite lstrip_core by exact B. apply rstrip_core; assumption.
Qed.

Lemma lstrip_split (s : string) :
  exists lead,
    s = String.append lead (PyStr.lstrip s)
    /\ PyStr.all PyStr.char_isspace lead = true
    /\ begins_blank (PyStr.lstrip s) = false.
Proof.
  induction s as [|c s (lead & E & L & B)].
  - exists EmptyString. repeat split.
  - simpl. destruct (PyStr.char_isspace c) eqn:C.
    + exists (String c lead). simpl. rewrite C, L, <- E. repeat split. exact B.
    + exists EmptyString. simpl. rewrite C. repeat split.
Qed.

Lemma rstrip_split (s : string) :
  exists trail,
    s = String.append (PyStr.rstrip s) trail
    /\ PyStr.all PyStr.char_isspace trail = true
    /\ ends_blank (PyStr.rstrip s) = false.
Proof.
  induction s as [|c s (trail & E & T & B)].
  - exists EmptyString. repeat split.
  - cbn [PyStr.rstrip]. destruct (PyStr.rstrip s) as [|c' t] eqn:R.
    + cbn [String.append] in E. subst trail.
      destruct (PyStr.char_isspace c) eqn:C.
      * exists (String c s). simpl. rewrite C, T. repeat split.
      * exists s. simpl. rewrite C. repeat split. exact T.
    + exists trail. cbn [String.append] in E |- *. rewrite <- E.
      repeat split; assumption.
Qed.

Lemma rstrip_begins (s : string) :
  begins_blank s = false -> begins_blank (PyStr.rstrip s) = false.
Proof.
  destruct s as [|c s]; [reflexivity|]. cbn [PyStr.rstrip begins_blank]. intros C.
  destruct (PyStr.rstrip s); [rewrite C|]; simpl; try rewrite C; reflexivity.
Qed.

(** Every string has a core, the one [str.strip] returns. *)
Lemma strip_core (s : string) : core_of s (PyStr.strip s).
Proof.
  destruct (lstrip_split s) as (lead & E & L & B).
  destruct (rstrip_split (PyStr.lstrip s)) as (trail & E' & T & B').
  exists lead, trail. unfold PyStr.strip. rewrite <- E', <- E.
  repeat split; try assumption. apply rstrip_begins. exact B.
Qed.

End Strip.

(** X23.  Every length rule on a text field counts the characters left once
    the whitespace on both sides of the value is removed, and returns the
    value as it was given.  Each value has such a core; a rule of minimum
    [n] accepts the value when its core has at least [n] characters and
    refuses it otherwise, however long the whitespace around the core (task
    description; event name; first name, last name and patronymic of a
    login; mineral name and country; clock brand, model and material;
    mission name, launch site and spacecraft; departure point and
    destination of a flight). *)
Theorem length_rules_measure_the_core (rule : string -> Checked string) (n : nat) :
  In (rule, n)
     [(To_Do_List.validate_description, 5%nat); (Events.validate_name, 3%nat);
      (Login.validator_first_name, 2%nat); (Login.validator_last_name, 2%nat);
      (Login.validator_patronymic, 2%nat);
      (Catalog.validator_name, 3%nat); (Catalog.validator_country, 2%nat);
      (Clock.validator_brand, 2%nat); (Clock.validator_model, 2%nat);
      (Clock.validator_material, 3%nat);
      (Mission.validator_mission_name, 3%nat); (Mission.validator_launch_site, 5%nat);
      (Mission.validator_spacecraft, 3%nat);
      (Dron.validator_departure_point, 3%nat); (Dron.validator_destination, 3%nat)] ->
  forall s : string,
    (exists core, core_of s core)
    /\ (forall core, core_of s core ->
          ((n <= PyStr.len core)%nat -> rule s = Return s)
          /\ ((PyStr.len core < n)%nat -> exists message, rule s = ValueError message)).
Proof.
  intros Hin s. split; [exists (PyStr.strip s); apply strip_core|].
  intros core Hcore. apply strip_unique in Hcore. simpl in Hin.
  repeat (destruct Hin as [Hin|Hin];
          [injection Hin as <- <-;
           unfold To_Do_List.validate_description, Events.validate_name,
                  Login.validator_first_name, Login.validator_last_name,
                  Login.validator_patronymic,
                  Catalog.validator_name, Catalog.validator_country,
                  Clock.validator_brand, Clock.validator_model, Clock.validator_material,
                  Mission.validator_mission_name, Mission.validator_launch_site,
                  Mission.validator_spacecraft,
                  Dron.validator_departure_point, Dron.validator_destination;
           rewrite Hcore;
           match goal with
           | |- context [(?a <? ?b)%nat] => destruct (Nat.ltb_spec a b)
           end;
           split; intros Len; first [reflexivity | lia | eexists; reflexivity]|]).
  destruct Hin.
Qed.

Lemma length_rules_measure_the_core_witness :
  exists message, Catalog.validator_name "  ab      " = ValueError message.
Proof.
  destruct (length_rules_measure_the_core Catalog.validator_name 3) with (s := "  ab      ")
    as [_ Measured].
  - simpl. tauto.
  - apply (Measured "ab").
    + exists "  ", "      ". repeat split.
    + simpl. lia.
Defined.
